(** * UniversalFingerprint: slot occupancy cache, capacity detection and
      result-code normalisation

    A shallow embedding of [UniversalFingerprint.cpp],
    [utility/UF_SensorDetector.cpp], [utility/UF_MemoryManager.cpp] and
    [utility/UF_Common.h].

    - [uint8_t], [uint16_t] and [uint32_t] values are integers in [Z]; the
      places where the C++ arithmetic can wrap are written with [u8], [u16]
      and [u32].
    - The [bool* _slotOccupancy] array is an [option (list bool)]: [None] is
      the null pointer, element [i] is slot [i + 1].
    - Everything behind the [Adafruit_Fingerprint] pointer, the serial port
      and the Arduino clock is an abstract environment that answers one
      [Call] at a time; every call is appended to a trace, so that "no device
      round trip" is a statement about the trace.
    - Methods that talk to the device are state transformers over the pair
      of the C++ object and the world. Console output through [Serial.print]
      is not part of any state below and is left out. *)

From Stdlib Require Import ZArith String List Bool Lia.
From stdpp Require Import base tactics option list list_numbers numbers sorting.

Local Open Scope string_scope.
Local Open Scope Z_scope.

(** ** Fixed-width integers *)

Definition u8 (x : Z) : Z := x mod 2 ^ 8.
Definition u16 (x : Z) : Z := x mod 2 ^ 16.
Definition u32 (x : Z) : Z := x mod 2 ^ 32.

(** ** UF_Common.h *)

Inductive UF_SensorType :=
| UF_SENSOR_AS608
| UF_SENSOR_R307
| UF_SENSOR_GT511C3
| UF_SENSOR_ZFM60
| UF_SENSOR_ZFM20
| UF_SENSOR_AUTO.

#[global] Instance UF_SensorType_eq_dec : EqDecision UF_SensorType.
Proof. solve_decision. Defined.

(** The enumerator values of [UF_SensorType]. *)
Definition UF_SensorType_value (t : UF_SensorType) : Z :=
  match t with
  | UF_SENSOR_AS608 => 608
  | UF_SENSOR_R307 => 307
  | UF_SENSOR_GT511C3 => 511
  | UF_SENSOR_ZFM60 => 60
  | UF_SENSOR_ZFM20 => 20
  | UF_SENSOR_AUTO => 0
  end.

Inductive UF_ErrorCode :=
| UF_OK
| UF_ERROR_COMM
| UF_ERROR_NO_SENSOR
| UF_ERROR_INVALID_ID
| UF_ERROR_SLOT_FULL
| UF_ERROR_TIMEOUT
| UF_ERROR_SENSOR_BUSY
| UF_ERROR_PACKET
| UF_ERROR_NOT_ENROLLED
| UF_ERROR_NO_FINGER
| UF_ERROR_IMAGE_MESS
| UF_ERROR_FEATURE_FAIL
| UF_ERROR_IMAGE_FAIL
| UF_ERROR_DUPLICATE_ID
| UF_ERROR_NOT_SUPPORTED
| UF_ERROR_INVALID_PARAM.

#[global] Instance UF_ErrorCode_eq_dec : EqDecision UF_ErrorCode.
Proof. solve_decision. Defined.

(** The enumerator values of [UF_ErrorCode] ([0x00] to [0x0F]). *)
Definition UF_ErrorCode_value (e : UF_ErrorCode) : Z :=
  match e with
  | UF_OK => 0
  | UF_ERROR_COMM => 1
  | UF_ERROR_NO_SENSOR => 2
  | UF_ERROR_INVALID_ID => 3
  | UF_ERROR_SLOT_FULL => 4
  | UF_ERROR_TIMEOUT => 5
  | UF_ERROR_SENSOR_BUSY => 6
  | UF_ERROR_PACKET => 7
  | UF_ERROR_NOT_ENROLLED => 8
  | UF_ERROR_NO_FINGER => 9
  | UF_ERROR_IMAGE_MESS => 10
  | UF_ERROR_FEATURE_FAIL => 11
  | UF_ERROR_IMAGE_FAIL => 12
  | UF_ERROR_DUPLICATE_ID => 13
  | UF_ERROR_NOT_SUPPORTED => 14
  | UF_ERROR_INVALID_PARAM => 15
  end.

Record UF_SensorInfo := {
  type : UF_SensorType;
  modelName : string;
  vendor : string;
  capacity : Z;
  packetSize : Z;
  defaultBaud : Z;
  address : Z;
  hasLED : bool;
  hasTouchSensor : bool
}.

(** [UF_DatabaseStats] without its [float usagePercentage] member. *)
Record UF_DatabaseStats := {
  totalSlots : Z;
  occupiedSlots : Z;
  freeSlots : Z;
  firstFreeSlot : Z;
  lastFreeSlot : Z
}.

(** ** The sensor capabilities table of UniversalFingerprint.cpp *)

Definition SENSOR_DB : list UF_SensorInfo :=
  [ Build_UF_SensorInfo UF_SENSOR_AS608 "AS608" "Adafruit" 162 128 57600 1 true true;
    Build_UF_SensorInfo UF_SENSOR_R307 "R307" "ZHONGSEN" 1000 256 57600 1 true true;
    Build_UF_SensorInfo UF_SENSOR_GT511C3 "GT-511C3" "Grow" 200 512 9600 1 false false;
    Build_UF_SensorInfo UF_SENSOR_ZFM60 "ZFM-60" "ZHONGSEN" 300 128 57600 1 true true;
    Build_UF_SensorInfo UF_SENSOR_ZFM20 "ZFM-20" "ZHONGSEN" 256 128 57600 1 false true;
    Build_UF_SensorInfo UF_SENSOR_AUTO "AUTO" "Unknown" 0 0 0 0 false false ].

(** [for (const auto& info : SENSOR_DB) if (info.type == t) { ...; break; }] *)
Definition SENSOR_DB_lookup (t : UF_SensorType) : option UF_SensorInfo :=
  List.find (fun info => bool_decide (type info = t)) SENSOR_DB.

(** ** The external collaborators *)

(** The status constants of [Adafruit_Fingerprint.h]. The header is not part
    of the sources, so the constants the code names are parameters. *)
Record VendorCodes := {
  FINGERPRINT_OK : Z;
  FINGERPRINT_NOFINGER : Z;
  FINGERPRINT_IMAGEFAIL : Z;
  FINGERPRINT_IMAGEMESS : Z;
  FINGERPRINT_PACKETRECIEVEERR : Z;
  FINGERPRINT_FEATUREFAIL : Z;
  FINGERPRINT_INVALIDIMAGE : Z;
  FINGERPRINT_ENROLLMISMATCH : Z;
  FINGERPRINT_BADLOCATION : Z;
  FINGERPRINT_DBRANGEFAIL : Z;
  FINGERPRINT_UPLOADFEATUREFAIL : Z;
  FINGERPRINT_PACKETRESPONSEFAIL : Z;
  FINGERPRINT_UPLOADFAIL : Z;
  FINGERPRINT_DELETEFAIL : Z;
  FINGERPRINT_DBCLEARFAIL : Z;
  FINGERPRINT_PASSFAIL : Z;
  FINGERPRINT_INVALIDREG : Z;
  FINGERPRINT_FLASHERR : Z
}.

(** One request to something outside the library: the serial port, the
    Arduino clock, or a method of the [Adafruit_Fingerprint] driver. *)
Inductive Call :=
| SerialBegin (software : bool) (baudRate : Z)
| Delay (ms : Z)
| Millis
| FingerBegin (baudRate : Z)
| VerifyPassword
| GetParameters
| GetTemplateCount (id : Z)
| GetImage
| Image2Tz (slot : Z)
| CreateModel
| StoreModel (id : Z)
| DeleteModel (id : Z).

(** Calls that reach the fingerprint module itself. *)
Definition is_device_call (c : Call) : bool :=
  match c with
  | SerialBegin _ _ | Delay _ | Millis => false
  | _ => true
  end.

(** The platform: the header's constants and an environment of type [E]
    that answers each call with an integer and moves to its next state. *)
Class Platform (E : Type) := {
  codes : VendorCodes;
  respond : E -> Call -> Z * E
}.

Record World (E : Type) := mkWorld {
  env : E;
  trace : list Call
}.
Arguments mkWorld {E}.
Arguments env {E}.
Arguments trace {E}.

(** ** State transformers *)

Definition M (S A : Type) : Type := S -> A * S.

Definition ret {S A} (a : A) : M S A := fun s => (a, s).

Definition bind {S A B} (m : M S A) (k : A -> M S B) : M S B :=
  fun s => let (a, s') := m s in k a s'.

Notation "'let*' x ':=' c 'in' k" := (bind c (fun x => k))
  (at level 10, x pattern, c at level 100, k at level 200).
Notation "c ';;' k" := (bind c (fun _ => k))
  (at level 100, k at level 200, right associativity, only parsing).

Definition get {S} : M S S := fun s => (s, s).
Definition modify {S} (f : S -> S) : M S unit := fun s => (tt, f s).

(** A method of an object of type [O] running in the world. *)
Abbreviation Method E O A := (M (O * World E) A).

Definition this {E O} : Method E O O := fun s => (fst s, s).
Definition update {E O} (f : O -> O) : Method E O unit :=
  fun s => (tt, (f (fst s), snd s)).

Section Calls.
Context {E : Type} `{!Platform E}.

(** Issue one call: the environment answers and the call is recorded. *)
Definition call {O} (c : Call) : Method E O Z :=
  fun s =>
    let (r, e') := respond (env (snd s)) c in
    (r, (fst s, mkWorld e' (trace (snd s) ++ [c]))).

(** Driver methods declared to return [uint8_t]. *)
Definition call8 {O} (c : Call) : Method E O Z :=
  let* r := call c in ret (u8 r).

(** Run a method of a sub-object [P] from a method of [O]. *)
Definition on {O P A} (p : P) (m : Method E P A) : Method E O (A * P) :=
  fun s =>
    let '(a, (p', w')) := m (p, snd s) in
    ((a, p'), (fst s, w')).

End Calls.

(** ** Result translation: [UniversalFingerprint::_convertAdafruitError] *)

(** The [case] labels of the [switch], in source order, each with the value
    its branch returns. *)
Definition convert_table (vc : VendorCodes) : list (Z * UF_ErrorCode) :=
  [ (FINGERPRINT_OK vc, UF_OK);
    (FINGERPRINT_NOFINGER vc, UF_ERROR_NO_FINGER);
    (FINGERPRINT_IMAGEFAIL vc, UF_ERROR_IMAGE_FAIL);
    (FINGERPRINT_IMAGEMESS vc, UF_ERROR_IMAGE_MESS);
    (FINGERPRINT_PACKETRECIEVEERR vc, UF_ERROR_COMM);
    (FINGERPRINT_FEATUREFAIL vc, UF_ERROR_FEATURE_FAIL);
    (FINGERPRINT_INVALIDIMAGE vc, UF_ERROR_IMAGE_FAIL);
    (FINGERPRINT_ENROLLMISMATCH vc, UF_ERROR_FEATURE_FAIL);
    (FINGERPRINT_BADLOCATION vc, UF_ERROR_INVALID_ID);
    (FINGERPRINT_DBRANGEFAIL vc, UF_ERROR_INVALID_ID);
    (FINGERPRINT_UPLOADFEATUREFAIL vc, UF_ERROR_FEATURE_FAIL);
    (FINGERPRINT_PACKETRESPONSEFAIL vc, UF_ERROR_COMM);
    (FINGERPRINT_UPLOADFAIL vc, UF_ERROR_COMM);
    (FINGERPRINT_DELETEFAIL vc, UF_ERROR_COMM);
    (FINGERPRINT_DBCLEARFAIL vc, UF_ERROR_COMM);
    (FINGERPRINT_PASSFAIL vc, UF_ERROR_COMM);
    (FINGERPRINT_INVALIDREG vc, UF_ERROR_INVALID_PARAM);
    (FINGERPRINT_FLASHERR vc, UF_ERROR_COMM) ].

(** [switch (error) { case L: return V; ... default: return d; }] *)
Fixpoint switch_on {A} (error : Z) (cases : list (Z * A)) (default : A) : A :=
  match cases with
  | [] => default
  | (label, value) :: rest =>
      if error =? label then value else switch_on error rest default
  end.

Definition _convertAdafruitError (vc : VendorCodes) (error : Z) : UF_ErrorCode :=
  switch_on error (convert_table vc) UF_ERROR_COMM.

(** The vendor codes the [switch] names. *)
Definition mapped_codes (vc : VendorCodes) : list Z := (convert_table vc).*1.

(** [UniversalFingerprint::errorToString], on the numeric value the
    [UF_ErrorCode] argument carries. *)
Definition errorToString (error : Z) : string :=
  switch_on error
    [ (UF_ErrorCode_value UF_OK, "Success");
      (UF_ErrorCode_value UF_ERROR_COMM, "Communication error");
      (UF_ErrorCode_value UF_ERROR_NO_SENSOR, "No sensor found");
      (UF_ErrorCode_value UF_ERROR_INVALID_ID, "Invalid template ID");
      (UF_ErrorCode_value UF_ERROR_SLOT_FULL, "No empty slots available");
      (UF_ErrorCode_value UF_ERROR_TIMEOUT, "Operation timeout");
      (UF_ErrorCode_value UF_ERROR_SENSOR_BUSY, "Sensor is busy");
      (UF_ErrorCode_value UF_ERROR_PACKET, "Invalid packet");
      (UF_ErrorCode_value UF_ERROR_NOT_ENROLLED, "Finger not enrolled");
      (UF_ErrorCode_value UF_ERROR_NO_FINGER, "No finger detected");
      (UF_ErrorCode_value UF_ERROR_IMAGE_MESS, "Image too messy");
      (UF_ErrorCode_value UF_ERROR_FEATURE_FAIL, "Feature extraction failed");
      (UF_ErrorCode_value UF_ERROR_IMAGE_FAIL, "Image capture failed");
      (UF_ErrorCode_value UF_ERROR_DUPLICATE_ID, "Slot already occupied");
      (UF_ErrorCode_value UF_ERROR_NOT_SUPPORTED, "Feature not supported");
      (UF_ErrorCode_value UF_ERROR_INVALID_PARAM, "Invalid parameter") ]
    "Unknown error".

(** ** utility/UF_SensorDetector.cpp *)

Module UF_SensorDetector.

Record t := {
  _detectedType : UF_SensorType;
  _detectedCapacity : Z
}.

(** The constructor. *)
Definition new : t :=
  {| _detectedType := UF_SENSOR_AUTO; _detectedCapacity := 0 |}.

Definition set_detectedType (v : UF_SensorType) (d : t) : t :=
  {| _detectedType := v; _detectedCapacity := _detectedCapacity d |}.
Definition set_detectedCapacity (v : Z) (d : t) : t :=
  {| _detectedType := _detectedType d; _detectedCapacity := v |}.

Section Methods.
Context {E : Type} `{!Platform E}.

Definition _testSlot (id : Z) : Method E t bool :=
  let* result := call8 (GetTemplateCount id) in
  ret (result =? FINGERPRINT_OK codes).

Definition detectByCapacity : Method E t UF_SensorType :=
  let* r1000 := _testSlot 1000 in
  if r1000 then ret UF_SENSOR_R307 else
  let* r300 := _testSlot 300 in
  if r300 then ret UF_SENSOR_ZFM60 else
  let* r256 := _testSlot 256 in
  if r256 then ret UF_SENSOR_ZFM20 else
  let* r200 := _testSlot 200 in
  if r200 then ret UF_SENSOR_GT511C3 else
  let* r162 := _testSlot 162 in
  if r162 then ret UF_SENSOR_AS608 else
  ret UF_SENSOR_AUTO.

Definition detectByParameters : Method E t UF_SensorType :=
  let* param := call GetParameters in
  if u32 param =? 0 then ret UF_SENSOR_AUTO else
  ret UF_SENSOR_AUTO.

Definition detect : Method E t UF_SensorType :=
  let* byParameters := detectByParameters in
  update (set_detectedType byParameters) ;;
  let* d := this in
  (if bool_decide (_detectedType d = UF_SENSOR_AUTO) then
     let* byCapacity := detectByCapacity in
     update (set_detectedType byCapacity)
   else ret tt) ;;
  let* d := this in
  update (set_detectedCapacity
            match _detectedType d with
            | UF_SENSOR_AS608 => 162
            | UF_SENSOR_R307 => 1000
            | UF_SENSOR_GT511C3 => 200
            | UF_SENSOR_ZFM60 => 300
            | UF_SENSOR_ZFM20 => 256
            | UF_SENSOR_AUTO => 162
            end) ;;
  ret (_detectedType d).

Definition getSensorName (d : t) : string :=
  match _detectedType d with
  | UF_SENSOR_AS608 => "AS608"
  | UF_SENSOR_R307 => "R307"
  | UF_SENSOR_GT511C3 => "GT-511C3"
  | UF_SENSOR_ZFM60 => "ZFM-60"
  | UF_SENSOR_ZFM20 => "ZFM-20"
  | UF_SENSOR_AUTO => "Unknown"
  end.

(** The loop [while (low <= high)] of [_findMaxCapacity]. The interval
    shrinks with every turn; [fuel] bounds the number of turns and [None] is
    the answer when it runs out. *)
Fixpoint _findMaxCapacity_loop (fuel : nat) (low high maxFound : Z) (s : t * World E)
  : option (Z * (t * World E)) :=
  match fuel with
  | O => None
  | S fuel' =>
      if low <=? high then
        let mid := u16 ((low + high) / 2) in
        let (addressable, s1) := _testSlot mid s in
        if addressable
        then _findMaxCapacity_loop fuel' (u16 (mid + 1)) high mid s1
        else _findMaxCapacity_loop fuel' low (u16 (mid - 1)) maxFound s1
      else Some (maxFound, s)
  end.

Definition _findMaxCapacity (fuel : nat) (s : t * World E)
  : option (Z * (t * World E)) :=
  _findMaxCapacity_loop fuel 1 1000 0 s.

End Methods.

(** *** The detection algorithm in the words of the design

    The catalog of known profiles is [SENSOR_DB] without its terminator
    entry; it is walked by capacity, largest first, and the first profile
    whose largest slot index is addressable is the match. *)

Definition catalog : list UF_SensorInfo :=
  List.filter (fun info => negb (bool_decide (type info = UF_SENSOR_AUTO))) SENSOR_DB.

Definition larger_first (a b : UF_SensorInfo) : Prop := capacity b <= capacity a.

#[global] Instance larger_first_dec a b : Decision (larger_first a b).
Proof. unfold larger_first. apply _. Defined.

Definition catalog_descending : list UF_SensorInfo := merge_sort larger_first catalog.

(** The match, for a device that accepts the slot indices [addressable]
    holds of: the first profile of the list whose largest slot index is
    accepted, and no profile when none is. *)
Definition first_accepted (addressable : Z -> bool) (profiles : list UF_SensorInfo)
  : UF_SensorType :=
  match List.find (fun profile => addressable (capacity profile)) profiles with
  | Some profile => type profile
  | None => UF_SENSOR_AUTO
  end.

(** The slot indices the walk asks the device about: those of the profiles
    up to and including the first accepted one. *)
Fixpoint probes_until_accepted (addressable : Z -> bool) (profiles : list UF_SensorInfo)
  : list Z :=
  match profiles with
  | [] => []
  | profile :: rest =>
      capacity profile
      :: (if addressable (capacity profile) then []
          else probes_until_accepted addressable rest)
  end.

Section Model.
Context {E : Type} `{!Platform E}.

(** The walk itself, against the device: each profile's largest slot index
    is put to the device with the template-count query, and the answer
    [FINGERPRINT_OK] means that it is addressable. *)
Fixpoint first_addressable (profiles : list UF_SensorInfo) : Method E t UF_SensorType :=
  match profiles with
  | [] => ret UF_SENSOR_AUTO
  | profile :: rest =>
      let* answer := call8 (GetTemplateCount (capacity profile)) in
      if answer =? FINGERPRINT_OK codes then ret (type profile)
      else first_addressable rest
  end.

End Model.

End UF_SensorDetector.

(** [memset(a, 0, n * sizeof(bool))] on an array that has the elements [a]. *)
Definition memset0 (a : list bool) (n : Z) : list bool :=
  replicate (Nat.min (Z.to_nat n) (length a)) false ++ drop (Z.to_nat n) a.

(** ** utility/UF_MemoryManager.cpp *)

Module UF_MemoryManager.

(** [_finger] is the pointer to the driver: [None] is the null pointer, and
    [Some tt] points to the one driver there is, the device of the world. *)
Record t := {
  _finger : option unit;
  _capacity : Z;
  _enrolledCount : Z;
  _slotMap : option (list bool)
}.

(** The constructor. *)
Definition new (finger : option unit) (capacity : Z) : t :=
  {| _finger := finger; _capacity := capacity; _enrolledCount := 0; _slotMap := None |}.

Definition _validateID (m : t) (id : Z) : bool :=
  (1 <=? id) && (id <=? _capacity m).

(** [_slotMap[i]], for an index the caller has validated. *)
Definition slot_at (m : t) (i : Z) : bool :=
  match _slotMap m with
  | Some a => default false (a !! Z.to_nat i)
  | None => false
  end.

Definition isSlotOccupied (m : t) (id : Z) : bool :=
  if negb (_validateID m id) || negb (bool_decide (is_Some (_slotMap m))) then false
  else slot_at m (id - 1).

(** Returns the [bool] result and the manager after the call. *)
Definition updateSlot (id : Z) (occupied : bool) (m : t) : bool * t :=
  if negb (_validateID m id) || negb (bool_decide (is_Some (_slotMap m))) then (false, m)
  else
    let current := slot_at m (id - 1) in
    let map' := (fun a => <[Z.to_nat (id - 1) := occupied]> a) <$> _slotMap m in
    let count' :=
      if current && negb occupied then
        if 0 <? _enrolledCount m then u16 (_enrolledCount m - 1) else _enrolledCount m
      else if negb current && occupied then u16 (_enrolledCount m + 1)
      else _enrolledCount m in
    (true, {| _finger := _finger m; _capacity := _capacity m;
              _enrolledCount := count'; _slotMap := map' |}).

(** The loop [for (uint16_t i = start - 1; i < _capacity; i++)] of
    [findEmptySlot]; [n] is the number of iterations left. *)
Fixpoint findEmptySlot_loop (m : t) (n : nat) (i : Z) : Z :=
  match n with
  | O => 0
  | S n' =>
      if negb (slot_at m i) then u16 (i + 1)
      else findEmptySlot_loop m n' (i + 1)
  end.

Definition findEmptySlot (m : t) (start : Z) : Z :=
  if negb (bool_decide (is_Some (_slotMap m))) || (start <? 1) || (start >? _capacity m)
  then 0
  else findEmptySlot_loop m (Z.to_nat (_capacity m - (start - 1))) (start - 1).

(** The loop of [findEmptySlots],
    [for (uint16_t i = start - 1; i < _capacity && found < count; i++)];
    [n] is the number of iterations the first condition leaves. The
    [results] array is the list of its elements. *)
Fixpoint findEmptySlots_loop (m : t) (n : nat) (i found count : Z) (results : list Z)
  : Z * list Z :=
  match n with
  | O => (found, results)
  | S n' =>
      if found <? count then
        if negb (slot_at m i)
        then findEmptySlots_loop m n' (i + 1) (u16 (found + 1)) count
               (<[Z.to_nat found := u16 (i + 1)]> results)
        else findEmptySlots_loop m n' (i + 1) found count results
      else (found, results)
  end.

(** [results] is [None] for a null pointer; the second component is the
    array after the call. *)
Definition findEmptySlots (m : t) (count : Z) (results : option (list Z)) (start : Z)
  : Z * option (list Z) :=
  match results with
  | None => (0, None)
  | Some r =>
      if negb (bool_decide (is_Some (_slotMap m))) || (count =? 0) then (0, Some r)
      else
        let i := u16 (start - 1) in
        let (found, r') := findEmptySlots_loop m (Z.to_nat (_capacity m - i)) i 0 count r in
        (found, Some r')
  end.

(** The loop [for (uint16_t i = nextEmpty + 1; i <= _capacity; i++)] of
    [defragment]; [n] is the number of iterations left. *)
Fixpoint defragment_loop (m : t) (n : nat) (i : Z) : bool :=
  match n with
  | O => true
  | S n' => if isSlotOccupied m i then false else defragment_loop m n' (i + 1)
  end.

Definition defragment (m : t) : bool :=
  let nextEmpty := findEmptySlot m 1 in
  defragment_loop m (Z.to_nat (_capacity m - nextEmpty)) (u16 (nextEmpty + 1)).

(** The three reference parameters [total], [occupied] and [free]. *)
Definition getStatistics (m : t) : bool * (Z * Z * Z) :=
  (true, (_capacity m, _enrolledCount m, u16 (_capacity m - _enrolledCount m))).

Definition set_slotMap (v : option (list bool)) (m : t) : t :=
  {| _finger := _finger m; _capacity := _capacity m;
     _enrolledCount := _enrolledCount m; _slotMap := v |}.
Definition set_enrolledCount (v : Z) (m : t) : t :=
  {| _finger := _finger m; _capacity := _capacity m;
     _enrolledCount := v; _slotMap := _slotMap m |}.

Section Scanning.
Context {E : Type} `{!Platform E}.

(** The loop of [scanAllSlots]; [n] is the number of iterations left. *)
Fixpoint scanAllSlots_loop (n : nat) (i : Z) : Method E t unit :=
  match n with
  | O => ret tt
  | S n' =>
      let id := u16 (i + 1) in
      let* result := call8 (GetTemplateCount id) in
      (if result =? FINGERPRINT_OK codes then
         update (fun m => set_slotMap ((fun a => <[Z.to_nat i := true]> a) <$> _slotMap m) m) ;;
         update (fun m => set_enrolledCount (u16 (_enrolledCount m + 1)) m)
       else
         update (fun m => set_slotMap ((fun a => <[Z.to_nat i := false]> a) <$> _slotMap m) m)) ;;
      scanAllSlots_loop n' (i + 1)
  end.

Definition scanAllSlots : Method E t bool :=
  let* m := this in
  if negb (bool_decide (is_Some (_slotMap m))) || negb (bool_decide (is_Some (_finger m)))
  then ret false else
  update (set_enrolledCount 0) ;;
  scanAllSlots_loop (Z.to_nat (_capacity m)) 0 ;;
  ret true.

(** [allocated] is what [new bool[_capacity]] gives: [None] for the null
    pointer of a failed allocation, and otherwise the fresh array, whose
    elements are whatever the memory held. *)
Definition init (allocated : option (list bool)) : Method E t bool :=
  let* m := this in
  if _capacity m =? 0 then ret false else
  update (set_slotMap allocated) ;;
  let* m := this in
  if negb (bool_decide (is_Some (_slotMap m))) then ret false else
  update (fun m => set_slotMap ((fun a => memset0 a (_capacity m)) <$> _slotMap m) m) ;;
  scanAllSlots.

End Scanning.

End UF_MemoryManager.

(** ** UniversalFingerprint.h: the object *)

Record UniversalFingerprint := {
  _sensorType : UF_SensorType;
  _capacity : Z;
  _enrolledCount : Z;
  _initialized : bool;
  _databaseScanned : bool;
  _slotOccupancy : option (list bool);
  _useSoftwareSerial : bool;
  _memoryManager : option UF_MemoryManager.t;
  _sensorDetector : option UF_SensorDetector.t
}.

Definition set_sensorType (v : UF_SensorType) (o : UniversalFingerprint) :=
  {| _sensorType := v; _capacity := _capacity o;
     _enrolledCount := _enrolledCount o; _initialized := _initialized o;
     _databaseScanned := _databaseScanned o; _slotOccupancy := _slotOccupancy o;
     _useSoftwareSerial := _useSoftwareSerial o;
     _memoryManager := _memoryManager o; _sensorDetector := _sensorDetector o |}.

Definition set_capacity (v : Z) (o : UniversalFingerprint) :=
  {| _sensorType := _sensorType o; _capacity := v;
     _enrolledCount := _enrolledCount o; _initialized := _initialized o;
     _databaseScanned := _databaseScanned o; _slotOccupancy := _slotOccupancy o;
     _useSoftwareSerial := _useSoftwareSerial o;
     _memoryManager := _memoryManager o; _sensorDetector := _sensorDetector o |}.

Definition set_enrolledCount (v : Z) (o : UniversalFingerprint) :=
  {| _sensorType := _sensorType o; _capacity := _capacity o;
     _enrolledCount := v; _initialized := _initialized o;
     _databaseScanned := _databaseScanned o; _slotOccupancy := _slotOccupancy o;
     _useSoftwareSerial := _useSoftwareSerial o;
     _memoryManager := _memoryManager o; _sensorDetector := _sensorDetector o |}.

Definition set_initialized (v : bool) (o : UniversalFingerprint) :=
  {| _sensorType := _sensorType o; _capacity := _capacity o;
     _enrolledCount := _enrolledCount o; _initialized := v;
     _databaseScanned := _databaseScanned o; _slotOccupancy := _slotOccupancy o;
     _useSoftwareSerial := _useSoftwareSerial o;
     _memoryManager := _memoryManager o; _sensorDetector := _sensorDetector o |}.

Definition set_databaseScanned (v : bool) (o : UniversalFingerprint) :=
  {| _sensorType := _sensorType o; _capacity := _capacity o;
     _enrolledCount := _enrolledCount o; _initialized := _initialized o;
     _databaseScanned := v; _slotOccupancy := _slotOccupancy o;
     _useSoftwareSerial := _useSoftwareSerial o;
     _memoryManager := _memoryManager o; _sensorDetector := _sensorDetector o |}.

Definition set_slotOccupancy (v : option (list bool)) (o : UniversalFingerprint) :=
  {| _sensorType := _sensorType o; _capacity := _capacity o;
     _enrolledCount := _enrolledCount o; _initialized := _initialized o;
     _databaseScanned := _databaseScanned o; _slotOccupancy := v;
     _useSoftwareSerial := _useSoftwareSerial o;
     _memoryManager := _memoryManager o; _sensorDetector := _sensorDetector o |}.

Definition set_memoryManager (v : option UF_MemoryManager.t) (o : UniversalFingerprint) :=
  {| _sensorType := _sensorType o; _capacity := _capacity o;
     _enrolledCount := _enrolledCount o; _initialized := _initialized o;
     _databaseScanned := _databaseScanned o; _slotOccupancy := _slotOccupancy o;
     _useSoftwareSerial := _useSoftwareSerial o;
     _memoryManager := v; _sensorDetector := _sensorDetector o |}.

Definition set_sensorDetector (v : option UF_SensorDetector.t) (o : UniversalFingerprint) :=
  {| _sensorType := _sensorType o; _capacity := _capacity o;
     _enrolledCount := _enrolledCount o; _initialized := _initialized o;
     _databaseScanned := _databaseScanned o; _slotOccupancy := _slotOccupancy o;
     _useSoftwareSerial := _useSoftwareSerial o;
     _memoryManager := _memoryManager o; _sensorDetector := v |}.

(** [_slotOccupancy[i]]. Every read in the code stands behind a range check
    on [i], so the value chosen for an index outside the array is never
    observed on an object whose array has [_capacity] elements. *)
Definition slot_at (o : UniversalFingerprint) (i : Z) : bool :=
  match _slotOccupancy o with
  | Some a => default false (a !! Z.to_nat i)
  | None => false
  end.

(** [_slotOccupancy[i] = v]. *)
Definition slot_set (i : Z) (v : bool) (o : UniversalFingerprint) :=
  set_slotOccupancy ((fun a => <[Z.to_nat i := v]> a) <$> _slotOccupancy o) o.

(** The two constructors differ in the serial port they keep. *)
Definition UniversalFingerprint_new (software : bool) (sensorType : UF_SensorType)
  : UniversalFingerprint :=
  let o :=
    {| _sensorType := sensorType; _capacity := 0; _enrolledCount := 0;
       _initialized := false; _databaseScanned := false;
       _slotOccupancy := None; _useSoftwareSerial := software;
       _memoryManager := None; _sensorDetector := None |} in
  if bool_decide (sensorType = UF_SENSOR_AUTO) then o
  else match SENSOR_DB_lookup sensorType with
       | Some info => set_capacity (capacity info) o
       | None => o
       end.

(** ** UniversalFingerprint.cpp: queries on the cache *)

Definition isSlotOccupied (o : UniversalFingerprint) (id : Z) : bool :=
  if negb (_databaseScanned o) || (id <? 1) || (id >? _capacity o) then false
  else slot_at o (id - 1).

(** The loop [for (uint16_t i = start - 1; i < _capacity; i++)]: [n] is the
    number of iterations left, [_capacity - i]. *)
Fixpoint findEmptySlot_loop (o : UniversalFingerprint) (n : nat) (i : Z) : Z :=
  match n with
  | O => 0
  | S n' =>
      if negb (slot_at o i) then u16 (i + 1)
      else findEmptySlot_loop o n' (i + 1)
  end.

Definition findEmptySlot (o : UniversalFingerprint) (start : Z) : Z :=
  if negb (_databaseScanned o) || (start <? 1) || (start >? _capacity o) then 0
  else findEmptySlot_loop o (Z.to_nat (_capacity o - (start - 1))) (start - 1).

(** The loop [for (uint16_t i = _capacity; i > 0; i--)], with [i] as a
    natural number. *)
Fixpoint findLastEmptySlot_loop (o : UniversalFingerprint) (i : nat) : Z :=
  match i with
  | O => 0
  | S i' =>
      if negb (slot_at o (Z.of_nat i')) then Z.of_nat i
      else findLastEmptySlot_loop o i'
  end.

Definition findLastEmptySlot (o : UniversalFingerprint) : Z :=
  if negb (_databaseScanned o) then 0
  else findLastEmptySlot_loop o (Z.to_nat (_capacity o)).

Definition _validateID (o : UniversalFingerprint) (id : Z) : bool :=
  (1 <=? id) && (id <=? _capacity o).

Definition _updateSlotOccupancy (id : Z) (occupied : bool) (o : UniversalFingerprint) :=
  if bool_decide (is_Some (_slotOccupancy o)) && (1 <=? id) && (id <=? _capacity o)
  then set_databaseScanned true (slot_set (id - 1) occupied o)
  else o.

(** ** UniversalFingerprint.cpp: sensor information and raw templates *)

Definition getSensorModel (o : UniversalFingerprint) : string :=
  match SENSOR_DB_lookup (_sensorType o) with
  | Some info => modelName info
  | None => "Unknown"
  end.

Definition getSensorVendor (o : UniversalFingerprint) : string :=
  match SENSOR_DB_lookup (_sensorType o) with
  | Some info => vendor info
  | None => "Unknown"
  end.

(** [Some info] when the method fills [info] and returns [true], [None]
    when it returns [false]. *)
Definition getSensorInfo (o : UniversalFingerprint) : option UF_SensorInfo :=
  SENSOR_DB_lookup (_sensorType o).

Definition sensorTypeToString (t : UF_SensorType) : string :=
  match t with
  | UF_SENSOR_AS608 => "AS608"
  | UF_SENSOR_R307 => "R307"
  | UF_SENSOR_GT511C3 => "GT-511C3"
  | UF_SENSOR_ZFM60 => "ZFM-60"
  | UF_SENSOR_ZFM20 => "ZFM-20"
  | UF_SENSOR_AUTO => "Auto-detect"
  end.

(** [buffer] is [None] for a null pointer. The result is the [int16_t] the
    method returns. *)
Definition readRawTemplate (o : UniversalFingerprint) (id : Z)
  (buffer : option (list Z)) (bufferSize : Z) : Z :=
  if negb (_initialized o) then - UF_ErrorCode_value UF_ERROR_NO_SENSOR else
  if negb (_validateID o id) || negb (bool_decide (is_Some buffer)) || (bufferSize <? 128)
  then - UF_ErrorCode_value UF_ERROR_INVALID_PARAM
  else - UF_ErrorCode_value UF_ERROR_NOT_SUPPORTED.

Definition writeRawTemplate (o : UniversalFingerprint) (id : Z)
  (buffer : option (list Z)) (size : Z) : UF_ErrorCode :=
  if negb (_initialized o) then UF_ERROR_NO_SENSOR else
  if negb (_validateID o id) || negb (bool_decide (is_Some buffer)) || (size <? 128)
  then UF_ERROR_INVALID_PARAM
  else UF_ERROR_NOT_SUPPORTED.

(** ** UniversalFingerprint.cpp: methods that talk to the device *)

(** Conversion of a [uint16_t] to the [int16_t] a method returns. *)
Definition s16 (x : Z) : Z :=
  if u16 x <? 2 ^ 15 then u16 x else u16 x - 2 ^ 16.

Section Facade.
Context {E : Type} `{!Platform E}.

(** The loop [for (uint16_t i = 0; i < _capacity; i++)] of [scanDatabase];
    [n] is the number of iterations left. *)
Fixpoint scanDatabase_loop (n : nat) (i count : Z) : Method E UniversalFingerprint Z :=
  match n with
  | O => ret count
  | S n' =>
      let id := u16 (i + 1) in
      let* result := call8 (GetTemplateCount id) in
      if result =? FINGERPRINT_OK codes then
        update (slot_set i true) ;;
        scanDatabase_loop n' (i + 1) (u16 (count + 1))
      else
        update (slot_set i false) ;;
        scanDatabase_loop n' (i + 1) count
  end.

Definition scanDatabase : Method E UniversalFingerprint Z :=
  let* o := this in
  if negb (_initialized o) || negb (bool_decide (is_Some (_slotOccupancy o)))
  then ret (-1) else
  let* count := scanDatabase_loop (Z.to_nat (_capacity o)) 0 0 in
  update (set_enrolledCount count) ;;
  update (set_databaseScanned true) ;;
  ret (s16 count).

Definition getDatabaseStats : Method E UniversalFingerprint (bool * UF_DatabaseStats) :=
  let* o := this in
  (if negb (_databaseScanned o) then scanDatabase ;; ret tt else ret tt) ;;
  let* o := this in
  ret (true,
       {| totalSlots := _capacity o;
          occupiedSlots := _enrolledCount o;
          freeSlots := u16 (_capacity o - _enrolledCount o);
          firstFreeSlot := findEmptySlot o 1;
          lastFreeSlot := findLastEmptySlot o |}).

Definition begin (password baudRate : Z) : Method E UniversalFingerprint bool :=
  let* o := this in
  call (SerialBegin (_useSoftwareSerial o) baudRate) ;;
  call (Delay 100) ;;
  let* started := call (FingerBegin baudRate) in
  if started =? 0 then ret false else
  let* verified := call8 VerifyPassword in
  if negb (verified =? FINGERPRINT_OK codes) then ret false else
  (if bool_decide (_sensorType o = UF_SENSOR_AUTO) then
     let* (detected, detector) := on UF_SensorDetector.new UF_SensorDetector.detect in
     update (set_sensorDetector (Some detector)) ;;
     update (set_sensorType detected) ;;
     if bool_decide (detected = UF_SENSOR_AUTO)
     then update (set_sensorType UF_SENSOR_AS608)
     else ret tt
   else ret tt) ;;
  let* o := this in
  match SENSOR_DB_lookup (_sensorType o) with
  | Some info => update (set_capacity (capacity info))
  | None => ret tt
  end ;;
  let* o := this in
  (if _capacity o =? 0 then
     update (set_sensorType UF_SENSOR_AS608) ;;
     update (set_capacity 162)
   else ret tt) ;;
  let* o := this in
  update (set_memoryManager (Some (UF_MemoryManager.new (Some tt) (_capacity o)))) ;;
  update (set_slotOccupancy (Some (replicate (Z.to_nat (_capacity o)) false))) ;;
  scanDatabase ;;
  update (set_initialized true) ;;
  ret true.

(** The polling loop of [_enrollInternal],
    [while (millis() - startTime < 10000) { ... }]. How often it runs is up
    to the clock, so it is bounded by [fuel]: [None] when the fuel runs out,
    [Some (Some e, _)] when the body returns [e], [Some (None, _)] when the
    loop is left through its condition or its [break]. *)
Fixpoint _enrollInternal_wait (fuel : nat) (startTime : Z)
  (s : UniversalFingerprint * World E)
  : option (option UF_ErrorCode * (UniversalFingerprint * World E)) :=
  match fuel with
  | O => None
  | S fuel' =>
      let (now, s1) := call Millis s in
      if u32 (u32 now - startTime) <? 10000 then
        let (result, s2) := call8 GetImage s1 in
        if result =? FINGERPRINT_NOFINGER codes then
          _enrollInternal_wait fuel' startTime s2
        else if negb (result =? FINGERPRINT_OK codes) then
          Some (Some (_convertAdafruitError codes result), s2)
        else Some (None, s2)
      else Some (None, s1)
  end.

Definition _enrollInternal (fuel : nat) (id : Z)
  (s : UniversalFingerprint * World E)
  : option (UF_ErrorCode * (UniversalFingerprint * World E)) :=
  let (result, s) := call8 GetImage s in
  if negb (result =? FINGERPRINT_OK codes) then
    Some (_convertAdafruitError codes result, s) else
  let (result, s) := call8 (Image2Tz 1) s in
  if negb (result =? FINGERPRINT_OK codes) then
    Some (_convertAdafruitError codes result, s) else
  let (_, s) := call (Delay 2000) s in
  let (startTime, s) := call Millis s in
  match _enrollInternal_wait fuel (u32 startTime) s with
  | None => None
  | Some (Some e, s) => Some (e, s)
  | Some (None, s) =>
      let (result, s) := call8 (Image2Tz 2) s in
      if negb (result =? FINGERPRINT_OK codes) then
        Some (_convertAdafruitError codes result, s) else
      let (result, s) := call8 CreateModel s in
      if negb (result =? FINGERPRINT_OK codes) then
        Some (_convertAdafruitError codes result, s) else
      let (result, s) := call8 (StoreModel id) s in
      Some (_convertAdafruitError codes result, s)
  end.

(** [enroll] from the point where [id] has been chosen. *)
Definition enroll_at (fuel : nat) (id : Z) (s : UniversalFingerprint * World E)
  : option (UF_ErrorCode * (UniversalFingerprint * World E)) :=
  if negb (_validateID (fst s) id) then Some (UF_ERROR_INVALID_ID, s) else
  if _databaseScanned (fst s) && slot_at (fst s) (id - 1)
  then Some (UF_ERROR_DUPLICATE_ID, s) else
  match _enrollInternal fuel id s with
  | None => None
  | Some (result, s) =>
      if bool_decide (result = UF_OK) then
        let s := snd (update (_updateSlotOccupancy id true) s) in
        let s := snd (update (fun o => set_enrolledCount (u16 (_enrolledCount o + 1)) o) s) in
        Some (result, s)
      else Some (result, s)
  end.

Definition enroll (fuel : nat) (id numScans : Z) (s : UniversalFingerprint * World E)
  : option (UF_ErrorCode * (UniversalFingerprint * World E)) :=
  if negb (_initialized (fst s)) then Some (UF_ERROR_NO_SENSOR, s) else
  let numScans := if (numScans <? 1) || (numScans >? 4) then 2 else numScans in
  if id =? 0 then
    let id := findEmptySlot (fst s) 1 in
    if id =? 0 then Some (UF_ERROR_SLOT_FULL, s)
    else enroll_at fuel id s
  else enroll_at fuel id s.

Definition deleteTemplate (id : Z) : Method E UniversalFingerprint UF_ErrorCode :=
  let* o := this in
  if negb (_initialized o) then ret UF_ERROR_NO_SENSOR else
  if negb (_validateID o id) then ret UF_ERROR_INVALID_ID else
  let* result := call8 (DeleteModel id) in
  if result =? FINGERPRINT_OK codes then
    update (_updateSlotOccupancy id false) ;;
    update (fun o => if 0 <? _enrolledCount o
                     then set_enrolledCount (u16 (_enrolledCount o - 1)) o
                     else o) ;;
    ret UF_OK
  else ret (_convertAdafruitError codes result).

(** The loop [for (uint16_t i = 1; i <= _capacity; i++)] of
    [clearDatabase]; [n] is the number of iterations left. *)
Fixpoint clearDatabase_loop (n : nat) (i : Z) (success : bool)
  : Method E UniversalFingerprint bool :=
  match n with
  | O => ret success
  | S n' =>
      let* result := call8 (DeleteModel i) in
      clearDatabase_loop n' (i + 1)
        (if negb (result =? FINGERPRINT_OK codes)
            && negb (result =? FINGERPRINT_BADLOCATION codes)
         then false else success)
  end.

Definition clearDatabase : Method E UniversalFingerprint UF_ErrorCode :=
  let* o := this in
  if negb (_initialized o) then ret UF_ERROR_NO_SENSOR else
  let* success := clearDatabase_loop (Z.to_nat (_capacity o)) 1 true in
  update (fun o => set_slotOccupancy
                     ((fun a => memset0 a (_capacity o)) <$> _slotOccupancy o) o) ;;
  update (set_enrolledCount 0) ;;
  update (set_databaseScanned false) ;;
  ret (if success then UF_OK else UF_ERROR_COMM).

Definition isFingerPresent : Method E UniversalFingerprint bool :=
  let* o := this in
  if negb (_initialized o) then ret false else
  let* result := call8 GetImage in
  ret ((result =? FINGERPRINT_OK codes) || (result =? FINGERPRINT_NOFINGER codes)).

End Facade.

(** ** UniversalFingerprint.cpp: identification and verification

    The search methods of the driver have no [Call] of their own; together
    with the one status constant only these methods name, they are
    parameters: any function of the world that returns the status and the
    [fingerID] and [confidence] members it leaves in the driver. *)

Section Searching.
Context {E : Type} `{!Platform E}.
Variable FINGERPRINT_NOTFOUND : Z.
Variable fingerFastSearch : World E -> (Z * Z * Z) * World E.
Variable fingerSearch : Z -> World E -> (Z * Z) * World E.

(** The loop [while (millis() - startTime < timeout * 1000)] of [identify],
    bounded by [fuel]. The product, where it fits [int], is compared as
    [unsigned long]. *)
Fixpoint identify_wait (fuel : nat) (startTime timeout : Z)
  (s : UniversalFingerprint * World E)
  : option (UniversalFingerprint * World E) :=
  match fuel with
  | O => None
  | S fuel' =>
      let (now, s1) := call Millis s in
      if u32 (u32 now - startTime) <? u32 (timeout * 1000) then
        let (present, s2) := isFingerPresent s1 in
        if present then Some s2
        else let (_, s3) := call (Delay 100) s2 in
             identify_wait fuel' startTime timeout s3
      else Some s1
  end.

(** [confidence] is [None] for a null pointer and otherwise holds the value
    behind the pointer; the result pairs the returned [int16_t] with the
    value behind the pointer after the call. *)
Definition identify (fuel : nat) (confidence : option Z) (timeout : Z)
  (s : UniversalFingerprint * World E)
  : option ((Z * option Z) * (UniversalFingerprint * World E)) :=
  if negb (_initialized (fst s))
  then Some ((- UF_ErrorCode_value UF_ERROR_NO_SENSOR, confidence), s) else
  let (startTime, s) := call Millis s in
  match identify_wait fuel (u32 startTime) timeout s with
  | None => None
  | Some s =>
      let (present, s) := isFingerPresent s in
      if negb present
      then Some ((- UF_ErrorCode_value UF_ERROR_TIMEOUT, confidence), s) else
      let (result, s) := call8 GetImage s in
      if negb (result =? FINGERPRINT_OK codes)
      then Some ((- UF_ErrorCode_value (_convertAdafruitError codes result), confidence), s)
      else
      let (result, s) := call8 (Image2Tz 1) s in
      if negb (result =? FINGERPRINT_OK codes)
      then Some ((- UF_ErrorCode_value (_convertAdafruitError codes result), confidence), s)
      else
      let '((result, fingerID, conf), w) := fingerFastSearch (snd s) in
      let s := (fst s, w) in
      let result := u8 result in
      if result =? FINGERPRINT_OK codes then
        Some ((s16 fingerID, (fun _ => u16 conf) <$> confidence), s)
      else if result =? FINGERPRINT_NOTFOUND then Some ((0, confidence), s)
      else Some ((- UF_ErrorCode_value (_convertAdafruitError codes result), confidence), s)
  end.

Definition verify (id : Z) (confidence : option Z)
  : Method E UniversalFingerprint (UF_ErrorCode * option Z) :=
  let* o := this in
  if negb (_initialized o) then ret (UF_ERROR_NO_SENSOR, confidence) else
  if negb (_validateID o id) then ret (UF_ERROR_INVALID_ID, confidence) else
  let* present := isFingerPresent in
  if negb present then ret (UF_ERROR_NO_FINGER, confidence) else
  let* result := call8 GetImage in
  if negb (result =? FINGERPRINT_OK codes)
  then ret (_convertAdafruitError codes result, confidence) else
  let* result := call8 (Image2Tz 1) in
  if negb (result =? FINGERPRINT_OK codes)
  then ret (_convertAdafruitError codes result, confidence) else
  fun s =>
    let '((result, conf), w) := fingerSearch id (snd s) in
    let s := (fst s, w) in
    let result := u8 result in
    if result =? FINGERPRINT_OK codes
    then ((UF_OK, (fun _ => u16 conf) <$> confidence), s)
    else ((_convertAdafruitError codes result, confidence), s).

End Searching.

(** ** A scripted sensor

    The constants are the values the Adafruit driver's header gives them.
    The sensor follows the mock driver of the unit tests: it accepts
    [getTemplateCount(id)] exactly for [id <= slotLimit], answers the
    capture, store and delete commands with one configured code each, and
    accepts every other command. Its clock stands still. *)

Definition adafruit_codes : VendorCodes :=
  {| FINGERPRINT_OK := 0x00;
     FINGERPRINT_PACKETRECIEVEERR := 0x01;
     FINGERPRINT_NOFINGER := 0x02;
     FINGERPRINT_IMAGEFAIL := 0x03;
     FINGERPRINT_IMAGEMESS := 0x06;
     FINGERPRINT_FEATUREFAIL := 0x07;
     FINGERPRINT_ENROLLMISMATCH := 0x0A;
     FINGERPRINT_BADLOCATION := 0x0B;
     FINGERPRINT_DBRANGEFAIL := 0x0C;
     FINGERPRINT_UPLOADFEATUREFAIL := 0x0D;
     FINGERPRINT_PACKETRESPONSEFAIL := 0x0E;
     FINGERPRINT_UPLOADFAIL := 0x0F;
     FINGERPRINT_DELETEFAIL := 0x10;
     FINGERPRINT_DBCLEARFAIL := 0x11;
     FINGERPRINT_PASSFAIL := 0x13;
     FINGERPRINT_INVALIDIMAGE := 0x15;
     FINGERPRINT_FLASHERR := 0x18;
     FINGERPRINT_INVALIDREG := 0x1A |}.

Record MockSensor := {
  slotLimit : Z;
  getImageResult : Z;
  storeModelResult : Z;
  deleteModelResult : Z
}.

Definition MockSensor_respond (m : MockSensor) (c : Call) : Z * MockSensor :=
  (match c with
   | SerialBegin _ _ | Delay _ | Millis => 0
   | FingerBegin _ => 1
   | GetParameters => 0
   | GetTemplateCount id =>
       if id <=? slotLimit m then FINGERPRINT_OK adafruit_codes
       else FINGERPRINT_BADLOCATION adafruit_codes
   | GetImage => getImageResult m
   | StoreModel _ => storeModelResult m
   | DeleteModel _ => deleteModelResult m
   | VerifyPassword | Image2Tz _ | CreateModel => FINGERPRINT_OK adafruit_codes
   end, m).

#[global] Instance MockSensor_platform : Platform MockSensor :=
  {| codes := adafruit_codes; respond := MockSensor_respond |}.

(** A sensor that accepts every command, with [limit] addressable slots. *)
Definition accepting (limit : Z) : MockSensor :=
  {| slotLimit := limit; getImageResult := 0; storeModelResult := 0;
     deleteModelResult := 0 |}.

Definition fresh_world (m : MockSensor) : World MockSensor := mkWorld m [].

(** A sensor with a clock. Every call takes a millisecond, an image capture
    half a second and [delay(ms)] its [ms] milliseconds (up to [2 ^ 30]).
    The first capture finds a finger, which is then lifted for good; every
    other command succeeds. *)
Record ClockedSensor := {
  now : Z;
  captures : Z
}.

Definition ClockedSensor_respond (m : ClockedSensor) (c : Call) : Z * ClockedSensor :=
  (match c with
   | Millis => now m
   | FingerBegin _ => 1
   | GetImage =>
       if captures m =? 0 then FINGERPRINT_OK adafruit_codes
       else FINGERPRINT_NOFINGER adafruit_codes
   | _ => 0
   end,
   {| now := now m + match c with
                     | Delay ms => Z.max 1 (Z.min ms (2 ^ 30))
                     | GetImage => 500
                     | _ => 1
                     end;
      captures := match c with GetImage => captures m + 1 | _ => captures m end |}).

#[global] Instance ClockedSensor_platform : Platform ClockedSensor :=
  {| codes := adafruit_codes; respond := ClockedSensor_respond |}.

(** The sensor at power-up, with the finger on it. *)
Definition finger_lifted_after_one_capture : World ClockedSensor :=
  mkWorld {| now := 0; captures := 0 |} [].

Local Close Scope string_scope.

(** ** The slots the cache reports as occupied *)

(** The slot ids in [[1, _capacity]] for which [isSlotOccupied] answers
    [true]. *)
Definition occupied_ids (o : UniversalFingerprint) : list Z :=
  List.filter (isSlotOccupied o) (seqZ 1 (_capacity o)).

(** The number of [true] entries of an occupancy array. *)
Definition count_true (a : list bool) : Z :=
  Z.of_nat (length (List.filter id a)).

(** ** The class invariant

    What the constructor establishes and every public method keeps: the
    cache is only ever marked scanned on an initialised object, an
    initialised object owns an array of [_capacity] entries, and the
    capacity is one the table offers. *)
Record Inv (o : UniversalFingerprint) : Prop := {
  inv_scanned : _databaseScanned o = true -> _initialized o = true;
  inv_array : _initialized o = true ->
              exists a, _slotOccupancy o = Some a /\ Z.of_nat (length a) = _capacity o;
  inv_capacity : 0 <= _capacity o <= 1000
}.

(** ** Definitions used by the statements *)

(** The object together with the world it runs in. *)
Abbreviation State E := (UniversalFingerprint * World E)%type.

(** The outcomes the translation can produce. *)
Definition convert_outcomes : list UF_ErrorCode :=
  [ UF_OK; UF_ERROR_NO_FINGER; UF_ERROR_IMAGE_FAIL; UF_ERROR_IMAGE_MESS;
    UF_ERROR_COMM; UF_ERROR_FEATURE_FAIL; UF_ERROR_INVALID_ID;
    UF_ERROR_INVALID_PARAM ].

(** An outcome is "Unknown" when the library describes it as such. *)
Definition is_Unknown (e : UF_ErrorCode) : Prop :=
  errorToString (UF_ErrorCode_value e) = "Unknown error"%string.

Section Statements.
Context {E : Type} `{!Platform E}.

(** The second state has the object of the first and a trace that extends
    the first's by [l]. *)
Definition talks (s s' : State E) (l : list Call) : Prop :=
  fst s' = fst s /\ trace (snd s') = trace (snd s) ++ l.

(** What the scan loop leaves unchanged. *)
Definition same_frame (o o' : UniversalFingerprint) : Prop :=
  _initialized o' = _initialized o
  /\ _capacity o' = _capacity o
  /\ _databaseScanned o' = _databaseScanned o
  /\ length <$> _slotOccupancy o' = length <$> _slotOccupancy o.

(** The part of [begin()] after the sensor type is settled: capacity,
    memory manager, array, scan, and the flag. *)
Definition begin_allocate : Method E UniversalFingerprint bool :=
  let* o := this in
  match SENSOR_DB_lookup (_sensorType o) with
  | Some info => update (set_capacity (capacity info))
  | None => ret tt
  end ;;
  let* o := this in
  (if _capacity o =? 0 then
     update (set_sensorType UF_SENSOR_AS608) ;;
     update (set_capacity 162)
   else ret tt) ;;
  let* o := this in
  update (set_memoryManager (Some (UF_MemoryManager.new (Some tt) (_capacity o)))) ;;
  update (set_slotOccupancy (Some (replicate (Z.to_nat (_capacity o)) false))) ;;
  scanDatabase ;;
  update (set_initialized true) ;;
  ret true.

(** The environment answers the probe with OK exactly for the indices up to
    [limit], now and after any further calls. *)
Definition accepts_exactly_up_to (limit : Z) (e : E) : Prop :=
  exists P : E -> Prop,
    P e
    /\ (forall e' c, P e' -> P (snd (respond e' c)))
    /\ (forall e' id, P e' ->
          u8 (fst (respond e' (GetTemplateCount id))) = FINGERPRINT_OK codes
          <-> id <= limit).

(** The environment answers every image capture with the no-finger code,
    now and after any further calls. *)
Definition always_no_finger (e : E) : Prop :=
  exists P : E -> Prop,
    P e
    /\ (forall e' c, P e' -> P (snd (respond e' c)))
    /\ (forall e', P e' ->
          u8 (fst (respond e' GetImage)) = FINGERPRINT_NOFINGER codes).

(** The answers the environment gives to a sequence of calls, one after
    the other. *)
Fixpoint answers (e : E) (calls : list Call) : list Z :=
  match calls with
  | [] => []
  | c :: rest => fst (respond e c) :: answers (snd (respond e c)) rest
  end.

(** The environment after a sequence of calls. *)
Fixpoint env_after (e : E) (calls : list Call) : E :=
  match calls with
  | [] => e
  | c :: rest => env_after (snd (respond e c)) rest
  end.

(** The environment has a clock that [millis()] reads, that never runs
    backwards, that no single call advances by more than [2 ^ 30]
    milliseconds and that every image capture advances by at least one
    millisecond; now and after any further calls. *)
Definition clock_advances (e : E) : Prop :=
  exists (P : E -> Prop) (time : E -> Z),
    P e
    /\ (forall e' c, P e' -> P (snd (respond e' c)))
    /\ (forall e', P e' -> u32 (fst (respond e' Millis)) = u32 (time e'))
    /\ (forall e' c, P e' ->
          time e' <= time (snd (respond e' c)) <= time e' + 2 ^ 30)
    /\ (forall e', P e' -> time e' + 1 <= time (snd (respond e' GetImage))).

(** The public operations that can change the object. *)
Inductive Op :=
| OpBegin (password baudRate : Z)
| OpScanDatabase
| OpGetDatabaseStats
| OpEnroll (fuel : nat) (id numScans : Z)
| OpDeleteTemplate (id : Z)
| OpClearDatabase.

(** The state an operation leaves, when it returns. *)
Definition run_op (op : Op) (s : State E) : option (State E) :=
  match op with
  | OpBegin password baudRate => Some (snd (begin password baudRate s))
  | OpScanDatabase => Some (snd (scanDatabase s))
  | OpGetDatabaseStats => Some (snd (getDatabaseStats s))
  | OpEnroll fuel id numScans => snd <$> enroll fuel id numScans s
  | OpDeleteTemplate id => Some (snd (deleteTemplate id s))
  | OpClearDatabase => Some (snd (clearDatabase s))
  end.

(** The states a program can bring an object to: it constructs the object,
    calls the operations above, and may in between do anything that only
    changes the world (the remaining methods do not write to the object). *)
Inductive reachable : State E -> Prop :=
| reachable_new software sensorType w :
    reachable (UniversalFingerprint_new software sensorType, w)
| reachable_op op s s' :
    reachable s -> run_op op s = Some s' -> reachable s'
| reachable_world o w w' :
    reachable (o, w) -> reachable (o, w').

End Statements.

(** *** Concrete objects and sensors *)

(** The cache of a three-slot object with slot 1 occupied. *)
Definition three_slots (scanned : bool) : UniversalFingerprint :=
  {| _sensorType := UF_SENSOR_AS608; _capacity := 3; _enrolledCount := 1;
     _initialized := true; _databaseScanned := scanned;
     _slotOccupancy := Some [true; false; false];
     _useSoftwareSerial := false;
     _memoryManager := None; _sensorDetector := None |}.

(** The object a first [begin()] leaves behind on an AS608 that accepts
    every command. *)
Definition after_begin_AS608 : State MockSensor :=
  snd (begin 0 57600
         (UniversalFingerprint_new false UF_SENSOR_AS608, fresh_world (accepting 162))).

(** The state after a successful [enroll(1)] on that sensor. *)
Definition after_enroll_1 : State MockSensor :=
  match enroll 5 1 2 after_begin_AS608 with
  | Some (_, s) => s
  | None => after_begin_AS608
  end.

(** The state after a [clearDatabase()] that follows. *)
Definition after_clear : State MockSensor := snd (clearDatabase after_enroll_1).

(** An AS608 with no template stored: the scan's query finds nothing at any
    slot. Capture, store and delete succeed. *)
Definition empty_AS608 : MockSensor :=
  {| slotLimit := 0; getImageResult := 0; storeModelResult := 0;
     deleteModelResult := 0 |}.

(** [begin()] and then [scanDatabase()] on the empty sensor. *)
Definition after_scan_empty : State MockSensor :=
  snd (scanDatabase
         (snd (begin 0 57600
                 (UniversalFingerprint_new false UF_SENSOR_AS608,
                  fresh_world empty_AS608)))).

(** An AS608 whose delete command fails with [FINGERPRINT_DELETEFAIL]. *)
Definition delete_fails : MockSensor :=
  {| slotLimit := 162; getImageResult := 0; storeModelResult := 0;
     deleteModelResult := 0x10 |}.

(** [begin()] and then a successful [enroll(1)] on that sensor. *)
Definition enrolled_on_delete_fails : option (UF_ErrorCode * State MockSensor) :=
  enroll 5 1 2
    (snd (begin 0 57600
            (UniversalFingerprint_new false UF_SENSOR_AS608, fresh_world delete_fails))).

(** An AS608 on which no finger rests: every capture answers
    [FINGERPRINT_NOFINGER]. *)
Definition no_finger_AS608 : MockSensor :=
  {| slotLimit := 162; getImageResult := 0x02; storeModelResult := 0;
     deleteModelResult := 0 |}.

(** A search that finds template 7 with confidence 85, and a comparison
    that matches with confidence 90, as the unit tests script them. *)
Definition search_finds_7 (w : World MockSensor) : (Z * Z * Z) * World MockSensor :=
  ((0, 7, 85), w).
Definition search_matches (id : Z) (w : World MockSensor) : (Z * Z) * World MockSensor :=
  ((0, 90), w).

(** A three-slot manager with slot 1 occupied. *)
Definition three_slot_manager : UF_MemoryManager.t :=
  {| UF_MemoryManager._finger := Some tt;
     UF_MemoryManager._capacity := 3; UF_MemoryManager._enrolledCount := 1;
     UF_MemoryManager._slotMap := Some [true; false; false] |}.

(** [enroll(1)] and then [deleteTemplate(2)] on the scanned, empty sensor:
    the two outcomes, the state in between and the state at the end. *)
Definition enroll_1_delete_2
  : option (UF_ErrorCode * UF_ErrorCode * State MockSensor * State MockSensor) :=
  match enroll 5 1 2 after_scan_empty with
  | Some (enrolled, s1) =>
      let (deleted, s2) := deleteTemplate 2 s1 in Some (enrolled, deleted, s1, s2)
  | None => None
  end.

(** What [getDatabaseStats] reports as occupied, next to the slots
    [isSlotOccupied] reports. *)
Definition reported (s : State MockSensor) : Z * list Z :=
  (occupiedSlots (snd (fst (getDatabaseStats s))), occupied_ids (fst s)).

(** *** The count and the entries

    What the constructor establishes and every public method keeps beyond
    [Inv]: before initialisation the count is zero; on an initialised
    object the count never exceeds the number of occupied entries, and a
    cache that is not marked scanned is empty with a count of zero. *)
Record Counted (o : UniversalFingerprint) : Prop := {
  counted_Inv : Inv o;
  counted_fresh : _initialized o = false -> _enrolledCount o = 0;
  counted_le : forall a, _initialized o = true -> _slotOccupancy o = Some a ->
               0 <= _enrolledCount o <= count_true a;
  counted_unscanned : forall a, _initialized o = true -> _slotOccupancy o = Some a ->
                      _databaseScanned o = false ->
                      _enrolledCount o = 0 /\ a = replicate (length a) false
}.

(** * Theorems *)

(** Unfold the state-transformer combinators down to pairs. *)
Ltac run_monad :=
  unfold call8, on in *;
  unfold bind, ret, this, update, get, modify, call in *;
  cbn [fst snd env trace negb andb orb] in *.


(** ** Result translation *)

Lemma switch_on_default {A} (error : Z) (cases : list (Z * A)) (d : A) :
  error ∉ cases.*1 -> switch_on error cases d = d.
Proof.
  induction cases as [|[label value] rest IH]; simpl; intros Hnot.
  - reflexivity.
  - destruct (Z.eqb_spec error label) as [->|Hne].
    + exfalso. apply Hnot. left.
    + apply IH. intros Hin. apply Hnot. right. exact Hin.
Qed.

Lemma switch_on_cases {A} (error : Z) (cases : list (Z * A)) (d : A) :
  switch_on error cases d = d \/ switch_on error cases d ∈ cases.*2.
Proof.
  induction cases as [|[label value] rest IH]; simpl.
  - left. reflexivity.
  - destruct (error =? label).
    + right. left.
    + destruct IH as [IH|IH]; [left; exact IH | right; right; exact IH].
Qed.

(** Only the driver's OK code translates to [UF_OK]. *)
Lemma convert_OK_inv (vc : VendorCodes) (error : Z) :
  _convertAdafruitError vc error = UF_OK -> error = FINGERPRINT_OK vc.
Proof.
  unfold _convertAdafruitError, convert_table. cbn [switch_on].
  destruct (Z.eqb_spec error (FINGERPRINT_OK vc)) as [->|_]; [reflexivity|].
  repeat (match goal with |- context [?a =? ?b] => destruct (a =? b) end;
          [discriminate|]).
  discriminate.
Qed.

Lemma convert_OK (vc : VendorCodes) :
  _convertAdafruitError vc (FINGERPRINT_OK vc) = UF_OK.
Proof.
  unfold _convertAdafruitError, convert_table. cbn [switch_on].
  rewrite Z.eqb_refl. reflexivity.
Qed.

Lemma no_outcome_is_Unknown (e : UF_ErrorCode) : ~ is_Unknown e.
Proof. destruct e; unfold is_Unknown; vm_compute; discriminate. Qed.

Lemma convert_in_outcomes (vc : VendorCodes) (error : Z) :
  _convertAdafruitError vc error ∈ convert_outcomes.
Proof.
  unfold _convertAdafruitError.
  destruct (switch_on_cases error (convert_table vc) UF_ERROR_COMM) as [->|Hin].
  - apply list_elem_of_In. simpl. tauto.
  - revert Hin. generalize (switch_on error (convert_table vc) UF_ERROR_COMM).
    intros e Hin. apply list_elem_of_In in Hin. apply list_elem_of_In.
    simpl in Hin |- *. intuition auto.
Qed.

(** C4, as amended: the translation is a total function of the vendor code
    alone; its value is always one of eight named outcomes, and every vendor
    code that the mapping table does not name resolves to the
    communication-error outcome [UF_ERROR_COMM], which is not an "Unknown"
    outcome. *)
Theorem convertAdafruitError_unmapped_is_COMM (vc : VendorCodes) (error : Z) :
  error ∉ mapped_codes vc ->
  _convertAdafruitError vc error = UF_ERROR_COMM
  /\ ~ is_Unknown (_convertAdafruitError vc error)
  /\ forall e, _convertAdafruitError vc e ∈ convert_outcomes.
Proof.
  intros Hnot. split; [|split].
  - apply switch_on_default. exact Hnot.
  - apply no_outcome_is_Unknown.
  - intros e. apply convert_in_outcomes.
Qed.

Lemma convertAdafruitError_unmapped_is_COMM_witness :
  (255 ∉ mapped_codes adafruit_codes)
  /\ _convertAdafruitError adafruit_codes 255 = UF_ERROR_COMM.
Proof.
  assert (H : 255 ∉ mapped_codes adafruit_codes).
  { vm_compute. intros H. apply list_elem_of_In in H. simpl in H.
    repeat (destruct H as [H|H]; [discriminate H|]). exact H. }
  split; [exact H|].
  exact (proj1 (convertAdafruitError_unmapped_is_COMM adafruit_codes 255 H)).
Defined.

(** C4, as stated, fails: the vendor code [0xFF] is not in the mapping
    table, and it resolves to [UF_ERROR_COMM], "Communication error", which
    is not the Unknown outcome. *)
Lemma convertAdafruitError_unmapped_not_Unknown :
  (255 ∉ mapped_codes adafruit_codes)
  /\ _convertAdafruitError adafruit_codes 255 = UF_ERROR_COMM
  /\ errorToString (UF_ErrorCode_value (_convertAdafruitError adafruit_codes 255))
     = "Communication error"%string
  /\ ~ is_Unknown (_convertAdafruitError adafruit_codes 255).
Proof.
  split; [|split; [|split]].
  - vm_compute. intros H. apply list_elem_of_In in H. simpl in H.
    repeat (destruct H as [H|H]; [discriminate H|]). exact H.
  - reflexivity.
  - reflexivity.
  - unfold is_Unknown. vm_compute. discriminate.
Qed.

(** ** Queries on the cache *)

(** C9: [isSlotOccupied] answers [false], without failing, for every id
    outside [[1, _capacity]] and whenever the database has not been scanned;
    in particular for id [0] and for id [_capacity + 1], whatever the
    capacity. *)
Theorem isSlotOccupied_rejects (o : UniversalFingerprint) (id : Z) :
  id < 1 \/ id > _capacity o \/ _databaseScanned o = false ->
  isSlotOccupied o id = false
  /\ isSlotOccupied o 0 = false
  /\ isSlotOccupied o (_capacity o + 1) = false.
Proof.
  assert (Hout : forall i, i < 1 \/ i > _capacity o \/ _databaseScanned o = false ->
                           isSlotOccupied o i = false).
  { intros i Hi. unfold isSlotOccupied.
    destruct (_databaseScanned o); simpl.
    - destruct (Z.ltb_spec i 1); simpl; [reflexivity|].
      destruct (Z.gtb_spec i (_capacity o)); [reflexivity|].
      destruct Hi as [Hi|[Hi|Hi]]; [lia|lia|discriminate].
    - reflexivity. }
  intros H. split; [|split].
  - apply Hout. exact H.
  - apply Hout. left. lia.
  - apply Hout. right. left. lia.
Qed.

(** Every capacity of the table is a [uint16_t] with room for one more, so
    [_capacity + 1] is the argument the call receives. *)
Lemma SENSOR_DB_capacity_fits :
  Forall (fun info => u16 (capacity info + 1) = capacity info + 1) SENSOR_DB.
Proof. repeat constructor. Qed.

(** ** Finger presence *)

Section FingerPresence.
Context {E : Type} `{!Platform E}.

(** C10: on an initialised object [isFingerPresent] issues one image
    capture and answers [true] exactly when the capture returns the OK code
    or the no-finger code; so it answers [true] when the device says that
    no finger is there. *)
Theorem isFingerPresent_accepts_NOFINGER (o : UniversalFingerprint) (w : World E) :
  _initialized o = true ->
  let result := u8 (fst (respond (env w) GetImage)) in
  (fst (isFingerPresent (o, w)) = true <->
     result = FINGERPRINT_OK codes \/ result = FINGERPRINT_NOFINGER codes)
  /\ (result = FINGERPRINT_NOFINGER codes -> fst (isFingerPresent (o, w)) = true)
  /\ trace (snd (snd (isFingerPresent (o, w)))) = trace w ++ [GetImage].
Proof.
  intros Hinit result.
  unfold isFingerPresent. run_monad.
  rewrite Hinit. run_monad. subst result.
  destruct (respond (env w) GetImage) as [r e'] eqn:Hr. run_monad.
  split; [|split].
  - rewrite orb_true_iff, !Z.eqb_eq. reflexivity.
  - intros ->. rewrite Z.eqb_refl. apply orb_true_r.
  - reflexivity.
Qed.

End FingerPresence.

Lemma isFingerPresent_accepts_NOFINGER_witness :
  fst (isFingerPresent
         (set_initialized true (UniversalFingerprint_new false UF_SENSOR_AS608),
          fresh_world {| slotLimit := 162; getImageResult := 0x02;
                         storeModelResult := 0; deleteModelResult := 0 |}))
  = true.
Proof.
  refine (proj1 (proj2 (isFingerPresent_accepts_NOFINGER
                          (set_initialized true (UniversalFingerprint_new false UF_SENSOR_AS608))
                          (fresh_world {| slotLimit := 162; getImageResult := 0x02;
                                          storeModelResult := 0; deleteModelResult := 0 |})
                          _)) _); reflexivity.
Defined.

Lemma isSlotOccupied_rejects_witness :
  isSlotOccupied (UniversalFingerprint_new false UF_SENSOR_AS608) 163 = false.
Proof.
  refine (proj1 (isSlotOccupied_rejects
                   (UniversalFingerprint_new false UF_SENSOR_AS608) 163 _)).
  right. left. vm_compute. reflexivity.
Defined.

(** ** Searching for an empty slot *)

Lemma slot_at_lookup (o : UniversalFingerprint) (a : list bool) (j : Z) :
  _slotOccupancy o = Some a -> 0 <= j < Z.of_nat (length a) ->
  a !! Z.to_nat j = Some (slot_at o j).
Proof.
  intros Ha Hj. unfold slot_at. rewrite Ha.
  destruct (a !! Z.to_nat j) as [b|] eqn:Hl; [reflexivity|].
  apply lookup_ge_None in Hl. lia.
Qed.

Lemma findEmptySlot_loop_spec (o : UniversalFingerprint) (n : nat) :
  forall i, 0 <= i -> i + Z.of_nat n < 2 ^ 16 ->
  (findEmptySlot_loop o n i = 0
   /\ forall j, i <= j < i + Z.of_nat n -> slot_at o j = true)
  \/ (i < findEmptySlot_loop o n i <= i + Z.of_nat n
      /\ slot_at o (findEmptySlot_loop o n i - 1) = false
      /\ forall j, i <= j < findEmptySlot_loop o n i - 1 -> slot_at o j = true).
Proof.
  induction n as [|n IH]; intros i Hi Hn; cbn [findEmptySlot_loop].
  - left. split; [reflexivity|]. intros j Hj. lia.
  - destruct (slot_at o i) eqn:Hs; cbn [negb].
    + destruct (IH (i + 1)) as [[H0 Hall]|(Hr & Hf & Hall)]; [lia|lia| |].
      * left. split; [exact H0|]. intros j Hj.
        destruct (Z.eq_dec j i) as [->|]; [exact Hs|apply Hall; lia].
      * right. split; [lia|]. split; [exact Hf|]. intros j Hj.
        destruct (Z.eq_dec j i) as [->|]; [exact Hs|apply Hall; lia].
    + right. unfold u16. rewrite Z.mod_small by lia.
      replace (i + 1 - 1) with i by lia.
      split; [lia|]. split; [exact Hs|]. intros j Hj. lia.
Qed.

(** C5, as amended: on a cache that is marked scanned, [findEmptySlot k]
    is the smallest slot id at or after [k] in [[1, _capacity]] whose
    occupancy entry is [false], and [0] when [k] is outside
    [[1, _capacity]] or every entry from [k] on is [true]; on a cache that
    is not marked scanned it is [0] for every [k]. *)
Theorem findEmptySlot_smallest_when_scanned
  (o : UniversalFingerprint) (a : list bool) (k : Z) :
  _slotOccupancy o = Some a ->
  Z.of_nat (length a) = _capacity o ->
  _capacity o < 2 ^ 16 ->
  if _databaseScanned o then
    (1 <= k <= findEmptySlot o k
     /\ findEmptySlot o k <= _capacity o
     /\ a !! Z.to_nat (findEmptySlot o k - 1) = Some false
     /\ forall j, k <= j < findEmptySlot o k -> a !! Z.to_nat (j - 1) = Some true)
    \/ (findEmptySlot o k = 0
        /\ (k < 1 \/ k > _capacity o
            \/ forall j, k <= j <= _capacity o -> a !! Z.to_nat (j - 1) = Some true))
  else findEmptySlot o k = 0.
Proof.
  intros Ha Hlen Hcap. unfold findEmptySlot.
  destruct (_databaseScanned o); cbn [negb orb]; [|reflexivity].
  destruct (Z.ltb_spec k 1) as [Hk1|Hk1]; cbn [orb].
  { right. split; [reflexivity|]. left. exact Hk1. }
  destruct (Z.gtb_spec k (_capacity o)) as [Hk2|Hk2].
  { right. split; [reflexivity|]. right. left. lia. }
  destruct (findEmptySlot_loop_spec o (Z.to_nat (_capacity o - (k - 1))) (k - 1))
    as [[H0 Hall]|(Hr & Hf & Hall)]; [lia|lia| |].
  - right. split; [exact H0|]. right. right. intros j Hj.
    rewrite (slot_at_lookup o a (j - 1) Ha) by lia.
    f_equal. apply Hall. lia.
  - left. split; [lia|]. split; [lia|]. split.
    + rewrite (slot_at_lookup o a _ Ha) by lia. f_equal. exact Hf.
    + intros j Hj. rewrite (slot_at_lookup o a (j - 1) Ha) by lia.
      f_equal. apply Hall. lia.
Qed.

Lemma findEmptySlot_smallest_when_scanned_witness :
  findEmptySlot (three_slots true) 1 = 2.
Proof.
  pose proof (findEmptySlot_smallest_when_scanned
                (three_slots true) [true; false; false] 1
                eq_refl eq_refl eq_refl) as H.
  cbn [three_slots _databaseScanned] in H.
  destruct H as [(_ & _ & _ & _)|[H _]]; [|discriminate H].
  reflexivity.
Defined.

(** C5, as stated, fails on a cache that is not marked scanned: after a
    successful [clearDatabase()] every entry of the 162-slot array is
    [false], so the smallest id at or after 1 with a [false] entry is 1, and
    [findEmptySlot(1)] returns 0. *)
Lemma findEmptySlot_unscanned_counterexample :
  fst (clearDatabase after_enroll_1) = UF_OK
  /\ _databaseScanned (fst after_clear) = false
  /\ _capacity (fst after_clear) = 162
  /\ _slotOccupancy (fst after_clear) = Some (replicate 162 false)
  /\ replicate 162 false !! Z.to_nat (1 - 1) = Some false
  /\ findEmptySlot (fst after_clear) 1 = 0.
Proof. vm_compute. repeat split. Qed.

(** ** Enrolment *)

Section Enrolment.
Context {E : Type} `{!Platform E}.

Lemma talks_call (c : Call) (s : State E) :
  talks s (snd (call c s)) [c].
Proof.
  unfold talks, call. destruct (respond (env (snd s)) c). split; reflexivity.
Qed.

Lemma talks_trans (s1 s2 s3 : State E) (l1 l2 : list Call) :
  talks s1 s2 l1 -> talks s2 s3 l2 -> talks s1 s3 (l1 ++ l2).
Proof.
  intros [Ho1 Ht1] [Ho2 Ht2]. split.
  - congruence.
  - rewrite Ht2, Ht1, app_assoc. reflexivity.
Qed.

Lemma enrollInternal_wait_talks (fuel : nat) (startTime : Z) :
  forall (s s' : State E) x,
    _enrollInternal_wait fuel startTime s = Some (x, s') ->
    exists l, talks s s' l.
Proof.
  induction fuel as [|fuel IH]; intros s s' x Hrun; cbn [_enrollInternal_wait] in Hrun.
  - discriminate.
  - pose proof (talks_call Millis s) as Hm.
    destruct (call Millis s) as [now s1]. cbn [snd] in Hm.
    destruct (u32 (u32 now - startTime) <? 10000).
    + pose proof (talks_call GetImage s1) as Hg.
      unfold call8, bind, ret in Hrun.
      destruct (call GetImage s1) as [result s2]. cbn [snd] in Hg.
      pose proof (talks_trans _ _ _ _ _ Hm Hg) as Hmg.
      destruct (u8 result =? FINGERPRINT_NOFINGER codes).
      * destruct (IH _ _ _ Hrun) as [l Hl].
        eexists. eapply talks_trans; eassumption.
      * destruct (negb (u8 result =? FINGERPRINT_OK codes));
          injection Hrun as _ <-; eexists; exact Hmg.
    + injection Hrun as _ <-. eexists; exact Hm.
Qed.

(** [_enrollInternal] leaves the object alone and starts by capturing an
    image. *)
Lemma enrollInternal_talks (fuel : nat) (id : Z) (s s' : State E) (r : UF_ErrorCode) :
  _enrollInternal fuel id s = Some (r, s') ->
  exists l, talks s s' (GetImage :: l).
Proof.
  unfold _enrollInternal, call8, bind, ret. intros Hrun.
  pose proof (talks_call GetImage s) as H1.
  destruct (call GetImage s) as [r1 s1]. cbn [snd] in H1.
  destruct (negb (u8 r1 =? FINGERPRINT_OK codes)).
  { injection Hrun as _ <-. exists []. exact H1. }
  pose proof (talks_call (Image2Tz 1) s1) as H2.
  destruct (call (Image2Tz 1) s1) as [r2 s2]. cbn [snd] in H2.
  pose proof (talks_trans _ _ _ _ _ H1 H2) as H12.
  destruct (negb (u8 r2 =? FINGERPRINT_OK codes)).
  { injection Hrun as _ <-. eexists. exact H12. }
  pose proof (talks_call (Delay 2000) s2) as H3.
  destruct (call (Delay 2000) s2) as [r3 s3]. cbn [snd] in H3.
  pose proof (talks_trans _ _ _ _ _ H12 H3) as H13.
  pose proof (talks_call Millis s3) as H4.
  destruct (call Millis s3) as [r4 s4]. cbn [snd] in H4.
  pose proof (talks_trans _ _ _ _ _ H13 H4) as H14.
  destruct (_enrollInternal_wait fuel (u32 r4) s4) as [[x s5]|] eqn:Hwait;
    [|discriminate].
  destruct (enrollInternal_wait_talks _ _ _ _ _ Hwait) as [l5 H5].
  pose proof (talks_trans _ _ _ _ _ H14 H5) as H15.
  destruct x as [e|].
  { injection Hrun as _ <-. eexists. exact H15. }
  pose proof (talks_call (Image2Tz 2) s5) as H6.
  destruct (call (Image2Tz 2) s5) as [r6 s6]. cbn [snd] in H6.
  pose proof (talks_trans _ _ _ _ _ H15 H6) as H16.
  destruct (negb (u8 r6 =? FINGERPRINT_OK codes)).
  { injection Hrun as _ <-. eexists. exact H16. }
  pose proof (talks_call CreateModel s6) as H7.
  destruct (call CreateModel s6) as [r7 s7]. cbn [snd] in H7.
  pose proof (talks_trans _ _ _ _ _ H16 H7) as H17.
  destruct (negb (u8 r7 =? FINGERPRINT_OK codes)).
  { injection Hrun as _ <-. eexists. exact H17. }
  pose proof (talks_call (StoreModel id) s7) as H8.
  destruct (call (StoreModel id) s7) as [r8 s8]. cbn [snd] in H8.
  pose proof (talks_trans _ _ _ _ _ H17 H8) as H18.
  injection Hrun as _ <-. eexists. exact H18.
Qed.

Lemma isSlotOccupied_true (o : UniversalFingerprint) (id : Z) :
  isSlotOccupied o id = true ->
  _databaseScanned o = true /\ 1 <= id <= _capacity o /\ slot_at o (id - 1) = true.
Proof.
  unfold isSlotOccupied. destruct (_databaseScanned o); cbn [negb orb]; [|discriminate].
  destruct (Z.ltb_spec id 1); cbn [orb]; [discriminate|].
  destruct (Z.gtb_spec id (_capacity o)); [discriminate|].
  intros Hs. repeat split; [lia|lia|exact Hs].
Qed.

(** On an object that satisfies the invariant, enrolling into a slot the
    cache marks occupied changes nothing. *)
Lemma enroll_occupied_Inv
  (fuel : nat) (id numScans : Z) (o : UniversalFingerprint) (w : World E) :
  Inv o ->
  isSlotOccupied o id = true ->
  enroll fuel id numScans (o, w) = Some (UF_ERROR_DUPLICATE_ID, (o, w)).
Proof.
  intros HInv Hocc.
  destruct (isSlotOccupied_true o id Hocc) as (Hscan & Hid & Hslot).
  pose proof (inv_scanned o HInv Hscan) as Hinit.
  unfold enroll. cbn [fst]. rewrite Hinit. cbn [negb].
  destruct (Z.eqb_spec id 0) as [->|_]; [lia|].
  unfold enroll_at, _validateID. cbn [fst].
  replace (1 <=? id) with true by (symmetry; apply Z.leb_le; lia).
  replace (id <=? _capacity o) with true by (symmetry; apply Z.leb_le; lia).
  cbn [andb negb]. rewrite Hscan, Hslot. reflexivity.
Qed.

(** What the polling loop of [_enrollInternal] can do: read the clock and
    capture images, and return early only with a failure. *)
Lemma enrollInternal_wait_polls (fuel : nat) (startTime : Z) :
  forall (s s' : State E) x,
    _enrollInternal_wait fuel startTime s = Some (x, s') ->
    exists l, talks s s' l
              /\ Forall (fun c => c = Millis \/ c = GetImage) l
              /\ (forall e, x = Some e -> e <> UF_OK /\ e ∈ convert_outcomes).
Proof.
  induction fuel as [|fuel IH]; intros s s' x Hrun; cbn [_enrollInternal_wait] in Hrun.
  - discriminate.
  - pose proof (talks_call Millis s) as Hm.
    destruct (call Millis s) as [now s1]. cbn [snd] in Hm.
    destruct (u32 (u32 now - startTime) <? 10000).
    + pose proof (talks_call GetImage s1) as Hg.
      unfold call8, bind, ret in Hrun.
      destruct (call GetImage s1) as [result s2]. cbn [snd] in Hg.
      pose proof (talks_trans _ _ _ _ _ Hm Hg) as Hmg.
      destruct (u8 result =? FINGERPRINT_NOFINGER codes).
      * destruct (IH _ _ _ Hrun) as (l & Hl & Hall & Hx).
        exists ([Millis] ++ [GetImage] ++ l). split; [|split].
        -- rewrite app_assoc. eapply talks_trans; eassumption.
        -- apply Forall_cons. split; [left; reflexivity|].
           apply Forall_cons. split; [right; reflexivity|]. exact Hall.
        -- exact Hx.
      * destruct (Z.eqb_spec (u8 result) (FINGERPRINT_OK codes)) as [Hok|Hne];
          cbn [negb] in Hrun; injection Hrun as <- <-;
          (exists ([Millis] ++ [GetImage]); split; [exact Hmg|split];
           [apply Forall_cons; split; [left; reflexivity|];
            apply Forall_cons; split; [right; reflexivity|]; apply Forall_nil_2|]).
        -- intros e [=].
        -- intros e [= <-]. split; [|apply convert_in_outcomes].
           intros Hc. apply convert_OK_inv in Hc. contradiction.
    + injection Hrun as <- <-. exists [Millis]. split; [exact Hm|]. split.
      * apply Forall_cons. split; [left; reflexivity|]. apply Forall_nil_2.
      * intros e [=].
Qed.

(** Every way out of [_enrollInternal]: a translated driver code, and
    [UF_OK] only at the end, after the model has been stored. *)
Lemma enrollInternal_outcome (fuel : nat) (id : Z) (s s' : State E) (r : UF_ErrorCode) :
  _enrollInternal fuel id s = Some (r, s') ->
  r ∈ convert_outcomes
  /\ (r = UF_OK ->
      exists l,
        talks s s' ([GetImage; Image2Tz 1; Delay 2000; Millis] ++ l
                    ++ [Image2Tz 2; CreateModel; StoreModel id])
        /\ Forall (fun c => c = Millis \/ c = GetImage) l).
Proof.
  unfold _enrollInternal, call8, bind, ret. intros Hrun.
  assert (Hfail : forall code s0,
             code <> FINGERPRINT_OK codes ->
             Some (_convertAdafruitError codes code, s0) = Some (r, s') ->
             r ∈ convert_outcomes /\ (r = UF_OK -> False)).
  { intros code s0 Hne [= <- _]. split; [apply convert_in_outcomes|].
    intros Hc. apply convert_OK_inv in Hc. contradiction. }
  pose proof (talks_call GetImage s) as H1.
  destruct (call GetImage s) as [r1 s1]. cbn [snd] in H1.
  destruct (Z.eqb_spec (u8 r1) (FINGERPRINT_OK codes)) as [_|Hne]; cbn [negb] in Hrun.
  2: { destruct (Hfail _ _ Hne Hrun) as [Hin Hno]. split; [exact Hin|]. intros Hr.
       destruct (Hno Hr). }
  pose proof (talks_call (Image2Tz 1) s1) as H2.
  destruct (call (Image2Tz 1) s1) as [r2 s2]. cbn [snd] in H2.
  pose proof (talks_trans _ _ _ _ _ H1 H2) as H12.
  destruct (Z.eqb_spec (u8 r2) (FINGERPRINT_OK codes)) as [_|Hne]; cbn [negb] in Hrun.
  2: { destruct (Hfail _ _ Hne Hrun) as [Hin Hno]. split; [exact Hin|]. intros Hr.
       destruct (Hno Hr). }
  pose proof (talks_call (Delay 2000) s2) as H3.
  destruct (call (Delay 2000) s2) as [r3 s3]. cbn [snd] in H3.
  pose proof (talks_trans _ _ _ _ _ H12 H3) as H13.
  pose proof (talks_call Millis s3) as H4.
  destruct (call Millis s3) as [r4 s4]. cbn [snd] in H4.
  pose proof (talks_trans _ _ _ _ _ H13 H4) as H14.
  destruct (_enrollInternal_wait fuel (u32 r4) s4) as [[x s5]|] eqn:Hwait;
    [|discriminate].
  destruct (enrollInternal_wait_polls _ _ _ _ _ Hwait) as (l5 & H5 & Hall & Hx).
  pose proof (talks_trans _ _ _ _ _ H14 H5) as H15.
  destruct x as [e|].
  { injection Hrun as <- <-. destruct (Hx e eq_refl) as [Hne Hin].
    split; [exact Hin|]. intros Hr. contradiction. }
  pose proof (talks_call (Image2Tz 2) s5) as H6.
  destruct (call (Image2Tz 2) s5) as [r6 s6]. cbn [snd] in H6.
  pose proof (talks_trans _ _ _ _ _ H15 H6) as H16.
  destruct (Z.eqb_spec (u8 r6) (FINGERPRINT_OK codes)) as [_|Hne]; cbn [negb] in Hrun.
  2: { destruct (Hfail _ _ Hne Hrun) as [Hin Hno]. split; [exact Hin|]. intros Hr.
       destruct (Hno Hr). }
  pose proof (talks_call CreateModel s6) as H7.
  destruct (call CreateModel s6) as [r7 s7]. cbn [snd] in H7.
  pose proof (talks_trans _ _ _ _ _ H16 H7) as H17.
  destruct (Z.eqb_spec (u8 r7) (FINGERPRINT_OK codes)) as [_|Hne]; cbn [negb] in Hrun.
  2: { destruct (Hfail _ _ Hne Hrun) as [Hin Hno]. split; [exact Hin|]. intros Hr.
       destruct (Hno Hr). }
  pose proof (talks_call (StoreModel id) s7) as H8.
  destruct (call (StoreModel id) s7) as [r8 s8]. cbn [snd] in H8.
  pose proof (talks_trans _ _ _ _ _ H17 H8) as H18.
  injection Hrun as <- <-. split; [apply convert_in_outcomes|].
  intros _. exists l5. split; [|exact Hall].
  destruct H18 as [Ho Ht]. split; [exact Ho|]. rewrite Ht.
  rewrite <- !app_assoc. reflexivity.
Qed.

Lemma u32_sub (a b : Z) : u32 (u32 a - u32 b) = (a - b) mod 2 ^ 32.
Proof. unfold u32. rewrite Zminus_mod_idemp_l, Zminus_mod_idemp_r. reflexivity. Qed.

(** With a clock that advances, the polling loop of [_enrollInternal] ends:
    every turn without a finger costs a capture, and so at least a
    millisecond of the ten seconds. *)
Lemma enrollInternal_wait_ends (P : E -> Prop) (time : E -> Z) :
  (forall e c, P e -> P (snd (respond e c))) ->
  (forall e, P e -> u32 (fst (respond e Millis)) = u32 (time e)) ->
  (forall e c, P e -> time e <= time (snd (respond e c)) <= time e + 2 ^ 30) ->
  (forall e, P e -> time e + 1 <= time (snd (respond e GetImage))) ->
  forall (fuel : nat) (T : Z) (o : UniversalFingerprint) (w : World E),
    P (env w) ->
    0 <= time (env w) - T <= 10000 + 2 ^ 31 ->
    Z.max 0 (10000 - (time (env w) - T)) < Z.of_nat fuel ->
    exists x s', _enrollInternal_wait fuel (u32 T) (o, w) = Some (x, s').
Proof.
  intros Hstep Hmillis Hbound Himage.
  induction fuel as [|fuel IH]; intros T o w HP Hd Hfuel; [lia|].
  cbn [_enrollInternal_wait]. run_monad.
  pose proof (Hstep (env w) Millis HP) as HP1.
  pose proof (Hmillis (env w) HP) as Hnow.
  pose proof (Hbound (env w) Millis HP) as Hb1.
  destruct (respond (env w) Millis) as [now e1]. cbn [fst snd] in *.
  rewrite Hnow, u32_sub, Z.mod_small by lia.
  destruct (Z.ltb_spec (time (env w) - T) 10000) as [Hin|Hout];
    [|eexists; eexists; reflexivity].
  pose proof (Hstep e1 GetImage HP1) as HP2.
  pose proof (Himage e1 HP1) as Hi2.
  pose proof (Hbound e1 GetImage HP1) as Hb2.
  run_monad.
  destruct (respond e1 GetImage) as [result e2]. cbn [fst snd] in *.
  destruct (u8 result =? FINGERPRINT_NOFINGER codes).
  - apply IH; cbn [env]; [exact HP2|lia|lia].
  - destruct (negb (u8 result =? FINGERPRINT_OK codes));
      eexists; eexists; reflexivity.
Qed.

(** So [_enrollInternal] returns, given fuel for the ten thousand turns the
    loop can take at most. *)
Lemma enrollInternal_returns (fuel : nat) (id : Z) (o : UniversalFingerprint)
  (w : World E) :
  clock_advances (env w) ->
  10000 < Z.of_nat fuel ->
  exists r s', _enrollInternal fuel id (o, w) = Some (r, s').
Proof.
  intros (P & time & HP & Hstep & Hmillis & Hbound & Himage) Hfuel.
  unfold _enrollInternal. run_monad.
  pose proof (Hstep (env w) GetImage HP) as HP1.
  destruct (respond (env w) GetImage) as [r1 e1]. run_monad.
  destruct (negb (u8 r1 =? FINGERPRINT_OK codes)); [eexists; eexists; reflexivity|].
  pose proof (Hstep e1 (Image2Tz 1) HP1) as HP2.
  destruct (respond e1 (Image2Tz 1)) as [r2 e2]. run_monad.
  destruct (negb (u8 r2 =? FINGERPRINT_OK codes)); [eexists; eexists; reflexivity|].
  pose proof (Hstep e2 (Delay 2000) HP2) as HP3.
  destruct (respond e2 (Delay 2000)) as [r3 e3]. run_monad.
  pose proof (Hstep e3 Millis HP3) as HP4.
  pose proof (Hmillis e3 HP3) as Hstart.
  pose proof (Hbound e3 Millis HP3) as Hb4.
  destruct (respond e3 Millis) as [r4 e4]. run_monad.
  rewrite Hstart.
  match goal with
  | |- context [_enrollInternal_wait fuel (u32 (time e3)) (o, ?w4)] =>
      destruct (enrollInternal_wait_ends P time Hstep Hmillis Hbound Himage
                  fuel (time e3) o w4) as (x & [o5 w5] & Hwait);
      [exact HP4|cbn [env]; lia|cbn [env]; lia|]
  end.
  rewrite Hwait. destruct x as [e|]; [eexists; eexists; reflexivity|].
  run_monad.
  destruct (respond (env w5) (Image2Tz 2)) as [r6 e6]. run_monad.
  destruct (negb (u8 r6 =? FINGERPRINT_OK codes)); [eexists; eexists; reflexivity|].
  destruct (respond e6 CreateModel) as [r7 e7]. run_monad.
  destruct (negb (u8 r7 =? FINGERPRINT_OK codes)); [eexists; eexists; reflexivity|].
  destruct (respond e7 (StoreModel id)) as [r8 e8]. run_monad.
  eexists; eexists; reflexivity.
Qed.

(** C8, as amended: a scan count outside [[1, 4]] is not rejected. It is
    replaced by the default and the call behaves as [enroll(id, 2)]. On an
    initialised object and a valid slot that the cache does not mark
    occupied the call goes to the device, starting with an image capture:
    when that capture fails the call returns its translated code, after
    this one call; and whenever the clock advances the call returns, with a
    translated driver code, after calls that start with the capture. *)
Theorem enroll_scan_count_defaults
  (fuel : nat) (id numScans : Z) (o : UniversalFingerprint) (w : World E) :
  numScans < 1 \/ numScans > 4 ->
  enroll fuel id numScans (o, w) = enroll fuel id 2 (o, w)
  /\ (_initialized o = true -> _validateID o id = true ->
      isSlotOccupied o id = false ->
      (u8 (fst (respond (env w) GetImage)) <> FINGERPRINT_OK codes ->
       enroll fuel id numScans (o, w)
       = Some (_convertAdafruitError codes (u8 (fst (respond (env w) GetImage))),
               (o, mkWorld (snd (respond (env w) GetImage)) (trace w ++ [GetImage]))))
      /\ (clock_advances (env w) -> 10000 < Z.of_nat fuel ->
          exists r o' w' l,
            enroll fuel id numScans (o, w) = Some (r, (o', w'))
            /\ trace w' = trace w ++ GetImage :: l
            /\ r ∈ convert_outcomes)).
Proof.
  intros _. split; [reflexivity|].
  intros Hinit Hvalid Hfree.
  assert (Hid : 1 <= id <= _capacity o).
  { unfold _validateID in Hvalid. apply andb_true_iff in Hvalid. lia. }
  assert (Hguard : _databaseScanned o && slot_at o (id - 1) = false).
  { unfold isSlotOccupied in Hfree. destruct (_databaseScanned o); [|reflexivity].
    cbn [negb orb andb] in *.
    destruct (Z.ltb_spec id 1); [lia|].
    destruct (Z.gtb_spec id (_capacity o)); [lia|]. exact Hfree. }
  assert (Hgo : enroll fuel id numScans (o, w)
                = match _enrollInternal fuel id (o, w) with
                  | None => None
                  | Some (result, s) =>
                      if bool_decide (result = UF_OK) then
                        let s := snd (update (_updateSlotOccupancy id true) s) in
                        let s := snd (update (fun o => set_enrolledCount
                                                         (u16 (_enrolledCount o + 1)) o) s) in
                        Some (result, s)
                      else Some (result, s)
                  end).
  { unfold enroll. cbn [fst]. rewrite Hinit. cbn [negb].
    destruct (Z.eqb_spec id 0) as [->|_]; [lia|].
    unfold enroll_at. cbn [fst]. rewrite Hvalid, Hguard. reflexivity. }
  rewrite Hgo. split.
  - intros Hfail. unfold _enrollInternal. run_monad.
    destruct (respond (env w) GetImage) as [r1 e1]. cbn [fst snd] in *.
    destruct (Z.eqb_spec (u8 r1) (FINGERPRINT_OK codes)) as [Hok|_]; [contradiction|].
    cbn [negb].
    rewrite bool_decide_eq_false_2; [reflexivity|].
    intros Hc. apply convert_OK_inv in Hc. contradiction.
  - intros Hclock Hfuel.
    destruct (enrollInternal_returns fuel id o w Hclock Hfuel) as (r1 & [o1 w1] & Hint).
    rewrite Hint.
    destruct (enrollInternal_talks _ _ _ _ _ Hint) as [l [_ Htr]]. cbn [snd] in Htr.
    destruct (enrollInternal_outcome _ _ _ _ _ Hint) as [Hin _].
    destruct (bool_decide (r1 = UF_OK)); unfold update; cbn [fst snd];
      eexists; eexists; eexists; exists l;
      (split; [reflexivity|split; [exact Htr|exact Hin]]).
Qed.

End Enrolment.

Lemma Inv_three_slots (scanned : bool) : Inv (three_slots scanned).
Proof.
  split; cbn.
  - reflexivity.
  - intros _. exists [true; false; false]. split; reflexivity.
  - lia.
Qed.

Lemma finger_lifted_clock_advances :
  clock_advances (env finger_lifted_after_one_capture).
Proof.
  exists (fun _ => True), now. split; [exact I|]. split; [intros; exact I|].
  split; [reflexivity|]. split.
  - intros e c _. destruct c; cbn; lia.
  - intros e _. cbn. lia.
Defined.

Lemma enroll_scan_count_defaults_witness :
  exists r o' w' l,
    enroll (Z.to_nat 10001) 2 9 (three_slots true, finger_lifted_after_one_capture)
    = Some (r, (o', w'))
    /\ trace w' = trace finger_lifted_after_one_capture ++ GetImage :: l
    /\ r ∈ convert_outcomes.
Proof.
  refine (proj2 (proj2 (enroll_scan_count_defaults (Z.to_nat 10001) 2 9
                          (three_slots true) finger_lifted_after_one_capture _)
                   eq_refl eq_refl eq_refl)
            finger_lifted_clock_advances _).
  - right. reflexivity.
  - rewrite Z2Nat.id; [reflexivity|discriminate].
Defined.

(** C8, as stated, fails: after [begin()] on an AS608 that accepts every
    command, [enroll(1, 9)] is not rejected. It returns [UF_OK], the device
    is asked to capture, convert, combine and store, and slot 1 ends up
    occupied. *)
Lemma enroll_bad_scan_count_not_rejected :
  (9 < 1 \/ 9 > 4)
  /\ fst <$> enroll 5 1 9 after_begin_AS608 = Some UF_OK
  /\ (fun r => trace (snd (snd r))) <$> enroll 5 1 9 after_begin_AS608
     = Some (trace (snd after_begin_AS608)
             ++ [GetImage; Image2Tz 1; Delay 2000; Millis; Millis; GetImage;
                 Image2Tz 2; CreateModel; StoreModel 1])
  /\ (fun r => isSlotOccupied (fst (snd r)) 1) <$> enroll 5 1 9 after_begin_AS608
     = Some true.
Proof.
  split; [right; reflexivity|]. vm_compute. repeat split.
Qed.

(** ** The invariant is established and kept *)

Lemma Inv_new (software : bool) (t : UF_SensorType) :
  Inv (UniversalFingerprint_new software t).
Proof.
  destruct t; split; vm_compute; intros; try discriminate; split; discriminate.
Qed.

Lemma Inv_set_enrolledCount (c : Z) (o : UniversalFingerprint) :
  Inv o -> Inv (set_enrolledCount c o).
Proof. intros [H1 H2 H3]. split; cbn; assumption. Qed.

Lemma updateSlotOccupancy_array (id : Z) (v : bool) (o : UniversalFingerprint) :
  1 <= id <= _capacity o ->
  _slotOccupancy (_updateSlotOccupancy id v o)
  = (fun a => <[Z.to_nat (id - 1) := v]> a) <$> _slotOccupancy o.
Proof.
  intros Hid. unfold _updateSlotOccupancy.
  destruct (_slotOccupancy o) as [a|] eqn:Ha.
  - rewrite bool_decide_eq_true_2 by (eexists; reflexivity).
    replace (1 <=? id) with true by (symmetry; apply Z.leb_le; lia).
    replace (id <=? _capacity o) with true by (symmetry; apply Z.leb_le; lia).
    cbn. rewrite Ha. reflexivity.
  - rewrite bool_decide_eq_false_2 by (intros [x Hx]; discriminate).
    cbn. rewrite Ha. reflexivity.
Qed.

Lemma Inv_updateSlotOccupancy (id : Z) (v : bool) (o : UniversalFingerprint) :
  Inv o -> _initialized o = true -> Inv (_updateSlotOccupancy id v o).
Proof.
  intros [H1 H2 H3] Hinit. unfold _updateSlotOccupancy.
  destruct (bool_decide (is_Some (_slotOccupancy o)) && (1 <=? id)
            && (id <=? _capacity o)); [|split; assumption].
  split; cbn.
  - intros _. exact Hinit.
  - intros _. destruct (H2 Hinit) as (a & Ha & Hlen). rewrite Ha. cbn.
    eexists. split; [reflexivity|]. rewrite length_insert. exact Hlen.
  - exact H3.
Qed.

Section Preservation.
Context {E : Type} `{!Platform E}.

Lemma same_frame_slot_set (i : Z) (v : bool) (o : UniversalFingerprint) :
  same_frame o (slot_set i v o).
Proof.
  unfold same_frame, slot_set. cbn. repeat split.
  destruct (_slotOccupancy o); cbn; [|reflexivity].
  rewrite length_insert. reflexivity.
Qed.

Lemma same_frame_trans (o1 o2 o3 : UniversalFingerprint) :
  same_frame o1 o2 -> same_frame o2 o3 -> same_frame o1 o3.
Proof.
  unfold same_frame. intros (?&?&?&?) (?&?&?&?). repeat split; congruence.
Qed.

Lemma scanDatabase_loop_frame (n : nat) :
  forall (i count : Z) (o : UniversalFingerprint) (w : World E),
    same_frame o (fst (snd (scanDatabase_loop n i count (o, w)))).
Proof.
  induction n as [|n IH]; intros i count o w; cbn [scanDatabase_loop].
  - run_monad. unfold same_frame. repeat split.
  - run_monad. destruct (respond (env w) (GetTemplateCount (u16 (i + 1)))) as [r e'].
    destruct (u8 r =? FINGERPRINT_OK codes);
      (eapply same_frame_trans; [apply (same_frame_slot_set i)|apply IH]).
Qed.

Lemma Inv_same_frame (o o' : UniversalFingerprint) :
  Inv o -> same_frame o o' -> Inv o'.
Proof.
  intros [H1 H2 H3] (Hi & Hc & Hs & Ha). split.
  - rewrite Hs, Hi. exact H1.
  - rewrite Hi, Hc. intros Hinit. destruct (H2 Hinit) as (a & Hsome & Hlen).
    rewrite Hsome in Ha. destruct (_slotOccupancy o') as [a'|]; [|discriminate].
    exists a'. split; [reflexivity|]. cbn in Ha. injection Ha as Ha. lia.
  - rewrite Hc. exact H3.
Qed.

Lemma Inv_scanDatabase (o : UniversalFingerprint) (w : World E) :
  Inv o -> Inv (fst (snd (scanDatabase (o, w)))).
Proof.
  intros HInv. unfold scanDatabase. run_monad.
  destruct (_initialized o) eqn:Hinit; run_monad; [|exact HInv].
  destruct (bool_decide (is_Some (_slotOccupancy o))); run_monad; [|exact HInv].
  pose proof (scanDatabase_loop_frame (Z.to_nat (_capacity o)) 0 0 o w) as Hframe.
  destruct (scanDatabase_loop (Z.to_nat (_capacity o)) 0 0 (o, w)) as [count [o' w']].
  cbn [fst snd] in *.
  pose proof (Inv_same_frame _ _ HInv Hframe) as [H1 H2 H3].
  destruct Hframe as (Hi & _). rewrite Hinit in Hi.
  split; cbn.
  - intros _. exact Hi.
  - exact H2.
  - exact H3.
Qed.

Lemma Inv_getDatabaseStats (o : UniversalFingerprint) (w : World E) :
  Inv o -> Inv (fst (snd (getDatabaseStats (o, w)))).
Proof.
  intros HInv. unfold getDatabaseStats. run_monad.
  destruct (_databaseScanned o); run_monad; [exact HInv|].
  pose proof (Inv_scanDatabase o w HInv) as Hscan.
  destruct (scanDatabase (o, w)) as [r [o' w']]. exact Hscan.
Qed.

Lemma Inv_enroll (fuel : nat) (id numScans : Z) (o o' : UniversalFingerprint)
  (w w' : World E) (r : UF_ErrorCode) :
  Inv o -> enroll fuel id numScans (o, w) = Some (r, (o', w')) -> Inv o'.
Proof.
  intros HInv. unfold enroll. cbn [fst].
  destruct (_initialized o) eqn:Hinit; cbn [negb]; [|intros [= _ <- _]; exact HInv].
  assert (Hat : forall id, enroll_at fuel id (o, w) = Some (r, (o', w')) -> Inv o').
  { clear id. intros id. unfold enroll_at. cbn [fst].
    destruct (negb (_validateID o id)); [intros [= _ <- _]; exact HInv|].
    destruct (_databaseScanned o && slot_at o (id - 1));
      [intros [= _ <- _]; exact HInv|].
    destruct (_enrollInternal fuel id (o, w)) as [[r1 [o1 w1]]|] eqn:Hint;
      [|discriminate].
    destruct (enrollInternal_talks _ _ _ _ _ Hint) as [l [Ho _]]. cbn in Ho. subst o1.
    destruct (bool_decide (r1 = UF_OK)); intros [= _ <- _]; [|exact HInv].
    run_monad. apply Inv_set_enrolledCount.
    apply Inv_updateSlotOccupancy; assumption. }
  destruct (id =? 0); [|apply Hat].
  destruct (findEmptySlot o 1 =? 0); [intros [= _ <- _]; exact HInv|apply Hat].
Qed.

Lemma Inv_deleteTemplate (id : Z) (o : UniversalFingerprint) (w : World E) :
  Inv o -> Inv (fst (snd (deleteTemplate id (o, w)))).
Proof.
  intros HInv. unfold deleteTemplate. run_monad.
  destruct (_initialized o) eqn:Hinit; run_monad; [|exact HInv].
  destruct (negb (_validateID o id)); run_monad; [exact HInv|].
  destruct (respond (env w) (DeleteModel id)) as [r e'].
  destruct (u8 r =? FINGERPRINT_OK codes); run_monad; [|exact HInv].
  pose proof (Inv_updateSlotOccupancy id false o HInv Hinit) as HInv'.
  destruct (0 <? _enrolledCount (_updateSlotOccupancy id false o));
    [apply Inv_set_enrolledCount|]; exact HInv'.
Qed.

Lemma clearDatabase_loop_obj (n : nat) :
  forall (i : Z) (success : bool) (o : UniversalFingerprint) (w : World E),
    fst (snd (clearDatabase_loop n i success (o, w))) = o.
Proof.
  induction n as [|n IH]; intros i success o w; cbn [clearDatabase_loop]; run_monad.
  - reflexivity.
  - destruct (respond (env w) (DeleteModel i)) as [r e']. apply IH.
Qed.

Lemma memset0_all (a : list bool) (n : Z) :
  Z.of_nat (length a) = n -> memset0 a n = replicate (Z.to_nat n) false.
Proof.
  intros <-. unfold memset0. rewrite Nat2Z.id, Nat.min_id.
  rewrite drop_all. apply app_nil_r.
Qed.

Lemma Inv_clearDatabase (o : UniversalFingerprint) (w : World E) :
  Inv o -> Inv (fst (snd (clearDatabase (o, w)))).
Proof.
  intros HInv. unfold clearDatabase. run_monad.
  destruct (_initialized o) eqn:Hinit; run_monad; [|exact HInv].
  pose proof (clearDatabase_loop_obj (Z.to_nat (_capacity o)) 1 true o w) as Hobj.
  destruct (clearDatabase_loop (Z.to_nat (_capacity o)) 1 true (o, w)) as [b [o1 w1]].
  cbn [fst snd] in *. subst o1. destruct HInv as [H1 H2 H3].
  split; cbn.
  - discriminate.
  - intros _. destruct (H2 Hinit) as (a & Ha & Hlen). rewrite Ha. cbn.
    eexists. split; [reflexivity|].
    rewrite (memset0_all a _ Hlen), length_replicate. lia.
  - exact H3.
Qed.

End Preservation.

Section Begin.
Context {E : Type} `{!Platform E}.

Lemma SENSOR_DB_lookup_capacity (t : UF_SensorType) :
  exists info, SENSOR_DB_lookup t = Some info /\ 0 <= capacity info <= 1000
               /\ (t <> UF_SENSOR_AUTO -> capacity info <> 0).
Proof.
  destruct t; eexists; (split; [reflexivity|]); cbn; (split; [lia|]);
    intros Ht; try lia; congruence.
Qed.

(** What [begin_allocate] leaves behind: an initialised object with a
    table capacity, an array of that many entries and, when the object was
    not initialised before, a cache that is still unscanned and all empty. *)
Lemma begin_allocate_spec (o : UniversalFingerprint) (w : World E) :
  let o' := fst (snd (begin_allocate (o, w))) in
  fst (begin_allocate (o, w)) = true
  /\ _initialized o' = true
  /\ 1 <= _capacity o' <= 1000
  /\ (exists a, _slotOccupancy o' = Some a /\ Z.of_nat (length a) = _capacity o')
  /\ (_initialized o = false ->
      _databaseScanned o' = _databaseScanned o
      /\ _enrolledCount o' = _enrolledCount o
      /\ _slotOccupancy o' = Some (replicate (Z.to_nat (_capacity o')) false)
      /\ snd (snd (begin_allocate (o, w))) = w).
Proof.
  unfold begin_allocate. run_monad.
  destruct (SENSOR_DB_lookup_capacity (_sensorType o)) as (info & -> & Hcap & _).
  run_monad.
  set (o1 := set_capacity (capacity info) o).
  set (o2 := if _capacity o1 =? 0
             then set_capacity 162 (set_sensorType UF_SENSOR_AS608 o1) else o1).
  assert (Hrun : forall (k : Method E UniversalFingerprint bool),
             (let (_, s') :=
                (if _capacity o1 =? 0
                 then fun s => let (_, s') := (tt, (set_sensorType UF_SENSOR_AS608 (fst s), snd s)) in
                               (tt, (set_capacity 162 (fst s'), snd s'))
                 else fun s => (tt, s)) (o1, w) in k s') = k (o2, w)).
  { intros k. subst o2. destruct (_capacity o1 =? 0); reflexivity. }
  rewrite Hrun. clear Hrun. run_monad.
  assert (Hcap2 : 1 <= _capacity o2 <= 1000).
  { subst o2 o1. cbn. destruct (Z.eqb_spec (capacity info) 0); cbn; lia. }
  assert (Hinit2 : _initialized o2 = _initialized o).
  { subst o2 o1. cbn. destruct (capacity info =? 0); reflexivity. }
  assert (Hscan2 : _databaseScanned o2 = _databaseScanned o).
  { subst o2 o1. cbn. destruct (capacity info =? 0); reflexivity. }
  assert (Hcount2 : _enrolledCount o2 = _enrolledCount o).
  { subst o2 o1. cbn. destruct (capacity info =? 0); reflexivity. }
  set (o3 := set_slotOccupancy (Some (replicate (Z.to_nat (_capacity o2)) false))
               (set_memoryManager (Some (UF_MemoryManager.new (Some tt) (_capacity o2))) o2)).
  change (_capacity (set_memoryManager (Some (UF_MemoryManager.new (Some tt) (_capacity o2))) o2))
    with (_capacity o2).
  fold o3.
  assert (Harr3 : _slotOccupancy o3 = Some (replicate (Z.to_nat (_capacity o2)) false))
    by reflexivity.
  assert (Hcap3 : _capacity o3 = _capacity o2) by reflexivity.
  assert (Hinit3 : _initialized o3 = _initialized o) by exact Hinit2.
  assert (Hscan3 : _databaseScanned o3 = _databaseScanned o) by exact Hscan2.
  assert (Hcount3 : _enrolledCount o3 = _enrolledCount o) by exact Hcount2.
  clearbody o3. clearbody o2. clear o1 Hinit2 Hscan2 Hcount2.
  unfold scanDatabase. run_monad.
  destruct (_initialized o3) eqn:Hi3; run_monad.
  - rewrite Harr3. rewrite bool_decide_eq_true_2 by (eexists; reflexivity). run_monad.
    pose proof (scanDatabase_loop_frame (Z.to_nat (_capacity o3)) 0 0 o3 w) as Hframe.
    destruct (scanDatabase_loop (Z.to_nat (_capacity o3)) 0 0 (o3, w)) as [count [o4 w4]].
    cbn [fst snd] in *. destruct Hframe as (_ & Hc4 & _ & Ha4).
    split; [reflexivity|]. split; [reflexivity|]. cbn. split; [lia|]. split.
    + rewrite Harr3 in Ha4. destruct (_slotOccupancy o4) as [a4|]; [|discriminate].
      exists a4. split; [reflexivity|]. cbn in Ha4. injection Ha4 as Ha4.
      rewrite length_replicate in Ha4. lia.
    + intros Hfalse. rewrite Hfalse in Hinit3. discriminate.
  - split; [reflexivity|]. split; [reflexivity|]. cbn. split; [lia|]. split.
    + eexists. split; [exact Harr3|]. rewrite length_replicate. lia.
    + intros _. rewrite Hcap3. repeat split; assumption.
Qed.

Lemma begin_unfold (password baudRate : Z) (s : UniversalFingerprint * World E) :
  begin password baudRate s =
  (let* o := this in
   call (SerialBegin (_useSoftwareSerial o) baudRate) ;;
   call (Delay 100) ;;
   let* started := call (FingerBegin baudRate) in
   if started =? 0 then ret false else
   let* verified := call8 VerifyPassword in
   if negb (verified =? FINGERPRINT_OK codes) then ret false else
   (if bool_decide (_sensorType o = UF_SENSOR_AUTO) then
      let* (detected, detector) := on UF_SensorDetector.new UF_SensorDetector.detect in
      update (set_sensorDetector (Some detector)) ;;
      update (set_sensorType detected) ;;
      if bool_decide (detected = UF_SENSOR_AUTO)
      then update (set_sensorType UF_SENSOR_AS608)
      else ret tt
    else ret tt) ;;
   begin_allocate) s.
Proof. reflexivity. Qed.

End Begin.

Section BeginInvariant.
Context {E : Type} `{!Platform E}.

(** [begin()] either fails and leaves the object as it was, or succeeds and
    leaves an initialised object that satisfies the invariant; on an object
    that was not initialised before, the scanned flag and the count are
    what they were. *)
Lemma begin_spec (password baudRate : Z) (o : UniversalFingerprint) (w : World E) :
  let r := fst (begin password baudRate (o, w)) in
  let o' := fst (snd (begin password baudRate (o, w))) in
  (r = false /\ o' = o)
  \/ (r = true
      /\ _initialized o' = true
      /\ 1 <= _capacity o' <= 1000
      /\ (exists a, _slotOccupancy o' = Some a /\ Z.of_nat (length a) = _capacity o')
      /\ (_initialized o = false ->
          _databaseScanned o' = _databaseScanned o
          /\ _enrolledCount o' = _enrolledCount o
          /\ _slotOccupancy o' = Some (replicate (Z.to_nat (_capacity o')) false))).
Proof.
  cbv zeta. rewrite begin_unfold. run_monad.
  destruct (respond (env w) (SerialBegin (_useSoftwareSerial o) baudRate)) as [r1 e1].
  run_monad.
  destruct (respond e1 (Delay 100)) as [r2 e2]. run_monad.
  destruct (respond e2 (FingerBegin baudRate)) as [r3 e3]. run_monad.
  destruct (r3 =? 0); [left; split; reflexivity|]. run_monad.
  destruct (respond e3 VerifyPassword) as [r4 e4]. run_monad.
  destruct (u8 r4 =? FINGERPRINT_OK codes); run_monad; [|left; split; reflexivity].
  right.
  destruct (bool_decide (_sensorType o = UF_SENSOR_AUTO)); run_monad.
  - match goal with
    | |- context [UF_SensorDetector.detect ?s] =>
        destruct (UF_SensorDetector.detect s) as [detected [detector w5]]
    end.
    run_monad.
    destruct (bool_decide (detected = UF_SENSOR_AUTO)); run_monad.
    + match goal with
      | |- context [begin_allocate (?o5, ?w5)] =>
          destruct (begin_allocate_spec o5 w5) as (Hr & Hi & Hc & Ha & Hfresh)
      end.
      repeat (split; [assumption|]). intros Hf.
      destruct (Hfresh Hf) as (? & ? & ? & _). repeat split; assumption.
    + match goal with
      | |- context [begin_allocate (?o5, ?w5)] =>
          destruct (begin_allocate_spec o5 w5) as (Hr & Hi & Hc & Ha & Hfresh)
      end.
      repeat (split; [assumption|]). intros Hf.
      destruct (Hfresh Hf) as (? & ? & ? & _). repeat split; assumption.
  - match goal with
    | |- context [begin_allocate (?o5, ?w5)] =>
        destruct (begin_allocate_spec o5 w5) as (Hr & Hi & Hc & Ha & Hfresh)
    end.
    repeat (split; [assumption|]). intros Hf.
    destruct (Hfresh Hf) as (? & ? & ? & _). repeat split; assumption.
Qed.

Lemma Inv_begin (password baudRate : Z) (o : UniversalFingerprint) (w : World E) :
  Inv o -> Inv (fst (snd (begin password baudRate (o, w)))).
Proof.
  intros HInv.
  destruct (begin_spec password baudRate o w) as [[_ ->]|(_ & Hi & Hc & Ha & _)].
  - exact HInv.
  - split.
    + intros _. exact Hi.
    + intros _. exact Ha.
    + lia.
Qed.

(** A first [begin()] never marks the cache scanned: the scan it asks for
    runs while [_initialized] is still [false] and returns at once. *)
Lemma begin_first_leaves_unscanned
  (password baudRate : Z) (software : bool) (t : UF_SensorType) (w : World E) :
  _databaseScanned
    (fst (snd (begin password baudRate (UniversalFingerprint_new software t, w))))
  = false.
Proof.
  assert (Hnew : _initialized (UniversalFingerprint_new software t) = false
                 /\ _databaseScanned (UniversalFingerprint_new software t) = false).
  { destruct t; split; reflexivity. }
  destruct Hnew as [Hi Hs].
  destruct (begin_spec password baudRate (UniversalFingerprint_new software t) w)
    as [[_ ->]|(_ & _ & _ & _ & Hfresh)].
  - exact Hs.
  - destruct (Hfresh Hi) as [-> _]. exact Hs.
Qed.

End BeginInvariant.

(** ** Reachable states *)

Section Reachable.
Context {E : Type} `{!Platform E}.

Lemma reachable_Inv (s : State E) : reachable s -> Inv (fst s).
Proof.
  induction 1 as [software t w|op s s' _ IH Hrun|o w w' _ IH].
  - apply Inv_new.
  - destruct s as [o w]. cbn [fst] in IH.
    destruct op; cbn [run_op] in Hrun.
    + injection Hrun as <-. apply Inv_begin. exact IH.
    + injection Hrun as <-. apply Inv_scanDatabase. exact IH.
    + injection Hrun as <-. apply Inv_getDatabaseStats. exact IH.
    + destruct (enroll fuel id numScans (o, w)) as [[r [o' w']]|] eqn:Hen;
        [|discriminate].
      injection Hrun as <-. exact (Inv_enroll _ _ _ _ _ _ _ _ IH Hen).
    + injection Hrun as <-. apply Inv_deleteTemplate. exact IH.
    + injection Hrun as <-. apply Inv_clearDatabase. exact IH.
  - exact IH.
Qed.

(** C7: in every state the program can reach, when the cache has been
    scanned and marks slot [id] occupied, [enroll(id)] returns
    [UF_ERROR_DUPLICATE_ID] and leaves the object and the world as they
    were: no call is issued, and neither the occupied count nor any
    occupancy entry changes. *)
Theorem enroll_occupied_rejected_locally
  (fuel : nat) (id numScans : Z) (o : UniversalFingerprint) (w : World E) :
  reachable (o, w) ->
  isSlotOccupied o id = true ->
  enroll fuel id numScans (o, w) = Some (UF_ERROR_DUPLICATE_ID, (o, w)).
Proof.
  intros Hreach Hocc.
  apply enroll_occupied_Inv; [|exact Hocc].
  exact (reachable_Inv (o, w) Hreach).
Qed.

End Reachable.

Lemma reachable_after_enroll_1 :
  reachable (fst after_enroll_1, snd after_enroll_1).
Proof.
  apply (reachable_op (OpEnroll 5 1 2) after_begin_AS608); [|reflexivity].
  apply (reachable_op (OpBegin 0 57600)
           (UniversalFingerprint_new false UF_SENSOR_AS608, fresh_world (accepting 162)));
    [|reflexivity].
  apply reachable_new.
Defined.

Lemma enroll_occupied_rejected_locally_witness :
  enroll 5 1 2 (fst after_enroll_1, snd after_enroll_1)
  = Some (UF_ERROR_DUPLICATE_ID, (fst after_enroll_1, snd after_enroll_1)).
Proof.
  apply (enroll_occupied_rejected_locally 5 1 2 (fst after_enroll_1)
           (snd after_enroll_1) reachable_after_enroll_1).
  vm_compute. reflexivity.
Defined.

(** ** Mutating operations and the cache *)

Section Mutators.
Context {E : Type} `{!Platform E}.

Lemma enroll_at_cache (fuel : nat) (id : Z) (o o' : UniversalFingerprint)
  (w w' : World E) (r : UF_ErrorCode) :
  enroll_at fuel id (o, w) = Some (r, (o', w')) ->
  if bool_decide (r = UF_OK) then
    1 <= id <= _capacity o
    /\ _slotOccupancy o'
       = (fun a => <[Z.to_nat (id - 1) := true]> a) <$> _slotOccupancy o
  else o' = o.
Proof.
  unfold enroll_at. cbn [fst].
  destruct (_validateID o id) eqn:Hvalid; cbn [negb];
    [|intros [= <- <- _]; reflexivity].
  assert (Hid : 1 <= id <= _capacity o).
  { unfold _validateID in Hvalid. apply andb_true_iff in Hvalid. lia. }
  destruct (_databaseScanned o && slot_at o (id - 1));
    [intros [= <- <- _]; reflexivity|].
  destruct (_enrollInternal fuel id (o, w)) as [[r1 [o1 w1]]|] eqn:Hint;
    [|discriminate].
  destruct (enrollInternal_talks _ _ _ _ _ Hint) as [l [Ho _]]. cbn in Ho. subst o1.
  destruct (bool_decide (r1 = UF_OK)) eqn:Hok; intros [= <- <- _]; rewrite Hok.
  - split; [exact Hid|]. run_monad. cbn [set_enrolledCount _slotOccupancy].
    apply updateSlotOccupancy_array. exact Hid.
  - reflexivity.
Qed.

(** C6, as amended: a successful enroll or delete changes the occupancy
    entry of the one affected slot and no other entry; an enroll or delete
    that does not succeed leaves the object, and so the cache, unchanged;
    clear on an initialised object resets the cache (every entry empty,
    count zero, scanned flag off) whether it reports [UF_OK] or
    [UF_ERROR_COMM], and on an uninitialised object changes nothing. *)
Theorem mutators_update_their_slots
  (fuel : nat) (id numScans : Z) (o : UniversalFingerprint) (w : World E) :
  Inv o ->
  (forall r o' w',
      enroll fuel id numScans (o, w) = Some (r, (o', w')) ->
      if bool_decide (r = UF_OK) then
        let slot := if id =? 0 then findEmptySlot o 1 else id in
        1 <= slot <= _capacity o
        /\ _slotOccupancy o'
           = (fun a => <[Z.to_nat (slot - 1) := true]> a) <$> _slotOccupancy o
      else o' = o)
  /\ (let r := fst (deleteTemplate id (o, w)) in
      let o' := fst (snd (deleteTemplate id (o, w))) in
      if bool_decide (r = UF_OK) then
        1 <= id <= _capacity o
        /\ _slotOccupancy o'
           = (fun a => <[Z.to_nat (id - 1) := false]> a) <$> _slotOccupancy o
      else o' = o)
  /\ (let r := fst (clearDatabase (o, w)) in
      let o' := fst (snd (clearDatabase (o, w))) in
      if _initialized o then
        (r = UF_OK \/ r = UF_ERROR_COMM)
        /\ _slotOccupancy o' = Some (replicate (Z.to_nat (_capacity o)) false)
        /\ _enrolledCount o' = 0
        /\ _databaseScanned o' = false
      else r = UF_ERROR_NO_SENSOR /\ o' = o).
Proof.
  intros HInv. split; [|split].
  - intros r o' w'. unfold enroll. cbn [fst].
    destruct (_initialized o); cbn [negb]; [|intros [= <- <- _]; reflexivity].
    destruct (id =? 0).
    + destruct (findEmptySlot o 1 =? 0); [intros [= <- <- _]; reflexivity|].
      apply enroll_at_cache.
    + apply enroll_at_cache.
  - cbv zeta. unfold deleteTemplate. run_monad.
    destruct (_initialized o); run_monad; [|reflexivity].
    destruct (_validateID o id) eqn:Hvalid; run_monad; [|reflexivity].
    assert (Hid : 1 <= id <= _capacity o).
    { unfold _validateID in Hvalid. apply andb_true_iff in Hvalid. lia. }
    destruct (respond (env w) (DeleteModel id)) as [r e']. run_monad.
    destruct (Z.eqb_spec (u8 r) (FINGERPRINT_OK codes)) as [Hok|Hne]; run_monad.
    + rewrite bool_decide_eq_true_2 by reflexivity. split; [exact Hid|].
      rewrite <- (updateSlotOccupancy_array id false o Hid).
      destruct (0 <? _enrolledCount (_updateSlotOccupancy id false o)); reflexivity.
    + rewrite bool_decide_eq_false_2; [reflexivity|].
      intros Hconv. apply convert_OK_inv in Hconv. contradiction.
  - cbv zeta. unfold clearDatabase. run_monad.
    destruct (_initialized o) eqn:Hinit; run_monad; [|split; reflexivity].
    pose proof (clearDatabase_loop_obj (Z.to_nat (_capacity o)) 1 true o w) as Hobj.
    destruct (clearDatabase_loop (Z.to_nat (_capacity o)) 1 true (o, w)) as [b [o1 w1]].
    cbn [fst snd] in *. subst o1.
    split; [destruct b; [left|right]; reflexivity|].
    cbn. destruct (inv_array o HInv Hinit) as (a & Ha & Hlen).
    rewrite Ha. cbn. rewrite (memset0_all a _ Hlen). repeat split.
Qed.

End Mutators.

Lemma mutators_update_their_slots_witness :
  fst (clearDatabase (three_slots true, fresh_world (accepting 3))) = UF_OK
  \/ fst (clearDatabase (three_slots true, fresh_world (accepting 3))) = UF_ERROR_COMM.
Proof.
  exact (proj1 (proj2 (proj2 (mutators_update_their_slots 5 1 2 (three_slots true)
                                (fresh_world (accepting 3)) (Inv_three_slots true))))).
Defined.

(** C6, as stated, fails for a clear that does not succeed: with slot 1
    enrolled on a sensor whose delete command fails, [clearDatabase()]
    reports [UF_ERROR_COMM], yet the entry of slot 1, the occupied count and
    the scanned flag have all changed. *)
Lemma clearDatabase_failure_resets_cache :
  (fun r => (fst r, _slotOccupancy (fst (snd r)) ≫= (fun a => a !! 0%nat),
             _enrolledCount (fst (snd r)), _databaseScanned (fst (snd r))))
    <$> enrolled_on_delete_fails
  = Some (UF_OK, Some true, 1, true)
  /\ (fun r => (fst (clearDatabase (snd r)),
                _slotOccupancy (fst (snd (clearDatabase (snd r)))) ≫= (fun a => a !! 0%nat),
                _enrolledCount (fst (snd (clearDatabase (snd r)))),
                _databaseScanned (fst (snd (clearDatabase (snd r))))))
       <$> enrolled_on_delete_fails
     = Some (UF_ERROR_COMM, Some false, 0, false).
Proof. vm_compute. split; reflexivity. Qed.

(** ** Capacity detection *)

Section Detection.
Context {E : Type} `{!Platform E}.

Lemma catalog_descending_eq :
  UF_SensorDetector.catalog_descending
  = [ Build_UF_SensorInfo UF_SENSOR_R307 "R307" "ZHONGSEN" 1000 256 57600 1 true true;
      Build_UF_SensorInfo UF_SENSOR_ZFM60 "ZFM-60" "ZHONGSEN" 300 128 57600 1 true true;
      Build_UF_SensorInfo UF_SENSOR_ZFM20 "ZFM-20" "ZHONGSEN" 256 128 57600 1 false true;
      Build_UF_SensorInfo UF_SENSOR_GT511C3 "GT-511C3" "Grow" 200 512 9600 1 false false;
      Build_UF_SensorInfo UF_SENSOR_AS608 "AS608" "Adafruit" 162 128 57600 1 true true ].
Proof. vm_compute. reflexivity. Qed.

Lemma catalog_eq :
  UF_SensorDetector.catalog
  = [ Build_UF_SensorInfo UF_SENSOR_AS608 "AS608" "Adafruit" 162 128 57600 1 true true;
      Build_UF_SensorInfo UF_SENSOR_R307 "R307" "ZHONGSEN" 1000 256 57600 1 true true;
      Build_UF_SensorInfo UF_SENSOR_GT511C3 "GT-511C3" "Grow" 200 512 9600 1 false false;
      Build_UF_SensorInfo UF_SENSOR_ZFM60 "ZFM-60" "ZHONGSEN" 300 128 57600 1 true true;
      Build_UF_SensorInfo UF_SENSOR_ZFM20 "ZFM-20" "ZHONGSEN" 256 128 57600 1 false true ].
Proof. vm_compute. reflexivity. Qed.

(** The five tests of [detectByCapacity] are the walk over the catalog by
    descending capacity. *)
Lemma detectByCapacity_walk (d : UF_SensorDetector.t) (w : World E) :
  UF_SensorDetector.detectByCapacity (d, w)
  = UF_SensorDetector.first_addressable UF_SensorDetector.catalog_descending (d, w).
Proof.
  rewrite catalog_descending_eq.
  unfold UF_SensorDetector.detectByCapacity, UF_SensorDetector._testSlot.
  cbn [UF_SensorDetector.first_addressable capacity type].
  run_monad.
  repeat (match goal with
          | |- context [respond ?e ?c] =>
              destruct (respond e c); run_monad
          end;
          match goal with
          | |- context [u8 ?r =? ?ok] => destruct (u8 r =? ok); run_monad
          end;
          try reflexivity).
Qed.

(** What the walk does with the device's answers: it asks about the
    profiles in order, goes on after every answer that is not OK, stops at
    the first OK with that profile's type, and gives up only when the list
    is exhausted. It leaves the detector object alone. *)
Lemma first_addressable_spec (profiles : list UF_SensorInfo) :
  forall (d : UF_SensorDetector.t) (w : World E),
  exists asked rest,
    profiles = asked ++ rest
    /\ fst (snd (UF_SensorDetector.first_addressable profiles (d, w))) = d
    /\ trace (snd (snd (UF_SensorDetector.first_addressable profiles (d, w))))
       = trace w ++ (GetTemplateCount <$> (capacity <$> asked))
    /\ ((exists refused p,
           asked = refused ++ [p]
           /\ fst (UF_SensorDetector.first_addressable profiles (d, w)) = type p
           /\ Forall (fun a => u8 a <> FINGERPRINT_OK codes)
                (answers (env w) (GetTemplateCount <$> (capacity <$> refused)))
           /\ u8 (fst (respond
                         (env_after (env w)
                            (GetTemplateCount <$> (capacity <$> refused)))
                         (GetTemplateCount (capacity p))))
              = FINGERPRINT_OK codes)
        \/ (fst (UF_SensorDetector.first_addressable profiles (d, w)) = UF_SENSOR_AUTO
            /\ rest = []
            /\ Forall (fun a => u8 a <> FINGERPRINT_OK codes)
                 (answers (env w) (GetTemplateCount <$> (capacity <$> asked))))).
Proof.
  induction profiles as [|p ps IH]; intros d w;
    cbn [UF_SensorDetector.first_addressable]; run_monad.
  - exists [], []. cbn [fmap list_fmap answers].
    split; [reflexivity|]. split; [reflexivity|].
    split; [symmetry; apply app_nil_r|].
    right. split; [reflexivity|]. split; [reflexivity|]. constructor.
  - destruct (respond (env w) (GetTemplateCount (capacity p))) as [r e'] eqn:Hr.
    run_monad.
    destruct (Z.eqb_spec (u8 r) (FINGERPRINT_OK codes)) as [Hok|Hno]; run_monad.
    + exists [p], ps.
      split; [reflexivity|]. split; [reflexivity|]. split; [reflexivity|].
      left. exists [], p.
      cbn [fmap list_fmap answers env_after]. rewrite Hr. cbn [fst].
      split; [reflexivity|]. split; [reflexivity|]. split; [constructor|exact Hok].
    + destruct (IH d (mkWorld e' (trace w ++ [GetTemplateCount (capacity p)])))
        as (asked & rest & Hsplit & Hobj & Htr & Hcases).
      cbn [env trace] in *.
      exists (p :: asked), rest. split; [rewrite Hsplit; reflexivity|].
      split; [exact Hobj|]. split.
      { rewrite Htr, <- app_assoc. reflexivity. }
      destruct Hcases as [(refused & q & Hasked & Hres & Hall & Hlast)
                         |(Hres & Hrest & Hall)].
      * left. exists (p :: refused), q. split; [rewrite Hasked; reflexivity|].
        split; [exact Hres|].
        cbn [fmap list_fmap answers env_after]. rewrite Hr. cbn [fst snd].
        split; [constructor; assumption|exact Hlast].
      * right. split; [exact Hres|]. split; [exact Hrest|].
        cbn [fmap list_fmap answers]. rewrite Hr. cbn [fst snd].
        constructor; assumption.
Qed.

(** [detect] reads the parameters, whatever they are, and then hands over
    to [detectByCapacity]. *)
Lemma detect_delegates (d : UF_SensorDetector.t) (w : World E) :
  let w0 := mkWorld (snd (respond (env w) GetParameters)) (trace w ++ [GetParameters]) in
  let d0 := UF_SensorDetector.set_detectedType UF_SENSOR_AUTO d in
  fst (UF_SensorDetector.detect (d, w))
  = fst (UF_SensorDetector.detectByCapacity (d0, w0))
  /\ snd (snd (UF_SensorDetector.detect (d, w)))
     = snd (snd (UF_SensorDetector.detectByCapacity (d0, w0))).
Proof.
  unfold UF_SensorDetector.detect, UF_SensorDetector.detectByParameters.
  run_monad.
  destruct (respond (env w) GetParameters) as [param e1]. cbn [snd].
  destruct (u32 param =? 0); run_monad;
    cbn [UF_SensorDetector.set_detectedType UF_SensorDetector._detectedType];
    rewrite bool_decide_eq_true_2 by reflexivity; run_monad;
    match goal with
    | |- context [UF_SensorDetector.detectByCapacity (?d1, ?w1)] =>
        destruct (UF_SensorDetector.detectByCapacity (d1, w1)) as [t1 [d2 w2]]
    end;
    (split; reflexivity).
Qed.

(** [_testSlot] against a device whose answer to the template-count query
    is a fixed function of the slot index. *)
Lemma testSlot_answers (P : E -> Prop) (addressable : Z -> bool) :
  (forall e id, P e ->
     (u8 (fst (respond e (GetTemplateCount id))) =? FINGERPRINT_OK codes)
     = addressable id) ->
  forall (id : Z) (d : UF_SensorDetector.t) (w : World E),
    P (env w) ->
    UF_SensorDetector._testSlot id (d, w)
    = (addressable id,
       (d, mkWorld (snd (respond (env w) (GetTemplateCount id)))
             (trace w ++ [GetTemplateCount id]))).
Proof.
  intros Hans id d w HP. unfold UF_SensorDetector._testSlot. run_monad.
  pose proof (Hans (env w) id HP) as Hid.
  destruct (respond (env w) (GetTemplateCount id)) as [r e']. cbn [fst snd] in *.
  rewrite Hid. reflexivity.
Qed.

(** [detectByCapacity] against such a device: the match is the first
    profile, by descending capacity, whose largest index the device
    accepts, and the device has been asked about the profiles up to that
    one and no other. *)
Lemma detectByCapacity_answers (P : E -> Prop) (addressable : Z -> bool) :
  (forall e c, P e -> P (snd (respond e c))) ->
  (forall e id, P e ->
     (u8 (fst (respond e (GetTemplateCount id))) =? FINGERPRINT_OK codes)
     = addressable id) ->
  forall (d : UF_SensorDetector.t) (w : World E),
    P (env w) ->
    exists e',
      P e'
      /\ UF_SensorDetector.detectByCapacity (d, w)
         = (UF_SensorDetector.first_accepted addressable
              UF_SensorDetector.catalog_descending,
            (d, mkWorld e'
                  (trace w
                   ++ (GetTemplateCount
                         <$> UF_SensorDetector.probes_until_accepted addressable
                               UF_SensorDetector.catalog_descending)))).
Proof.
  intros Hstep Hans d w HP.
  rewrite catalog_descending_eq.
  unfold UF_SensorDetector.first_accepted.
  cbn [List.find UF_SensorDetector.probes_until_accepted capacity type].
  unfold UF_SensorDetector.detectByCapacity, bind, ret.
  rewrite (testSlot_answers P addressable Hans 1000 d w HP).
  pose proof (Hstep _ (GetTemplateCount 1000) HP) as HP1.
  destruct (addressable 1000).
  { eexists. split; [exact HP1|]. reflexivity. }
  rewrite (testSlot_answers P addressable Hans 300 d (mkWorld _ _) HP1). cbn [env trace].
  pose proof (Hstep _ (GetTemplateCount 300) HP1) as HP2.
  destruct (addressable 300).
  { eexists. split; [exact HP2|]. cbn [trace fmap list_fmap].
    rewrite <- !app_assoc. reflexivity. }
  rewrite (testSlot_answers P addressable Hans 256 d (mkWorld _ _) HP2). cbn [env trace].
  pose proof (Hstep _ (GetTemplateCount 256) HP2) as HP3.
  destruct (addressable 256).
  { eexists. split; [exact HP3|]. cbn [trace fmap list_fmap].
    rewrite <- !app_assoc. reflexivity. }
  rewrite (testSlot_answers P addressable Hans 200 d (mkWorld _ _) HP3). cbn [env trace].
  pose proof (Hstep _ (GetTemplateCount 200) HP3) as HP4.
  destruct (addressable 200).
  { eexists. split; [exact HP4|]. cbn [trace fmap list_fmap].
    rewrite <- !app_assoc. reflexivity. }
  rewrite (testSlot_answers P addressable Hans 162 d (mkWorld _ _) HP4). cbn [env trace].
  pose proof (Hstep _ (GetTemplateCount 162) HP4) as HP5.
  destruct (addressable 162).
  { eexists. split; [exact HP5|]. cbn [trace fmap list_fmap].
    rewrite <- !app_assoc. reflexivity. }
  eexists. split; [exact HP5|]. cbn [trace fmap list_fmap].
  rewrite <- !app_assoc. reflexivity.
Qed.

(** [detect] hands over to [detectByCapacity], whatever the parameters
    read, and records the match with its capacity. *)
Lemma detect_answers (P : E -> Prop) (addressable : Z -> bool) :
  (forall e c, P e -> P (snd (respond e c))) ->
  (forall e id, P e ->
     (u8 (fst (respond e (GetTemplateCount id))) =? FINGERPRINT_OK codes)
     = addressable id) ->
  forall (d : UF_SensorDetector.t) (w : World E),
    P (env w) ->
    fst (UF_SensorDetector.detect (d, w))
    = UF_SensorDetector.first_accepted addressable UF_SensorDetector.catalog_descending
    /\ trace (snd (snd (UF_SensorDetector.detect (d, w))))
       = trace w
         ++ GetParameters
            :: (GetTemplateCount
                  <$> UF_SensorDetector.probes_until_accepted addressable
                        UF_SensorDetector.catalog_descending).
Proof.
  intros Hstep Hans d w HP.
  unfold UF_SensorDetector.detect, UF_SensorDetector.detectByParameters.
  run_monad.
  pose proof (Hstep (env w) GetParameters HP) as HP1.
  destruct (respond (env w) GetParameters) as [param e1]. cbn [snd] in HP1.
  assert (Hcap : forall d1 w1, env w1 = e1 -> trace w1 = trace w ++ [GetParameters] ->
            fst (UF_SensorDetector.detectByCapacity (d1, w1))
            = UF_SensorDetector.first_accepted addressable
                UF_SensorDetector.catalog_descending
            /\ trace (snd (snd (UF_SensorDetector.detectByCapacity (d1, w1))))
               = trace w
                 ++ GetParameters
                    :: (GetTemplateCount
                          <$> UF_SensorDetector.probes_until_accepted addressable
                                UF_SensorDetector.catalog_descending)).
  { intros d1 w1 Hw1 Ht1.
    destruct (detectByCapacity_answers P addressable Hstep Hans d1 w1)
      as (e' & _ & ->); [rewrite Hw1; exact HP1|].
    cbn [fst snd trace]. rewrite Ht1, <- app_assoc. split; reflexivity. }
  destruct (u32 param =? 0); run_monad;
    cbn [UF_SensorDetector.set_detectedType UF_SensorDetector._detectedType];
    rewrite bool_decide_eq_true_2 by reflexivity; run_monad;
    match goal with
    | |- context [UF_SensorDetector.detectByCapacity (?d1, ?w1)] =>
        destruct (Hcap d1 w1 eq_refl eq_refl) as [Hres Htr];
        destruct (UF_SensorDetector.detectByCapacity (d1, w1)) as [t1 [d2 w2]]
    end;
    cbn [fst snd] in *; subst t1; (split; [reflexivity|exact Htr]).
Qed.

Lemma accepts_exactly_answers (limit : Z) (e : E) :
  accepts_exactly_up_to limit e ->
  exists P : E -> Prop,
    P e
    /\ (forall e' c, P e' -> P (snd (respond e' c)))
    /\ (forall e' id, P e' ->
          (u8 (fst (respond e' (GetTemplateCount id))) =? FINGERPRINT_OK codes)
          = (id <=? limit)).
Proof.
  intros (P & HP & Hstep & Hprobe). exists P. split; [exact HP|]. split; [exact Hstep|].
  intros e' id He'. pose proof (Hprobe e' id He') as Hiff.
  destruct (Z.eqb_spec (u8 (fst (respond e' (GetTemplateCount id))))
              (FINGERPRINT_OK codes)) as [Hok|Hno];
    destruct (Z.leb_spec id limit); try reflexivity.
  - apply Hiff in Hok. lia.
  - exfalso. apply Hno. apply Hiff. lia.
Qed.

(** C3: detection walks the cataloged profiles by capacity, largest first
    (1000, 300, 256, 200, 162), puts each profile's largest slot index to the
    device and selects the first profile whose index the device accepts.
    Against a device that accepts exactly the indices up to [limit] the
    match is therefore the cataloged profile of the largest capacity that
    does not exceed [limit] (none when [limit] is below all of them), and
    the device has been asked about the larger profiles and the match, in
    this order, and nothing else. With a limit of 1000 the match is the R307
    profile, whose capacity is 1000, after the single probe of index 1000.
    Against any device at all, the walk goes on after every answer that is
    not OK, stops at the first answer that is OK with that profile's type,
    and finds no match only when all five profiles were refused. *)
Theorem detectByCapacity_largest_first (d : UF_SensorDetector.t) (w : World E) :
  capacity <$> UF_SensorDetector.catalog_descending = [1000; 300; 256; 200; 162]
  /\ UF_SensorDetector.detectByCapacity (d, w)
     = UF_SensorDetector.first_addressable UF_SensorDetector.catalog_descending (d, w)
  /\ (forall limit, accepts_exactly_up_to limit (env w) ->
      let selected :=
        UF_SensorDetector.first_accepted (fun id => id <=? limit)
          UF_SensorDetector.catalog_descending in
      fst (UF_SensorDetector.detectByCapacity (d, w)) = selected
      /\ fst (UF_SensorDetector.detect (d, w)) = selected
      /\ fst (snd (UF_SensorDetector.detectByCapacity (d, w))) = d
      /\ trace (snd (snd (UF_SensorDetector.detectByCapacity (d, w))))
         = trace w
           ++ (GetTemplateCount
                 <$> UF_SensorDetector.probes_until_accepted (fun id => id <=? limit)
                       UF_SensorDetector.catalog_descending)
      /\ (forall p, p ∈ UF_SensorDetector.catalog -> capacity p <= limit ->
            exists q, q ∈ UF_SensorDetector.catalog
                      /\ type q = selected
                      /\ capacity p <= capacity q <= limit)
      /\ ((forall p, p ∈ UF_SensorDetector.catalog -> limit < capacity p) ->
          selected = UF_SENSOR_AUTO)
      /\ (limit = 1000 ->
          selected = UF_SENSOR_R307
          /\ capacity <$> SENSOR_DB_lookup UF_SENSOR_R307 = Some 1000
          /\ trace (snd (snd (UF_SensorDetector.detectByCapacity (d, w))))
             = trace w ++ [GetTemplateCount 1000]))
  /\ exists asked rest,
       UF_SensorDetector.catalog_descending = asked ++ rest
       /\ fst (snd (UF_SensorDetector.detectByCapacity (d, w))) = d
       /\ trace (snd (snd (UF_SensorDetector.detectByCapacity (d, w))))
          = trace w ++ (GetTemplateCount <$> (capacity <$> asked))
       /\ ((exists refused p,
              asked = refused ++ [p]
              /\ fst (UF_SensorDetector.detectByCapacity (d, w)) = type p
              /\ Forall (fun a => u8 a <> FINGERPRINT_OK codes)
                   (answers (env w) (GetTemplateCount <$> (capacity <$> refused)))
              /\ u8 (fst (respond
                            (env_after (env w)
                               (GetTemplateCount <$> (capacity <$> refused)))
                            (GetTemplateCount (capacity p))))
                 = FINGERPRINT_OK codes)
           \/ (fst (UF_SensorDetector.detectByCapacity (d, w)) = UF_SENSOR_AUTO
               /\ rest = []
               /\ Forall (fun a => u8 a <> FINGERPRINT_OK codes)
                    (answers (env w) (GetTemplateCount <$> (capacity <$> asked))))).
Proof.
  split; [|split; [|split;
    [|rewrite detectByCapacity_walk; apply first_addressable_spec]]].
  - rewrite catalog_descending_eq. reflexivity.
  - apply detectByCapacity_walk.
  - intros limit Hacc selected.
    destruct (accepts_exactly_answers limit (env w) Hacc) as (P & HP & Hstep & Hans).
    destruct (detectByCapacity_answers P _ Hstep Hans d w HP) as (e' & _ & Hrun).
    destruct (detect_answers P _ Hstep Hans d w HP) as [Hdet _].
    rewrite Hrun. cbn [fst snd trace]. fold selected.
    split; [reflexivity|]. split; [exact Hdet|]. split; [reflexivity|].
    split; [reflexivity|].
    subst selected. unfold UF_SensorDetector.first_accepted.
    rewrite catalog_descending_eq, catalog_eq.
    cbn [List.find UF_SensorDetector.probes_until_accepted capacity type
           fmap list_fmap].
    split; [|split].
    + intros p Hp Hle. apply list_elem_of_In in Hp. cbn [In] in Hp.
      destruct (Z.leb_spec 1000 limit);
        [|destruct (Z.leb_spec 300 limit);
          [|destruct (Z.leb_spec 256 limit);
            [|destruct (Z.leb_spec 200 limit);
              [|destruct (Z.leb_spec 162 limit)]]]].
      * eexists. split; [apply list_elem_of_In; right; left; reflexivity|].
        split; [reflexivity|]. cbn [capacity].
        repeat (destruct Hp as [<-|Hp]; [cbn [capacity] in *; lia|]). destruct Hp.
      * eexists. split; [apply list_elem_of_In; do 3 right; left; reflexivity|].
        split; [reflexivity|]. cbn [capacity].
        repeat (destruct Hp as [<-|Hp]; [cbn [capacity] in *; lia|]). destruct Hp.
      * eexists. split; [apply list_elem_of_In; do 4 right; left; reflexivity|].
        split; [reflexivity|]. cbn [capacity].
        repeat (destruct Hp as [<-|Hp]; [cbn [capacity] in *; lia|]). destruct Hp.
      * eexists. split; [apply list_elem_of_In; do 2 right; left; reflexivity|].
        split; [reflexivity|]. cbn [capacity].
        repeat (destruct Hp as [<-|Hp]; [cbn [capacity] in *; lia|]). destruct Hp.
      * eexists. split; [apply list_elem_of_In; left; reflexivity|].
        split; [reflexivity|]. cbn [capacity].
        repeat (destruct Hp as [<-|Hp]; [cbn [capacity] in *; lia|]). destruct Hp.
      * exfalso.
        repeat (destruct Hp as [<-|Hp]; [cbn [capacity] in *; lia|]). destruct Hp.
    + intros Hall.
      assert (H162 : limit < 162).
      { apply (Hall (Build_UF_SensorInfo UF_SENSOR_AS608 "AS608" "Adafruit"
                       162 128 57600 1 true true)).
        apply list_elem_of_In. left. reflexivity. }
      repeat match goal with
             | |- context [?c <=? limit] =>
                 destruct (Z.leb_spec c limit); [lia|]
             end.
      reflexivity.
    + intros ->. split; [reflexivity|]. split; reflexivity.
Qed.

End Detection.

Lemma accepting_accepts_exactly (limit : Z) :
  accepts_exactly_up_to limit (accepting limit).
Proof.
  exists (fun m => slotLimit m = limit). split; [reflexivity|]. split.
  - intros e' c He'. exact He'.
  - intros e' id He'. cbn. rewrite He'.
    destruct (Z.leb_spec id limit) as [Hle|Hgt]; split; intros Hres;
      try lia; try reflexivity.
    vm_compute in Hres. discriminate.
Qed.

Lemma detectByCapacity_largest_first_witness :
  fst (UF_SensorDetector.detect
         (UF_SensorDetector.new, fresh_world (accepting 1000)))
  = UF_SENSOR_R307
  /\ fst (UF_SensorDetector.detectByCapacity
            (UF_SensorDetector.new, fresh_world (accepting 300)))
     = UF_SENSOR_ZFM60.
Proof.
  split.
  - exact (proj1 (proj2 (proj1 (proj2 (proj2 (detectByCapacity_largest_first
                                                UF_SensorDetector.new
                                                (fresh_world (accepting 1000)))))
                           1000 (accepting_accepts_exactly 1000)))).
  - exact (proj1 (proj1 (proj2 (proj2 (detectByCapacity_largest_first
                                         UF_SensorDetector.new
                                         (fresh_world (accepting 300)))))
                    300 (accepting_accepts_exactly 300))).
Defined.

(** ** The occupied count *)

(** C1 fails on the code. On an empty AS608, after [begin()] and a scan that
    finds nothing, [enroll(1)] and [deleteTemplate(2)] both report success.
    After the enroll the reported count is 1 and slot 1 is the one occupied
    slot; [deleteTemplate(2)] then lowers the count although slot 2 was
    empty, so [getDatabaseStats] reports 0 occupied slots while
    [isSlotOccupied] is still true for slot 1. *)
Theorem occupied_count_drifts_on_deleting_empty_slot :
  reported after_scan_empty = (0, [])
  /\ (fun r => (fst (fst (fst r)), snd (fst (fst r)))) <$> enroll_1_delete_2
     = Some (UF_OK, UF_OK)
  /\ (fun r => reported (snd (fst r))) <$> enroll_1_delete_2 = Some (1, [1])
  /\ (fun r => reported (snd r)) <$> enroll_1_delete_2 = Some (0, [1]).
Proof. vm_compute. repeat split. Qed.

(** C2 fails on the code: a first [begin()] on an AS608 that accepts every
    command returns [true], but its scan ran while [_initialized] was still
    [false] and returned at once. No slot was queried, the cache is not
    marked scanned, and the queries answer as for an unknown database:
    [findEmptySlot()] is 0 and [enroll()] with automatic slot choice reports
    [UF_ERROR_SLOT_FULL]. *)
Theorem begin_returns_without_scanning :
  fst (begin 0 57600
         (UniversalFingerprint_new false UF_SENSOR_AS608, fresh_world (accepting 162)))
  = true
  /\ _initialized (fst after_begin_AS608) = true
  /\ _databaseScanned (fst after_begin_AS608) = false
  /\ trace (snd after_begin_AS608)
     = [SerialBegin false 57600; Delay 100; FingerBegin 57600; VerifyPassword]
  /\ findEmptySlot (fst after_begin_AS608) 1 = 0
  /\ fst <$> enroll 5 0 2 after_begin_AS608 = Some UF_ERROR_SLOT_FULL.
Proof. vm_compute. repeat split. Qed.

(** ** The sibling bookkeeping of UF_MemoryManager *)

Lemma count_true_cons (b : bool) (a : list bool) :
  count_true (b :: a) = Z.b2z b + count_true a.
Proof. unfold count_true. destruct b; cbn [List.filter id length Z.b2z]; lia. Qed.

Lemma count_true_insert (a : list bool) :
  forall (i : nat) (b v : bool),
    a !! i = Some b ->
    count_true (<[i := v]> a) = count_true a - Z.b2z b + Z.b2z v.
Proof.
  induction a as [|x a IH]; intros i b v Hl.
  - discriminate.
  - destruct i as [|i]; cbn in Hl.
    + injection Hl as ->. change (<[0%nat := v]> (b :: a)) with (v :: a).
      rewrite !count_true_cons. lia.
    + change (<[S i := v]> (x :: a)) with (x :: <[i := v]> a).
      rewrite !count_true_cons, (IH i b v Hl). lia.
Qed.

Lemma count_true_bounds (a : list bool) :
  0 <= count_true a <= Z.of_nat (length a).
Proof.
  induction a as [|x a IH].
  - vm_compute. split; discriminate.
  - rewrite count_true_cons. cbn [length]. destruct x; cbn [Z.b2z]; lia.
Qed.

(** X19: [UF_MemoryManager::updateSlot] adjusts the count by the change of
    the entry, so a count that equals the number of occupied entries stays
    equal to it; [deleteTemplate] in the main class decrements without
    looking at the entry. *)
Lemma updateSlot_keeps_count (id : Z) (occupied : bool)
  (m : UF_MemoryManager.t) (a : list bool) :
  UF_MemoryManager._slotMap m = Some a ->
  Z.of_nat (length a) = UF_MemoryManager._capacity m ->
  UF_MemoryManager._capacity m < 2 ^ 16 ->
  UF_MemoryManager._enrolledCount m = count_true a ->
  exists a', UF_MemoryManager._slotMap (snd (UF_MemoryManager.updateSlot id occupied m))
             = Some a'
             /\ UF_MemoryManager._enrolledCount
                  (snd (UF_MemoryManager.updateSlot id occupied m))
                = count_true a'.
Proof.
  intros Ha Hlen Hcap Hcount. unfold UF_MemoryManager.updateSlot.
  destruct (UF_MemoryManager._validateID m id) eqn:Hvalid; cbn [negb orb snd].
  2: { exists a. split; assumption. }
  rewrite Ha. rewrite bool_decide_eq_true_2 by (eexists; reflexivity).
  cbn [negb snd UF_MemoryManager._slotMap UF_MemoryManager._enrolledCount fmap option_fmap option_map].
  unfold UF_MemoryManager._validateID in Hvalid. apply andb_true_iff in Hvalid.
  assert (Hid : 1 <= id <= UF_MemoryManager._capacity m) by lia. clear Hvalid.
  eexists. split; [reflexivity|].
  assert (Hl : a !! Z.to_nat (id - 1) = Some (UF_MemoryManager.slot_at m (id - 1))).
  { unfold UF_MemoryManager.slot_at. rewrite Ha.
    destruct (a !! Z.to_nat (id - 1)) eqn:Hlk; [reflexivity|].
    apply lookup_ge_None in Hlk. lia. }
  rewrite (count_true_insert a _ _ occupied Hl).
  pose proof (count_true_bounds a) as Hb.
  pose proof (count_true_bounds (<[Z.to_nat (id - 1) := occupied]> a)) as Hb'.
  rewrite length_insert, (count_true_insert a _ _ occupied Hl) in Hb'.
  rewrite Hcount.
  destruct (UF_MemoryManager.slot_at m (id - 1)), occupied;
    cbn [andb negb Z.b2z] in *; unfold u16.
  - lia.
  - destruct (Z.ltb_spec 0 (count_true a)); [rewrite Z.mod_small by lia|]; lia.
  - rewrite Z.mod_small by lia. lia.
  - lia.
Qed.

(** * Further properties of the code *)

(** ** Counting entries *)

Lemma count_true_app (a b : list bool) :
  count_true (a ++ b) = count_true a + count_true b.
Proof.
  unfold count_true. rewrite List.filter_app, length_app. lia.
Qed.

Lemma count_true_replicate_false (n : nat) : count_true (replicate n false) = 0.
Proof. induction n as [|n IH]; [reflexivity|]. cbn [replicate]. rewrite count_true_cons, IH. reflexivity. Qed.

Lemma count_true_replicate_true (n : nat) : count_true (replicate n true) = Z.of_nat n.
Proof.
  induction n as [|n IH]; [reflexivity|]. cbn [replicate].
  rewrite count_true_cons, IH. cbn [Z.b2z]. lia.
Qed.

Lemma take_S_insert (a : list bool) (i : nat) (v : bool) :
  (i < length a)%nat -> take (S i) (<[i := v]> a) = take i a ++ [v].
Proof.
  intros Hi. rewrite (take_S_r _ i v).
  - rewrite take_insert_ge by lia. reflexivity.
  - apply list_lookup_insert_eq. exact Hi.
Qed.

(** The slots [isSlotOccupied] reports on a scanned cache are as many as
    the array has [true] entries. *)
Lemma filter_lookup_seqZ (a : list bool) :
  forall k : Z,
    length (List.filter (fun id => default false (a !! Z.to_nat (id - k)))
                        (seqZ k (Z.of_nat (length a))))
    = length (List.filter id a).
Proof.
  induction a as [|x a IH]; intros k.
  - reflexivity.
  - cbn [length]. rewrite seqZ_cons by lia.
    replace (Z.pred (Z.of_nat (S (length a)))) with (Z.of_nat (length a)) by lia.
    cbn [List.filter]. replace (k - k) with 0 by lia. cbn [Z.to_nat lookup list_lookup default].
    change ((x :: a) !! 0%nat) with (Some x). cbn [default].
    rewrite (List.filter_ext_in
               (fun id => default false ((x :: a) !! Z.to_nat (id - k)))
               (fun id => default false (a !! Z.to_nat (id - Z.succ k)))).
    + change ((x :: a) !! Z.to_nat 0) with (Some x). cbn [default]. unfold id at 1.
      destruct x; cbn [length]; rewrite IH; reflexivity.
    + intros j Hj. apply list_elem_of_In, elem_of_seqZ in Hj.
      replace (Z.to_nat (j - k)) with (S (Z.to_nat (j - Z.succ k))) by lia.
      reflexivity.
Qed.

Lemma occupied_ids_count (o : UniversalFingerprint) (a : list bool) :
  _databaseScanned o = true ->
  _slotOccupancy o = Some a ->
  Z.of_nat (length a) = _capacity o ->
  Z.of_nat (length (occupied_ids o)) = count_true a.
Proof.
  intros Hscan Ha Hlen. unfold occupied_ids, count_true. f_equal.
  rewrite <- (filter_lookup_seqZ a 1), Hlen.
  f_equal. apply List.filter_ext_in. intros j Hj.
  apply list_elem_of_In, elem_of_seqZ in Hj.
  unfold isSlotOccupied, slot_at. rewrite Hscan, Ha. cbn [negb orb].
  destruct (Z.ltb_spec j 1); [lia|]. destruct (Z.gtb_spec j (_capacity o)); [lia|].
  reflexivity.
Qed.

(** ** Scanning *)

Section Scanning.
Context {E : Type} `{!Platform E}.

Lemma count_true_take_le (a : list bool) (i : nat) :
  0 <= count_true (take i a) <= Z.of_nat i.
Proof.
  pose proof (count_true_bounds (take i a)) as H.
  rewrite length_take in H. lia.
Qed.

Lemma scanDatabase_loop_spec (n : nat) :
  forall (i count : Z) (o : UniversalFingerprint) (w : World E) (a : list bool),
    _slotOccupancy o = Some a ->
    0 <= i ->
    i + Z.of_nat n <= Z.of_nat (length a) ->
    i + Z.of_nat n < 2 ^ 16 ->
    count = count_true (take (Z.to_nat i) a) ->
    exists a',
      _slotOccupancy (fst (snd (scanDatabase_loop n i count (o, w)))) = Some a'
      /\ length a' = length a
      /\ fst (scanDatabase_loop n i count (o, w))
         = count_true (take (Z.to_nat (i + Z.of_nat n)) a')
      /\ trace (snd (snd (scanDatabase_loop n i count (o, w))))
         = trace w ++ (GetTemplateCount <$> seqZ (i + 1) (Z.of_nat n)).
Proof.
  induction n as [|n IH]; intros i count o w a Ha Hi Hlen Hfit Hcount;
    cbn [scanDatabase_loop]; run_monad.
  - exists a. rewrite Z.add_0_r, app_nil_r. repeat split; assumption.
  - assert (Hid : u16 (i + 1) = i + 1) by (unfold u16; apply Z.mod_small; lia).
    rewrite Hid.
    destruct (respond (env w) (GetTemplateCount (i + 1))) as [r e']. run_monad.
    pose proof (count_true_take_le a (Z.to_nat i)) as Hle.
    assert (Hstep : forall v : bool,
               count + Z.b2z v
               = count_true (take (Z.to_nat (i + 1)) (<[Z.to_nat i := v]> a))).
    { intros v. replace (Z.to_nat (i + 1)) with (S (Z.to_nat i)) by lia.
      rewrite take_S_insert by lia. rewrite count_true_app, Hcount.
      rewrite count_true_cons. change (count_true []) with 0. lia. }
    rewrite seqZ_cons by lia. cbn [fmap list_fmap].
    replace (Z.pred (Z.of_nat (S n))) with (Z.of_nat n) by lia.
    replace (Z.succ (i + 1)) with (i + 1 + 1) by lia.
    replace (i + Z.of_nat (S n)) with (i + 1 + Z.of_nat n) by lia.
    destruct (u8 r =? FINGERPRINT_OK codes); run_monad.
    + destruct (IH (i + 1) (u16 (count + 1)) (slot_set i true o)
                  {| env := e'; trace := trace w ++ [GetTemplateCount (i + 1)] |}
                  (<[Z.to_nat i := true]> a))
        as (a' & Ha' & Hl' & Hc' & Ht').
      * unfold slot_set. cbn. rewrite Ha. reflexivity.
      * lia.
      * rewrite length_insert. lia.
      * lia.
      * unfold u16. rewrite Z.mod_small by lia. apply (Hstep true).
      * exists a'. rewrite length_insert in Hl'. cbn [trace] in Ht'.
        rewrite <- app_assoc in Ht'. repeat split; assumption.
    + destruct (IH (i + 1) count (slot_set i false o)
                  {| env := e'; trace := trace w ++ [GetTemplateCount (i + 1)] |}
                  (<[Z.to_nat i := false]> a))
        as (a' & Ha' & Hl' & Hc' & Ht').
      * unfold slot_set. cbn. rewrite Ha. reflexivity.
      * lia.
      * rewrite length_insert. lia.
      * lia.
      * rewrite <- (Hstep false). cbn. lia.
      * exists a'. rewrite length_insert in Hl'. cbn [trace] in Ht'.
        rewrite <- app_assoc in Ht'. repeat split; assumption.
Qed.

Lemma scanDatabase_spec (o : UniversalFingerprint) (w : World E) :
  Inv o ->
  _initialized o = true ->
  exists a',
    _slotOccupancy (fst (snd (scanDatabase (o, w)))) = Some a'
    /\ Z.of_nat (length a') = _capacity o
    /\ _capacity (fst (snd (scanDatabase (o, w)))) = _capacity o
    /\ _databaseScanned (fst (snd (scanDatabase (o, w)))) = true
    /\ _enrolledCount (fst (snd (scanDatabase (o, w)))) = count_true a'
    /\ fst (scanDatabase (o, w)) = count_true a'
    /\ Z.of_nat (length (occupied_ids (fst (snd (scanDatabase (o, w)))))) = count_true a'
    /\ trace (snd (snd (scanDatabase (o, w))))
       = trace w ++ (GetTemplateCount <$> seqZ 1 (_capacity o)).
Proof.
  intros HInv Hinit.
  destruct (inv_array o HInv Hinit) as (a & Ha & Hlen).
  pose proof (inv_capacity o HInv) as Hcap.
  destruct (scanDatabase_loop_spec (Z.to_nat (_capacity o)) 0 0 o w a Ha)
    as (a' & Ha' & Hl' & Hc' & Ht'); [lia|lia|lia|reflexivity|].
  pose proof (scanDatabase_loop_frame (Z.to_nat (_capacity o)) 0 0 o w) as (_ & Hcap' & _).
  unfold scanDatabase. run_monad. rewrite Hinit, Ha.
  rewrite bool_decide_eq_true_2 by (eexists; reflexivity). run_monad.
  destruct (scanDatabase_loop (Z.to_nat (_capacity o)) 0 0 (o, w)) as [count [o1 w1]].
  cbn [fst snd] in *.
  rewrite Z2Nat.id in Hc', Ht' by lia.
  replace (Z.to_nat (0 + _capacity o)) with (length a') in Hc' by lia.
  rewrite firstn_all in Hc'. cbn [Z.add] in Ht'.
  pose proof (count_true_bounds a') as Hb.
  assert (Hs16 : s16 count = count).
  { unfold s16, u16. rewrite Z.mod_small by lia.
    destruct (Z.ltb_spec count (2 ^ 15)); lia. }
  exists a'. cbn.
  split; [exact Ha'|]. split; [lia|]. split; [exact Hcap'|]. split; [reflexivity|].
  split; [exact Hc'|]. split; [lia|]. split; [|exact Ht'].
  rewrite Hc'. apply occupied_ids_count; cbn; [reflexivity|exact Ha'|lia].
Qed.

(** X1: on an initialised object [scanDatabase] queries the slots
    [1 .. _capacity] once each, in order; it marks the cache scanned, and
    the count it stores and returns is the number of [true] entries it
    leaves in the array, which is also the number of ids [isSlotOccupied]
    then reports. *)
Theorem scanDatabase_counts_entries (o : UniversalFingerprint) (w : World E) :
  Inv o ->
  _initialized o = true ->
  exists a',
    _slotOccupancy (fst (snd (scanDatabase (o, w)))) = Some a'
    /\ Z.of_nat (length a') = _capacity o
    /\ _capacity (fst (snd (scanDatabase (o, w)))) = _capacity o
    /\ _databaseScanned (fst (snd (scanDatabase (o, w)))) = true
    /\ _enrolledCount (fst (snd (scanDatabase (o, w)))) = count_true a'
    /\ fst (scanDatabase (o, w)) = count_true a'
    /\ Z.of_nat (length (occupied_ids (fst (snd (scanDatabase (o, w)))))) = count_true a'
    /\ trace (snd (snd (scanDatabase (o, w))))
       = trace w ++ (GetTemplateCount <$> seqZ 1 (_capacity o)).
Proof. exact (scanDatabase_spec o w). Qed.

End Scanning.

(** ** What [begin()] settles *)

Section BeginDetails.
Context {E : Type} `{!Platform E}.

(** [begin_allocate] is a scan on a prepared object, followed by setting
    [_initialized]. The prepared object has a sensor type of the table, that
    type's capacity, and a fresh array of that many empty entries. *)
Lemma begin_allocate_prepared (o : UniversalFingerprint) (w : World E) :
  exists o3,
    begin_allocate (o, w)
    = (true, (set_initialized true (fst (snd (scanDatabase (o3, w)))),
              snd (snd (scanDatabase (o3, w)))))
    /\ _initialized o3 = _initialized o
    /\ _enrolledCount o3 = _enrolledCount o
    /\ _databaseScanned o3 = _databaseScanned o
    /\ _slotOccupancy o3 = Some (replicate (Z.to_nat (_capacity o3)) false)
    /\ 1 <= _capacity o3 <= 1000
    /\ _sensorType o3 <> UF_SENSOR_AUTO
    /\ capacity <$> SENSOR_DB_lookup (_sensorType o3) = Some (_capacity o3)
    /\ (_sensorType o <> UF_SENSOR_AUTO -> _sensorType o3 = _sensorType o).
Proof.
  unfold begin_allocate. run_monad.
  destruct (SENSOR_DB_lookup_capacity (_sensorType o)) as (info & Hlook & Hcap & Hnz).
  rewrite Hlook. run_monad.
  set (o1 := set_capacity (capacity info) o).
  set (o2 := if _capacity o1 =? 0
             then set_capacity 162 (set_sensorType UF_SENSOR_AS608 o1) else o1).
  assert (Hrun : forall (k : Method E UniversalFingerprint bool),
             (let (_, s') :=
                (if _capacity o1 =? 0
                 then fun s => let (_, s') := (tt, (set_sensorType UF_SENSOR_AS608 (fst s), snd s)) in
                               (tt, (set_capacity 162 (fst s'), snd s'))
                 else fun s => (tt, s)) (o1, w) in k s') = k (o2, w)).
  { intros k. subst o2. destruct (_capacity o1 =? 0); reflexivity. }
  rewrite Hrun. clear Hrun. run_monad.
  set (o3 := set_slotOccupancy (Some (replicate (Z.to_nat (_capacity o2)) false))
               (set_memoryManager (Some (UF_MemoryManager.new (Some tt) (_capacity o2))) o2)).
  change (_capacity (set_memoryManager (Some (UF_MemoryManager.new (Some tt) (_capacity o2))) o2))
    with (_capacity o2).
  fold o3.
  exists o3. split.
  { destruct (scanDatabase (o3, w)) as [r [o4 w4]]. reflexivity. }
  subst o3 o2 o1. cbn [_capacity set_capacity _sensorType set_sensorType].
  destruct (Z.eqb_spec (capacity info) 0) as [Hz|Hz];
    cbn [_capacity _sensorType _initialized _enrolledCount _databaseScanned
         _slotOccupancy set_capacity set_sensorType set_slotOccupancy
         set_memoryManager].
  - repeat split; try lia; try discriminate.
    intros Ht. exfalso. exact (Hnz Ht Hz).
  - repeat split; try lia.
    + intros Ht. rewrite Ht in Hlook. cbn in Hlook. injection Hlook as <-.
      apply Hz. reflexivity.
    + rewrite Hlook. reflexivity.
Qed.

(** A successful [begin()] is [begin_allocate] on an object that differs
    from the original at most in its sensor type, which is then not
    [UF_SENSOR_AUTO], and its detector. *)
Lemma begin_cases (password baudRate : Z) (o : UniversalFingerprint) (w : World E) :
  (fst (begin password baudRate (o, w)) = false
   /\ fst (snd (begin password baudRate (o, w))) = o)
  \/ exists o5 w5,
       begin password baudRate (o, w) = begin_allocate (o5, w5)
       /\ _initialized o5 = _initialized o
       /\ _enrolledCount o5 = _enrolledCount o
       /\ _databaseScanned o5 = _databaseScanned o
       /\ _sensorType o5 <> UF_SENSOR_AUTO
       /\ (_sensorType o <> UF_SENSOR_AUTO -> _sensorType o5 = _sensorType o).
Proof.
  rewrite begin_unfold. run_monad.
  destruct (respond (env w) (SerialBegin (_useSoftwareSerial o) baudRate)) as [r1 e1].
  run_monad.
  destruct (respond e1 (Delay 100)) as [r2 e2]. run_monad.
  destruct (respond e2 (FingerBegin baudRate)) as [r3 e3]. run_monad.
  destruct (r3 =? 0); [left; split; reflexivity|]. run_monad.
  destruct (respond e3 VerifyPassword) as [r4 e4]. run_monad.
  destruct (u8 r4 =? FINGERPRINT_OK codes); run_monad; [|left; split; reflexivity].
  right.
  destruct (bool_decide (_sensorType o = UF_SENSOR_AUTO)) eqn:Hauto; run_monad.
  - apply bool_decide_eq_true in Hauto.
    match goal with
    | |- context [UF_SensorDetector.detect ?s] =>
        destruct (UF_SensorDetector.detect s) as [detected [detector w5]]
    end.
    run_monad.
    destruct (bool_decide (detected = UF_SENSOR_AUTO)) eqn:Hdet; run_monad.
    + eexists _, _. split; [reflexivity|]. cbn.
      repeat split; try discriminate. intros Hne. contradiction.
    + apply bool_decide_eq_false in Hdet.
      eexists _, _. split; [reflexivity|]. cbn.
      repeat split; try assumption. intros Hne. contradiction.
  - apply bool_decide_eq_false in Hauto.
    eexists _, _. split; [reflexivity|]. repeat split; try assumption.
Qed.

End BeginDetails.

Section BeginProfile.
Context {E : Type} `{!Platform E}.

Lemma set_slotOccupancy_eta (o : UniversalFingerprint) :
  set_slotOccupancy (_slotOccupancy o) o = o.
Proof. destruct o. reflexivity. Qed.

(** The scan loop writes to the array and to nothing else. *)
Lemma scanDatabase_loop_only_array (n : nat) :
  forall (i count : Z) (o : UniversalFingerprint) (w : World E),
    fst (snd (scanDatabase_loop n i count (o, w)))
    = set_slotOccupancy
        (_slotOccupancy (fst (snd (scanDatabase_loop n i count (o, w))))) o.
Proof.
  induction n as [|n IH]; intros i count o w; cbn [scanDatabase_loop]; run_monad.
  - symmetry. apply set_slotOccupancy_eta.
  - destruct (respond (env w) (GetTemplateCount (u16 (i + 1)))) as [r e']. run_monad.
    destruct (u8 r =? FINGERPRINT_OK codes); run_monad;
      rewrite IH at 1; reflexivity.
Qed.

Lemma scanDatabase_shape (o : UniversalFingerprint) (w : World E) :
  fst (snd (scanDatabase (o, w))) = o
  \/ exists count array,
       fst (snd (scanDatabase (o, w)))
       = set_databaseScanned true (set_enrolledCount count (set_slotOccupancy array o)).
Proof.
  unfold scanDatabase. run_monad.
  destruct (negb (_initialized o) || negb (bool_decide (is_Some (_slotOccupancy o))));
    run_monad; [left; reflexivity|].
  right.
  pose proof (scanDatabase_loop_only_array (Z.to_nat (_capacity o)) 0 0 o w) as Hshape.
  destruct (scanDatabase_loop (Z.to_nat (_capacity o)) 0 0 (o, w)) as [count [o1 w1]].
  cbn [fst snd] in *. exists count, (_slotOccupancy o1). rewrite Hshape at 1.
  reflexivity.
Qed.

(** X2: when [begin()] returns [true] the object is initialised, its
    sensor type is one of the five families (an explicitly configured type
    is kept), its capacity is that family's capacity in [SENSOR_DB], so
    [getSensorInfo] succeeds with that capacity, and [getSensorModel]
    gives the name [sensorTypeToString] gives. *)
Theorem begin_settles_profile
  (password baudRate : Z) (o : UniversalFingerprint) (w : World E) :
  fst (begin password baudRate (o, w)) = true ->
  _initialized (fst (snd (begin password baudRate (o, w)))) = true
  /\ _sensorType (fst (snd (begin password baudRate (o, w)))) <> UF_SENSOR_AUTO
  /\ (_sensorType o <> UF_SENSOR_AUTO ->
      _sensorType (fst (snd (begin password baudRate (o, w)))) = _sensorType o)
  /\ capacity <$> getSensorInfo (fst (snd (begin password baudRate (o, w))))
     = Some (_capacity (fst (snd (begin password baudRate (o, w)))))
  /\ 1 <= _capacity (fst (snd (begin password baudRate (o, w)))) <= 1000
  /\ getSensorModel (fst (snd (begin password baudRate (o, w))))
     = sensorTypeToString (_sensorType (fst (snd (begin password baudRate (o, w))))).
Proof.
  intros Hok.
  destruct (begin_cases password baudRate o w)
    as [[Hfalse _]|(o5 & w5 & Heq & _ & _ & _ & Hne5 & Hkeep5)].
  { rewrite Hfalse in Hok. discriminate. }
  destruct (begin_allocate_prepared o5 w5)
    as (o3 & Heq3 & _ & _ & _ & _ & Hcap3 & Hne3 & Hlook3 & Hkeep3).
  rewrite Heq, Heq3. cbn [fst snd].
  assert (Hfields : _sensorType (fst (snd (scanDatabase (o3, w5)))) = _sensorType o3
                    /\ _capacity (fst (snd (scanDatabase (o3, w5)))) = _capacity o3).
  { destruct (scanDatabase_shape o3 w5) as [->|(c & arr & ->)]; split; reflexivity. }
  destruct Hfields as [Ht Hc].
  unfold getSensorInfo, getSensorModel.
  cbn [_initialized _sensorType _capacity set_initialized].
  rewrite Ht, Hc.
  split; [reflexivity|]. split; [exact Hne3|]. split.
  { intros Hne. rewrite (Hkeep3 Hne5). apply Hkeep5. exact Hne. }
  split; [exact Hlook3|]. split; [exact Hcap3|].
  destruct (_sensorType o3); try reflexivity. contradiction.
Qed.

End BeginProfile.

Lemma begin_settles_profile_witness :
  capacity <$> getSensorInfo (fst after_begin_AS608)
  = Some (_capacity (fst after_begin_AS608)).
Proof.
  exact (proj1 (proj2 (proj2 (proj2
           (begin_settles_profile 0 57600
              (UniversalFingerprint_new false UF_SENSOR_AS608)
              (fresh_world (accepting 162)) eq_refl))))).
Defined.

(** ** The exact effect of enroll and delete *)

Section Effects.
Context {E : Type} `{!Platform E}.

Lemma updateSlotOccupancy_eq (id : Z) (v : bool) (o : UniversalFingerprint) (a : list bool) :
  _slotOccupancy o = Some a ->
  1 <= id <= _capacity o ->
  _updateSlotOccupancy id v o = set_databaseScanned true (slot_set (id - 1) v o).
Proof.
  intros Ha Hid. unfold _updateSlotOccupancy. rewrite Ha.
  rewrite bool_decide_eq_true_2 by (eexists; reflexivity).
  replace (1 <=? id) with true by (symmetry; apply Z.leb_le; lia).
  replace (id <=? _capacity o) with true by (symmetry; apply Z.leb_le; lia).
  reflexivity.
Qed.

Lemma enroll_at_result (fuel : nat) (id : Z) (o o' : UniversalFingerprint)
  (w w' : World E) (r : UF_ErrorCode) :
  enroll_at fuel id (o, w) = Some (r, (o', w')) ->
  (r <> UF_OK /\ o' = o)
  \/ (r = UF_OK
      /\ 1 <= id <= _capacity o
      /\ _databaseScanned o && slot_at o (id - 1) = false
      /\ o' = set_enrolledCount
                (u16 (_enrolledCount (_updateSlotOccupancy id true o) + 1))
                (_updateSlotOccupancy id true o)).
Proof.
  unfold enroll_at. cbn [fst].
  destruct (_validateID o id) eqn:Hvalid; cbn [negb];
    [|intros [= <- <- _]; left; split; [discriminate|reflexivity]].
  assert (Hid : 1 <= id <= _capacity o).
  { unfold _validateID in Hvalid. apply andb_true_iff in Hvalid. lia. }
  destruct (_databaseScanned o && slot_at o (id - 1)) eqn:Hguard;
    [intros [= <- <- _]; left; split; [discriminate|reflexivity]|].
  destruct (_enrollInternal fuel id (o, w)) as [[r1 [o1 w1]]|] eqn:Hint;
    [|discriminate].
  destruct (enrollInternal_talks _ _ _ _ _ Hint) as [l [Ho _]]. cbn in Ho. subst o1.
  destruct (bool_decide (r1 = UF_OK)) eqn:Hok; intros [= <- <- _].
  - apply bool_decide_eq_true in Hok. right. run_monad.
    repeat split; try assumption; lia.
  - apply bool_decide_eq_false in Hok. left. split; [exact Hok|reflexivity].
Qed.

Lemma enroll_result (fuel : nat) (id numScans : Z) (o o' : UniversalFingerprint)
  (w w' : World E) (r : UF_ErrorCode) :
  enroll fuel id numScans (o, w) = Some (r, (o', w')) ->
  (r <> UF_OK /\ o' = o)
  \/ (r = UF_OK
      /\ _initialized o = true
      /\ (id = 0 -> findEmptySlot o 1 <> 0)
      /\ let slot := if id =? 0 then findEmptySlot o 1 else id in
         1 <= slot <= _capacity o
         /\ _databaseScanned o && slot_at o (slot - 1) = false
         /\ o' = set_enrolledCount
                   (u16 (_enrolledCount (_updateSlotOccupancy slot true o) + 1))
                   (_updateSlotOccupancy slot true o)).
Proof.
  unfold enroll. cbn [fst].
  destruct (_initialized o); cbn [negb];
    [|intros [= <- <- _]; left; split; [discriminate|reflexivity]].
  destruct (Z.eqb_spec id 0) as [->|Hid].
  - destruct (Z.eqb_spec (findEmptySlot o 1) 0) as [Hz|Hnz];
      [intros [= <- <- _]; left; split; [discriminate|reflexivity]|].
    intros Hat. destruct (enroll_at_result _ _ _ _ _ _ _ Hat) as [?|(? & ? & ? & ?)];
      [left; assumption|right]. repeat split; try assumption; lia.
  - intros Hat. destruct (enroll_at_result _ _ _ _ _ _ _ Hat) as [?|(? & ? & ? & ?)];
      [left; assumption|right]. repeat split; try assumption; lia.
Qed.

Lemma deleteTemplate_result (id : Z) (o : UniversalFingerprint) (w : World E) :
  (fst (deleteTemplate id (o, w)) <> UF_OK
   /\ fst (snd (deleteTemplate id (o, w))) = o)
  \/ (fst (deleteTemplate id (o, w)) = UF_OK
      /\ _initialized o = true
      /\ 1 <= id <= _capacity o
      /\ fst (snd (deleteTemplate id (o, w)))
         = (if 0 <? _enrolledCount (_updateSlotOccupancy id false o)
            then set_enrolledCount
                   (u16 (_enrolledCount (_updateSlotOccupancy id false o) - 1))
                   (_updateSlotOccupancy id false o)
            else _updateSlotOccupancy id false o)
      /\ trace (snd (snd (deleteTemplate id (o, w)))) = trace w ++ [DeleteModel id]).
Proof.
  unfold deleteTemplate. run_monad.
  destruct (_initialized o); run_monad; [|left; split; [discriminate|reflexivity]].
  destruct (_validateID o id) eqn:Hvalid; run_monad;
    [|left; split; [discriminate|reflexivity]].
  assert (Hid : 1 <= id <= _capacity o).
  { unfold _validateID in Hvalid. apply andb_true_iff in Hvalid. lia. }
  destruct (respond (env w) (DeleteModel id)) as [r e']. run_monad.
  destruct (Z.eqb_spec (u8 r) (FINGERPRINT_OK codes)) as [Hok|Hne]; run_monad.
  - right. repeat split; try assumption; lia.
  - left. split; [|reflexivity]. intros Hconv. apply convert_OK_inv in Hconv.
    contradiction.
Qed.

End Effects.

(** ** The count never exceeds the entries *)

Section CountedKept.
Context {E : Type} `{!Platform E}.

Lemma Counted_new (software : bool) (t : UF_SensorType) :
  Counted (UniversalFingerprint_new software t).
Proof.
  split.
  - apply Inv_new.
  - intros _. destruct t; reflexivity.
  - intros a Hinit. destruct t; discriminate Hinit.
  - intros a Hinit. destruct t; discriminate Hinit.
Qed.

Lemma scanDatabase_uninitialized (o : UniversalFingerprint) (w : World E) :
  _initialized o = false -> scanDatabase (o, w) = (-1, (o, w)).
Proof. intros Hinit. unfold scanDatabase. run_monad. rewrite Hinit. reflexivity. Qed.

Lemma scanDatabase_initialized (o : UniversalFingerprint) (w : World E) :
  _initialized (fst (snd (scanDatabase (o, w)))) = _initialized o.
Proof. destruct (scanDatabase_shape o w) as [->|(c & arr & ->)]; reflexivity. Qed.

Lemma Counted_scanDatabase (o : UniversalFingerprint) (w : World E) :
  Counted o -> Counted (fst (snd (scanDatabase (o, w)))).
Proof.
  intros HC. destruct (_initialized o) eqn:Hinit.
  - destruct (scanDatabase_spec o w (counted_Inv o HC) Hinit)
      as (a' & Ha' & _ & _ & Hscan & Hcount & _).
    split.
    + apply Inv_scanDatabase. exact (counted_Inv o HC).
    + rewrite scanDatabase_initialized, Hinit. discriminate.
    + intros a _ Ha. rewrite Ha' in Ha. injection Ha as <-. rewrite Hcount.
      pose proof (count_true_bounds a'). lia.
    + intros a _ _ Hun. rewrite Hscan in Hun. discriminate.
  - rewrite (scanDatabase_uninitialized o w Hinit). exact HC.
Qed.

Lemma Counted_getDatabaseStats (o : UniversalFingerprint) (w : World E) :
  Counted o -> Counted (fst (snd (getDatabaseStats (o, w)))).
Proof.
  intros HC. unfold getDatabaseStats. run_monad.
  destruct (_databaseScanned o); run_monad; [exact HC|].
  pose proof (Counted_scanDatabase o w HC) as Hscan.
  destruct (scanDatabase (o, w)) as [r [o' w']]. exact Hscan.
Qed.

(** On a counted object the entry a successful enroll is about to set is
    [false]. *)
Lemma Counted_enroll_entry (o : UniversalFingerprint) (a : list bool) (slot : Z) :
  Counted o -> _initialized o = true -> _slotOccupancy o = Some a ->
  Z.of_nat (length a) = _capacity o ->
  1 <= slot <= _capacity o ->
  _databaseScanned o && slot_at o (slot - 1) = false ->
  a !! Z.to_nat (slot - 1) = Some false.
Proof.
  intros HC Hinit Ha Hlen Hslot Hguard.
  rewrite (slot_at_lookup o a (slot - 1) Ha) by lia. f_equal.
  destruct (_databaseScanned o) eqn:Hscan; [exact Hguard|].
  destruct (counted_unscanned o HC a Hinit Ha Hscan) as [_ Hall].
  unfold slot_at. rewrite Ha, Hall. rewrite lookup_replicate_2 by lia. reflexivity.
Qed.

Lemma Counted_enroll (fuel : nat) (id numScans : Z) (o o' : UniversalFingerprint)
  (w w' : World E) (r : UF_ErrorCode) :
  Counted o -> enroll fuel id numScans (o, w) = Some (r, (o', w')) -> Counted o'.
Proof.
  intros HC Hrun.
  pose proof (Inv_enroll _ _ _ _ _ _ _ _ (counted_Inv o HC) Hrun) as HInv'.
  destruct (enroll_result _ _ _ _ _ _ _ _ Hrun)
    as [[_ ->]|(_ & Hinit & _ & Hslot & Hguard & ->)]; [exact HC|].
  set (slot := if id =? 0 then findEmptySlot o 1 else id) in *.
  destruct (inv_array o (counted_Inv o HC) Hinit) as (a & Ha & Hlen).
  pose proof (Counted_enroll_entry o a slot HC Hinit Ha Hlen Hslot Hguard) as Hentry.
  pose proof (counted_le o HC a Hinit Ha) as Hle.
  pose proof (inv_capacity o (counted_Inv o HC)) as Hcap.
  pose proof (count_true_insert a _ _ true Hentry) as Hct.
  pose proof (count_true_bounds (<[Z.to_nat (slot - 1) := true]> a)) as Hb.
  rewrite length_insert in Hb.
  rewrite (updateSlotOccupancy_eq slot true o a Ha Hslot) in *.
  split.
  - exact HInv'.
  - cbn. rewrite Hinit. discriminate.
  - intros a0 _. cbn. rewrite Ha. cbn. intros [= <-].
    pose proof (count_true_bounds a) as Hba. cbn [Z.b2z] in Hct.
    unfold u16. rewrite Z.mod_small by lia. lia.
  - intros a0 _ _. cbn. discriminate.
Qed.

Lemma Counted_deleteTemplate (id : Z) (o : UniversalFingerprint) (w : World E) :
  Counted o -> Counted (fst (snd (deleteTemplate id (o, w)))).
Proof.
  intros HC.
  pose proof (Inv_deleteTemplate id o w (counted_Inv o HC)) as HInv'.
  destruct (deleteTemplate_result id o w)
    as [[_ Heq]|(_ & Hinit & Hid & Heq & _)]; rewrite Heq in *; [exact HC|].
  destruct (inv_array o (counted_Inv o HC) Hinit) as (a & Ha & Hlen).
  pose proof (counted_le o HC a Hinit Ha) as Hle.
  pose proof (inv_capacity o (counted_Inv o HC)) as Hcap.
  assert (Hentry : a !! Z.to_nat (id - 1) = Some (slot_at o (id - 1))).
  { apply slot_at_lookup; [exact Ha|lia]. }
  pose proof (count_true_insert a _ _ false Hentry) as Hct.
  pose proof (count_true_bounds (<[Z.to_nat (id - 1) := false]> a)) as Hb.
  rewrite (updateSlotOccupancy_eq id false o a Ha Hid) in *.
  cbn [_enrolledCount set_databaseScanned slot_set set_slotOccupancy] in *.
  destruct (Z.ltb_spec 0 (_enrolledCount o)) as [Hpos|Hzero].
  - split.
    + exact HInv'.
    + cbn. rewrite Hinit. discriminate.
    + intros a0 _. cbn. rewrite Ha. cbn. intros [= <-].
      pose proof (count_true_bounds a) as Hba.
      unfold u16. rewrite Z.mod_small by lia.
      destruct (slot_at o (id - 1)); cbn [Z.b2z] in Hct; lia.
    + intros a0 _ _. cbn. discriminate.
  - split.
    + exact HInv'.
    + cbn. rewrite Hinit. discriminate.
    + intros a0 _. cbn. rewrite Ha. cbn. intros [= <-]. lia.
    + intros a0 _ _. cbn. discriminate.
Qed.

Lemma clearDatabase_shape (o : UniversalFingerprint) (w : World E) :
  fst (snd (clearDatabase (o, w)))
  = if _initialized o
    then set_databaseScanned false
           (set_enrolledCount 0
              (set_slotOccupancy
                 ((fun a => memset0 a (_capacity o)) <$> _slotOccupancy o) o))
    else o.
Proof.
  unfold clearDatabase. run_monad.
  destruct (_initialized o); run_monad; [|reflexivity].
  pose proof (clearDatabase_loop_obj (Z.to_nat (_capacity o)) 1 true o w) as Hobj.
  destruct (clearDatabase_loop (Z.to_nat (_capacity o)) 1 true (o, w)) as [b [o1 w1]].
  cbn [fst snd] in *. subst o1. reflexivity.
Qed.

Lemma Counted_clearDatabase (o : UniversalFingerprint) (w : World E) :
  Counted o -> Counted (fst (snd (clearDatabase (o, w)))).
Proof.
  intros HC.
  pose proof (Inv_clearDatabase o w (counted_Inv o HC)) as HInv'.
  rewrite clearDatabase_shape in *.
  destruct (_initialized o) eqn:Hinit; [|exact HC].
  destruct (inv_array o (counted_Inv o HC) Hinit) as (a & Ha & Hlen).
  split.
  - exact HInv'.
  - cbn. rewrite Hinit. discriminate.
  - intros a0 _. cbn. rewrite Ha. cbn. intros [= <-].
    pose proof (count_true_bounds (memset0 a (_capacity o))). lia.
  - intros a0 _. cbn. rewrite Ha. cbn. intros [= <-] _. split; [reflexivity|].
    rewrite (memset0_all a _ Hlen), length_replicate. reflexivity.
Qed.

Lemma Counted_begin (password baudRate : Z) (o : UniversalFingerprint) (w : World E) :
  Counted o -> Counted (fst (snd (begin password baudRate (o, w)))).
Proof.
  intros HC.
  pose proof (Inv_begin password baudRate o w (counted_Inv o HC)) as HInv'.
  destruct (begin_cases password baudRate o w)
    as [[_ Heq]|(o5 & w5 & Heq & Hi5 & Hc5 & Hs5 & _)].
  { rewrite Heq. exact HC. }
  destruct (begin_allocate_prepared o5 w5)
    as (o3 & Heq3 & Hi3 & Hc3 & Hs3 & Ha3 & Hcap3 & _).
  rewrite Heq, Heq3 in *. cbn [fst snd] in *.
  destruct (_initialized o) eqn:Hinit.
  - assert (HInv3 : Inv o3).
    { split.
      - intros _. congruence.
      - intros _. eexists. split; [exact Ha3|]. rewrite length_replicate. lia.
      - lia. }
    destruct (scanDatabase_spec o3 w5 HInv3 ltac:(congruence))
      as (a' & Ha' & _ & _ & Hscan & Hcount & _).
    split.
    + exact HInv'.
    + cbn [_slotOccupancy _enrolledCount _databaseScanned _initialized set_initialized]. discriminate.
    + intros a0 _. cbn [_slotOccupancy _enrolledCount _databaseScanned _initialized set_initialized]. rewrite Ha'. intros [= <-]. rewrite Hcount.
      pose proof (count_true_bounds a'). lia.
    + intros a0 _ _. cbn [_slotOccupancy _enrolledCount _databaseScanned _initialized set_initialized]. rewrite Hscan. discriminate.
  - rewrite (scanDatabase_uninitialized o3 w5) by congruence. cbn [fst snd].
    assert (Hzero : _enrolledCount o3 = 0).
    { rewrite Hc3, Hc5. apply (counted_fresh o HC Hinit). }
    split.
    + rewrite (scanDatabase_uninitialized o3 w5) in HInv' by congruence. exact HInv'.
    + cbn [_slotOccupancy _enrolledCount _databaseScanned _initialized set_initialized]. discriminate.
    + intros a0 _. cbn [_slotOccupancy _enrolledCount _databaseScanned _initialized set_initialized]. rewrite Ha3. intros [= <-]. rewrite Hzero.
      rewrite count_true_replicate_false. lia.
    + intros a0 _. cbn [_slotOccupancy _enrolledCount _databaseScanned _initialized set_initialized]. rewrite Ha3. intros [= <-] _. split; [exact Hzero|].
      rewrite length_replicate. reflexivity.
Qed.

Lemma reachable_Counted (s : State E) : reachable s -> Counted (fst s).
Proof.
  induction 1 as [software t w|op s s' _ IH Hrun|o w w' _ IH].
  - apply Counted_new.
  - destruct s as [o w]. cbn [fst] in IH.
    destruct op; cbn [run_op] in Hrun.
    + injection Hrun as <-. apply Counted_begin. exact IH.
    + injection Hrun as <-. apply Counted_scanDatabase. exact IH.
    + injection Hrun as <-. apply Counted_getDatabaseStats. exact IH.
    + destruct (enroll fuel id numScans (o, w)) as [[r [o' w']]|] eqn:Hen;
        [|discriminate].
      injection Hrun as <-. exact (Counted_enroll _ _ _ _ _ _ _ _ IH Hen).
    + injection Hrun as <-. apply Counted_deleteTemplate. exact IH.
    + injection Hrun as <-. apply Counted_clearDatabase. exact IH.
  - exact IH.
Qed.

End CountedKept.

(** ** Statistics and queries in reachable states *)

Section ReachableQueries.
Context {E : Type} `{!Platform E}.

Lemma occupied_ids_unscanned (o : UniversalFingerprint) :
  _databaseScanned o = false -> occupied_ids o = [].
Proof.
  intros Hun. unfold occupied_ids.
  induction (seqZ 1 (_capacity o)) as [|x l IH]; [reflexivity|].
  cbn [List.filter]. unfold isSlotOccupied at 1. rewrite Hun. exact IH.
Qed.

Lemma getDatabaseStats_state (o : UniversalFingerprint) (w : World E) :
  snd (getDatabaseStats (o, w))
  = (if _databaseScanned o then (o, w) else snd (scanDatabase (o, w)))
  /\ totalSlots (snd (fst (getDatabaseStats (o, w))))
     = _capacity (fst (snd (getDatabaseStats (o, w))))
  /\ occupiedSlots (snd (fst (getDatabaseStats (o, w))))
     = _enrolledCount (fst (snd (getDatabaseStats (o, w))))
  /\ freeSlots (snd (fst (getDatabaseStats (o, w))))
     = u16 (_capacity (fst (snd (getDatabaseStats (o, w))))
            - _enrolledCount (fst (snd (getDatabaseStats (o, w))))).
Proof.
  unfold getDatabaseStats. run_monad.
  destruct (_databaseScanned o); run_monad.
  - repeat split.
  - destruct (scanDatabase (o, w)) as [r [o' w']]. repeat split.
Qed.

(** X3: in every state the program can reach, [getDatabaseStats] reports
    the object's capacity as total, an occupied count that is never above
    the number of slots [isSlotOccupied] reports, which is never above the
    total, and a free count that is total minus occupied without wrapping
    around. *)
Theorem getDatabaseStats_never_overcounts (o : UniversalFingerprint) (w : World E) :
  reachable (o, w) ->
  totalSlots (snd (fst (getDatabaseStats (o, w)))) = _capacity o
  /\ 0 <= occupiedSlots (snd (fst (getDatabaseStats (o, w))))
  /\ occupiedSlots (snd (fst (getDatabaseStats (o, w))))
     <= Z.of_nat (length (occupied_ids (fst (snd (getDatabaseStats (o, w))))))
  /\ Z.of_nat (length (occupied_ids (fst (snd (getDatabaseStats (o, w))))))
     <= totalSlots (snd (fst (getDatabaseStats (o, w))))
  /\ freeSlots (snd (fst (getDatabaseStats (o, w))))
     = totalSlots (snd (fst (getDatabaseStats (o, w))))
       - occupiedSlots (snd (fst (getDatabaseStats (o, w)))).
Proof.
  intros Hreach.
  pose proof (reachable_Counted (o, w) Hreach) as HC. cbn [fst] in HC.
  pose proof (Counted_getDatabaseStats o w HC) as HC'.
  destruct (getDatabaseStats_state o w) as (Hstate & -> & -> & ->).
  set (o' := fst (snd (getDatabaseStats (o, w)))) in *.
  pose proof (inv_capacity o' (counted_Inv o' HC')) as Hcap'.
  assert (Hsame : _capacity o' = _capacity o /\ _initialized o' = _initialized o
                  /\ (_initialized o = true -> _databaseScanned o' = true)).
  { subst o'. rewrite Hstate. destruct (_databaseScanned o) eqn:Hscan; cbn [fst].
    - repeat split. intros _. exact Hscan.
    - split; [|split].
      + destruct (scanDatabase_shape o w) as [->|(c & arr & ->)]; reflexivity.
      + apply scanDatabase_initialized.
      + intros Hinit.
        destruct (scanDatabase_spec o w (counted_Inv o HC) Hinit)
          as (a' & _ & _ & _ & Hs & _). exact Hs. }
  destruct Hsame as (Hc & Hi & Hs).
  destruct (_initialized o) eqn:Hinit.
  - destruct (inv_array o' (counted_Inv o' HC') Hi) as (a' & Ha' & Hlen').
    pose proof (counted_le o' HC' a' Hi Ha') as Hle.
    pose proof (count_true_bounds a') as Hb.
    rewrite (occupied_ids_count o' a' (Hs eq_refl) Ha' Hlen').
    unfold u16. rewrite Z.mod_small by lia. lia.
  - pose proof (counted_fresh o' HC' Hi) as Hzero.
    assert (Hun : _databaseScanned o' = false).
    { destruct (_databaseScanned o') eqn:Hsc; [|reflexivity].
      pose proof (inv_scanned o' (counted_Inv o' HC') Hsc). congruence. }
    rewrite (occupied_ids_unscanned o' Hun), Hzero. cbn [length].
    unfold u16. rewrite Z.mod_small by lia. lia.
Qed.

Lemma isSlotOccupied_entry (o : UniversalFingerprint) (a : list bool) (j : Z) :
  Counted o -> _initialized o = true -> _slotOccupancy o = Some a ->
  Z.of_nat (length a) = _capacity o ->
  1 <= j <= _capacity o ->
  a !! Z.to_nat (j - 1) = Some (isSlotOccupied o j).
Proof.
  intros HC Hinit Ha Hlen Hj.
  rewrite (slot_at_lookup o a (j - 1) Ha) by lia. f_equal.
  unfold isSlotOccupied.
  destruct (Z.ltb_spec j 1); [lia|]. destruct (Z.gtb_spec j (_capacity o)); [lia|].
  destruct (_databaseScanned o) eqn:Hscan; cbn [negb orb]; [reflexivity|].
  destruct (counted_unscanned o HC a Hinit Ha Hscan) as [_ Hall].
  unfold slot_at. rewrite Ha, Hall. rewrite lookup_replicate_2 by lia. reflexivity.
Qed.

(** What [isSlotOccupied] answers after the entry of slot [slot] has been
    set to [v] and the cache marked scanned. *)
Lemma isSlotOccupied_after_update
  (o : UniversalFingerprint) (a : list bool) (slot : Z) (v : bool) (c : Z) (j : Z) :
  Counted o -> _initialized o = true -> _slotOccupancy o = Some a ->
  Z.of_nat (length a) = _capacity o ->
  1 <= slot <= _capacity o ->
  isSlotOccupied
    (set_enrolledCount c (set_databaseScanned true (slot_set (slot - 1) v o))) j
  = if bool_decide (j = slot) then v else isSlotOccupied o j.
Proof.
  intros HC Hinit Ha Hlen Hslot.
  destruct (decide (1 <= j <= _capacity o)) as [Hj|Hj].
  - pose proof (isSlotOccupied_entry o a j HC Hinit Ha Hlen Hj) as Hentry.
    unfold isSlotOccupied at 1, slot_at, slot_set. cbn. rewrite Ha. cbn.
    destruct (Z.ltb_spec j 1); [lia|]. destruct (Z.gtb_spec j (_capacity o)); [lia|].
    destruct (bool_decide_reflect (j = slot)) as [->|Hne].
    + rewrite list_lookup_insert_eq by lia. reflexivity.
    + rewrite list_lookup_insert_ne by lia. rewrite Hentry. reflexivity.
  - rewrite bool_decide_eq_false_2 by lia.
    unfold isSlotOccupied. cbn.
    destruct (Z.ltb_spec j 1); [destruct (_databaseScanned o); reflexivity|].
    destruct (Z.gtb_spec j (_capacity o)); [destruct (_databaseScanned o); reflexivity|].
    lia.
Qed.

(** X4: in a reachable state a successful [enroll] turns
    [isSlotOccupied] to [true] for the slot it used (the given id, or the
    first empty slot when the id is 0), which was not reported occupied
    before, leaves the answer for every other id as it was, and raises the
    count by one. *)
Theorem enroll_success_occupies_slot
  (fuel : nat) (id numScans : Z) (o o' : UniversalFingerprint) (w w' : World E) :
  reachable (o, w) ->
  enroll fuel id numScans (o, w) = Some (UF_OK, (o', w')) ->
  isSlotOccupied o (if id =? 0 then findEmptySlot o 1 else id) = false
  /\ (forall j, isSlotOccupied o' j
                = if bool_decide (j = if id =? 0 then findEmptySlot o 1 else id)
                  then true else isSlotOccupied o j)
  /\ _enrolledCount o' = _enrolledCount o + 1.
Proof.
  intros Hreach Hrun.
  pose proof (reachable_Counted (o, w) Hreach) as HC. cbn [fst] in HC.
  destruct (enroll_result _ _ _ _ _ _ _ _ Hrun)
    as [[Hne _]|(_ & Hinit & _ & Hslot & Hguard & ->)]; [contradiction|].
  set (slot := if id =? 0 then findEmptySlot o 1 else id) in *.
  destruct (inv_array o (counted_Inv o HC) Hinit) as (a & Ha & Hlen).
  pose proof (Counted_enroll_entry o a slot HC Hinit Ha Hlen Hslot Hguard) as Hentry.
  pose proof (isSlotOccupied_entry o a slot HC Hinit Ha Hlen Hslot) as Hocc.
  rewrite (updateSlotOccupancy_eq slot true o a Ha Hslot).
  split; [congruence|]. split.
  - intros j. apply (isSlotOccupied_after_update o a slot true); assumption.
  - cbn. pose proof (counted_le o HC a Hinit Ha).
    pose proof (count_true_bounds a). pose proof (inv_capacity o (counted_Inv o HC)).
    unfold u16. rewrite Z.mod_small by lia. reflexivity.
Qed.

(** X5: in a reachable state a successful [deleteTemplate(id)] turns
    [isSlotOccupied(id)] to [false] and leaves the answer for every other
    id as it was; it issues exactly one delete command. *)
Theorem deleteTemplate_success_frees_slot
  (id : Z) (o : UniversalFingerprint) (w : World E) :
  reachable (o, w) ->
  fst (deleteTemplate id (o, w)) = UF_OK ->
  (forall j, isSlotOccupied (fst (snd (deleteTemplate id (o, w)))) j
             = if bool_decide (j = id) then false else isSlotOccupied o j)
  /\ trace (snd (snd (deleteTemplate id (o, w)))) = trace w ++ [DeleteModel id].
Proof.
  intros Hreach Hok.
  pose proof (reachable_Counted (o, w) Hreach) as HC. cbn [fst] in HC.
  destruct (deleteTemplate_result id o w)
    as [[Hne _]|(_ & Hinit & Hid & -> & Htrace)]; [contradiction|].
  split; [|exact Htrace].
  destruct (inv_array o (counted_Inv o HC) Hinit) as (a & Ha & Hlen).
  rewrite (updateSlotOccupancy_eq id false o a Ha Hid).
  intros j.
  destruct (0 <? _enrolledCount (set_databaseScanned true (slot_set (id - 1) false o))).
  - apply (isSlotOccupied_after_update o a id false); assumption.
  - rewrite <- (isSlotOccupied_after_update o a id false (_enrolledCount o) j)
      by assumption.
    reflexivity.
Qed.

End ReachableQueries.

(** ** Compositions *)

Section Compositions.
Context {E : Type} `{!Platform E}.

(** X6: in a reachable state whose cache is marked scanned, a successful
    [enroll] followed by a successful [deleteTemplate] of the slot it used
    gives back the object as it was: same entries, same count, same flags. *)
Theorem enroll_then_delete_restores
  (fuel : nat) (id numScans : Z) (o o1 : UniversalFingerprint) (w w1 w2 : World E) :
  reachable (o, w) ->
  _databaseScanned o = true ->
  enroll fuel id numScans (o, w) = Some (UF_OK, (o1, w1)) ->
  fst (deleteTemplate (if id =? 0 then findEmptySlot o 1 else id) (o1, w2)) = UF_OK ->
  fst (snd (deleteTemplate (if id =? 0 then findEmptySlot o 1 else id) (o1, w2))) = o.
Proof.
  intros Hreach Hscan Hrun Hdel.
  pose proof (reachable_Counted (o, w) Hreach) as HC. cbn [fst] in HC.
  destruct (enroll_result _ _ _ _ _ _ _ _ Hrun)
    as [[Hne _]|(_ & Hinit & _ & Hslot & Hguard & Ho1)]; [contradiction|].
  set (slot := if id =? 0 then findEmptySlot o 1 else id) in *.
  destruct (inv_array o (counted_Inv o HC) Hinit) as (a & Ha & Hlen).
  pose proof (Counted_enroll_entry o a slot HC Hinit Ha Hlen Hslot Hguard) as Hentry.
  pose proof (counted_le o HC a Hinit Ha) as Hle.
  pose proof (count_true_bounds a) as Hb.
  pose proof (inv_capacity o (counted_Inv o HC)) as Hcap.
  rewrite (updateSlotOccupancy_eq slot true o a Ha Hslot) in Ho1.
  destruct (deleteTemplate_result slot o1 w2)
    as [[Hne _]|(_ & _ & _ & -> & _)]; [contradiction|].
  assert (Ha1 : _slotOccupancy o1 = Some (<[Z.to_nat (slot - 1) := true]> a)).
  { rewrite Ho1. cbn. rewrite Ha. reflexivity. }
  assert (Hslot1 : 1 <= slot <= _capacity o1) by (rewrite Ho1; exact Hslot).
  rewrite (updateSlotOccupancy_eq slot false o1 _ Ha1 Hslot1).
  assert (Hcount1 : _enrolledCount o1 = _enrolledCount o + 1).
  { rewrite Ho1. cbn. unfold u16. apply Z.mod_small. lia. }
  cbn [_enrolledCount set_databaseScanned slot_set set_slotOccupancy].
  rewrite Hcount1.
  replace (0 <? _enrolledCount o + 1) with true by (symmetry; apply Z.ltb_lt; lia).
  replace (u16 (_enrolledCount o + 1 - 1)) with (_enrolledCount o)
    by (unfold u16; rewrite Z.mod_small by lia; lia).
  rewrite Ho1. unfold slot_set. cbn. rewrite Ha. cbn.
  rewrite list_insert_insert_eq, (list_insert_id a _ false Hentry).
  destruct o. cbn in *. subst. reflexivity.
Qed.

(** X7: after [clearDatabase()] on an initialised object no slot is
    reported occupied and no empty slot is found, although every entry is
    empty: [findEmptySlot] and [findLastEmptySlot] return 0, and [enroll]
    with automatic slot choice reports [UF_ERROR_SLOT_FULL] without a call
    and without changing anything. *)
Theorem clearDatabase_blocks_automatic_choice
  (fuel : nat) (numScans : Z) (o : UniversalFingerprint) (w : World E) :
  _initialized o = true ->
  (forall id, isSlotOccupied (fst (snd (clearDatabase (o, w)))) id = false)
  /\ (forall k, findEmptySlot (fst (snd (clearDatabase (o, w)))) k = 0)
  /\ findLastEmptySlot (fst (snd (clearDatabase (o, w)))) = 0
  /\ enroll fuel 0 numScans (snd (clearDatabase (o, w)))
     = Some (UF_ERROR_SLOT_FULL, snd (clearDatabase (o, w))).
Proof.
  intros Hinit.
  pose proof (clearDatabase_shape o w) as Hshape. rewrite Hinit in Hshape.
  destruct (clearDatabase (o, w)) as [r [o' w']]. cbn [fst snd] in *. subst o'.
  split; [|split; [|split]].
  - intros id. reflexivity.
  - intros k. reflexivity.
  - reflexivity.
  - unfold enroll. cbn. rewrite Hinit. reflexivity.
Qed.

(** The answers that let [clearDatabase] report success: OK and the
    bad-location code. *)
Lemma clearDatabase_loop_spec (n : nat) :
  forall (i : Z) (success : bool) (o : UniversalFingerprint) (w : World E),
    fst (clearDatabase_loop n i success (o, w))
    = success
      && forallb (fun a => (u8 a =? FINGERPRINT_OK codes)
                           || (u8 a =? FINGERPRINT_BADLOCATION codes))
           (answers (env w) (DeleteModel <$> seqZ i (Z.of_nat n)))
    /\ trace (snd (snd (clearDatabase_loop n i success (o, w))))
       = trace w ++ (DeleteModel <$> seqZ i (Z.of_nat n))
    /\ env (snd (snd (clearDatabase_loop n i success (o, w))))
       = env_after (env w) (DeleteModel <$> seqZ i (Z.of_nat n)).
Proof.
  induction n as [|n IH]; intros i success o w; cbn [clearDatabase_loop]; run_monad.
  - change (seqZ i (Z.of_nat 0)) with (@nil Z).
    cbn [fmap list_fmap answers env_after forallb].
    rewrite app_nil_r, andb_true_r. repeat split.
  - rewrite seqZ_cons by lia. cbn [fmap list_fmap answers env_after forallb].
    replace (Z.pred (Z.of_nat (S n))) with (Z.of_nat n) by lia.
    replace (Z.succ i) with (i + 1) by lia.
    destruct (respond (env w) (DeleteModel i)) as [r e']. cbn [fst snd] in *.
    match goal with
    | |- context [clearDatabase_loop n (i + 1) ?b (o, ?w1)] =>
        destruct (IH (i + 1) b o w1) as (Hres & Htr & Henv)
    end.
    rewrite Hres, Htr, Henv. cbn [trace env]. rewrite <- app_assoc.
    split; [|split; reflexivity].
    destruct (u8 r =? FINGERPRINT_OK codes);
      destruct (u8 r =? FINGERPRINT_BADLOCATION codes);
      destruct success; reflexivity.
Qed.

(** X8: on an initialised object [clearDatabase] issues one delete command
    for each slot [1 .. _capacity], in order, and nothing else, whatever
    the device answers: a failed delete does not stop it. It reports
    [UF_OK] when the device answered every one of these commands with OK or
    with the bad-location code, and [UF_ERROR_COMM] when one answer was
    anything else. *)
Theorem clearDatabase_deletes_every_slot (o : UniversalFingerprint) (w : World E) :
  _initialized o = true ->
  trace (snd (snd (clearDatabase (o, w))))
  = trace w ++ (DeleteModel <$> seqZ 1 (_capacity o))
  /\ env (snd (snd (clearDatabase (o, w))))
     = env_after (env w) (DeleteModel <$> seqZ 1 (_capacity o))
  /\ fst (clearDatabase (o, w))
     = (if forallb (fun a => (u8 a =? FINGERPRINT_OK codes)
                             || (u8 a =? FINGERPRINT_BADLOCATION codes))
             (answers (env w) (DeleteModel <$> seqZ 1 (_capacity o)))
        then UF_OK else UF_ERROR_COMM).
Proof.
  intros Hinit.
  destruct (clearDatabase_loop_spec (Z.to_nat (_capacity o)) 1 true o w)
    as (Hres & Htr & Henv).
  assert (Hseq : seqZ 1 (Z.of_nat (Z.to_nat (_capacity o))) = seqZ 1 (_capacity o)).
  { destruct (Z.le_gt_cases 0 (_capacity o)) as [Hcap|Hcap].
    - rewrite Z2Nat.id by lia. reflexivity.
    - replace (Z.to_nat (_capacity o)) with 0%nat by lia.
      rewrite (seqZ_nil 1 (_capacity o)) by lia. reflexivity. }
  rewrite Hseq in Hres, Htr, Henv. cbn [andb] in Hres.
  unfold clearDatabase. run_monad. rewrite Hinit. run_monad.
  destruct (clearDatabase_loop (Z.to_nat (_capacity o)) 1 true (o, w)) as [b [o1 w1]].
  cbn [fst snd] in *. subst b. split; [exact Htr|]. split; [exact Henv|reflexivity].
Qed.

End Compositions.

(** ** The last empty slot *)

Lemma findLastEmptySlot_loop_spec (o : UniversalFingerprint) (n : nat) :
  (findLastEmptySlot_loop o n = 0
   /\ forall j, 0 <= j < Z.of_nat n -> slot_at o j = true)
  \/ (1 <= findLastEmptySlot_loop o n <= Z.of_nat n
      /\ slot_at o (findLastEmptySlot_loop o n - 1) = false
      /\ forall j, findLastEmptySlot_loop o n <= j < Z.of_nat n -> slot_at o j = true).
Proof.
  induction n as [|n IH]; cbn [findLastEmptySlot_loop].
  - left. split; [reflexivity|]. intros j Hj. lia.
  - destruct (slot_at o (Z.of_nat n)) eqn:Hs; cbn [negb].
    + destruct IH as [[H0 Hall]|(Hr & Hf & Hall)].
      * left. split; [exact H0|]. intros j Hj.
        destruct (Z.eq_dec j (Z.of_nat n)) as [->|]; [exact Hs|apply Hall; lia].
      * right. split; [lia|]. split; [exact Hf|]. intros j Hj.
        destruct (Z.eq_dec j (Z.of_nat n)) as [->|]; [exact Hs|apply Hall; lia].
    + right. split; [lia|]. split.
      * replace (Z.of_nat (S n) - 1) with (Z.of_nat n) by lia. exact Hs.
      * intros j Hj. lia.
Qed.

(** X9: on a cache marked scanned [findLastEmptySlot] is the largest slot
    id in [[1, _capacity]] whose entry is [false], and 0 when every entry is
    [true]; it is 0 exactly when [findEmptySlot(1)] is 0, and otherwise not
    below it. On a cache not marked scanned both are 0. *)
Theorem findLastEmptySlot_largest
  (o : UniversalFingerprint) (a : list bool) :
  _slotOccupancy o = Some a ->
  Z.of_nat (length a) = _capacity o ->
  _capacity o < 2 ^ 16 ->
  (if _databaseScanned o then
     (1 <= findLastEmptySlot o <= _capacity o
      /\ a !! Z.to_nat (findLastEmptySlot o - 1) = Some false
      /\ forall j, findLastEmptySlot o < j <= _capacity o ->
                   a !! Z.to_nat (j - 1) = Some true)
     \/ (findLastEmptySlot o = 0
         /\ forall j, 1 <= j <= _capacity o -> a !! Z.to_nat (j - 1) = Some true)
   else findLastEmptySlot o = 0 /\ findEmptySlot o 1 = 0)
  /\ (findLastEmptySlot o = 0 <-> findEmptySlot o 1 = 0)
  /\ findEmptySlot o 1 <= findLastEmptySlot o.
Proof.
  intros Ha Hlen Hcap. unfold findLastEmptySlot, findEmptySlot.
  destruct (_databaseScanned o); cbn [negb orb];
    [|split; [split; reflexivity|split; [tauto|lia]]].
  assert (Hlook : forall j, 1 <= j <= _capacity o ->
                            a !! Z.to_nat (j - 1) = Some (slot_at o (j - 1))).
  { intros j Hj. apply slot_at_lookup; [exact Ha|lia]. }
  pose proof (findLastEmptySlot_loop_spec o (Z.to_nat (_capacity o))) as Hlast.
  rewrite Z2Nat.id in Hlast by lia.
  set (last := findLastEmptySlot_loop o (Z.to_nat (_capacity o))) in *.
  change (1 <? 1) with false. cbn [orb].
  destruct (Z.gtb_spec 1 (_capacity o)) as [Hempty|Hsome].
  { destruct Hlast as [[H0 Hall]|(Hr & _)]; [|lia].
    rewrite H0. split; [|split; [tauto|lia]].
    right. split; [reflexivity|]. intros j Hj. lia. }
  pose proof (findEmptySlot_loop_spec o (Z.to_nat (_capacity o - (1 - 1))) (1 - 1)) as Hfirst.
  set (first := findEmptySlot_loop o (Z.to_nat (_capacity o - (1 - 1))) (1 - 1)) in *.
  destruct Hfirst as [[F0 Fall]|(Fr & Ff & Fall)]; [lia|lia| |];
    destruct Hlast as [[H0 Hall]|(Hr & Hf & Hall)].
  - split; [|split; [tauto|lia]].
    right. split; [exact H0|]. intros j Hj. rewrite Hlook by lia. f_equal.
    apply Hall. lia.
  - exfalso. rewrite Fall in Hf by lia. discriminate.
  - exfalso. rewrite Hall in Ff by lia. discriminate.
  - split; [|split; [lia|]].
    + left. split; [lia|]. split.
      * rewrite Hlook by lia. f_equal. exact Hf.
      * intros j Hj. rewrite Hlook by lia. f_equal. apply Hall. lia.
    + destruct (Z.le_gt_cases first last) as [Hle|Hgt]; [exact Hle|].
      exfalso. rewrite Fall in Hf by lia. discriminate.
Qed.

Lemma findLastEmptySlot_largest_witness :
  findLastEmptySlot (three_slots true) = 3.
Proof.
  pose proof (proj1 (findLastEmptySlot_largest
                       (three_slots true) [true; false; false]
                       eq_refl eq_refl eq_refl)) as H.
  cbn [three_slots _databaseScanned] in H.
  destruct H as [_|[H _]]; [|discriminate H].
  reflexivity.
Defined.

(** ** Raw templates *)

(** X10: [readRawTemplate] and [writeRawTemplate] never succeed. The first
    always returns a negative code (no sensor, invalid parameter or not
    supported, -2, -15 or -14), the second never returns [UF_OK]; with an
    initialised object, a valid id and a buffer of at least 128 bytes the
    answer is "not supported". *)
Theorem raw_templates_never_succeed
  (o : UniversalFingerprint) (id : Z) (buffer : option (list Z)) (size : Z) :
  readRawTemplate o id buffer size < 0
  /\ readRawTemplate o id buffer size ∈ [-2; -15; -14]
  /\ writeRawTemplate o id buffer size <> UF_OK
  /\ (_initialized o = true -> _validateID o id = true -> is_Some buffer ->
      128 <= size ->
      readRawTemplate o id buffer size = -14
      /\ writeRawTemplate o id buffer size = UF_ERROR_NOT_SUPPORTED).
Proof.
  unfold readRawTemplate, writeRawTemplate.
  split; [|split; [|split]].
  - repeat case_match; cbn; lia.
  - repeat case_match; cbn; apply list_elem_of_In; cbn; tauto.
  - repeat case_match; discriminate.
  - intros -> -> Hbuf Hsize. rewrite bool_decide_eq_true_2 by exact Hbuf.
    replace (size <? 128) with false by (symmetry; apply Z.ltb_ge; lia).
    split; reflexivity.
Qed.

Lemma raw_templates_never_succeed_witness :
  readRawTemplate (three_slots true) 1 (Some (replicate 128 0)) 128 = -14.
Proof.
  refine (proj1 (proj2 (proj2 (proj2
            (raw_templates_never_succeed (three_slots true) 1
               (Some (replicate 128 0)) 128))) eq_refl eq_refl _ _)).
  - eexists. reflexivity.
  - vm_compute. discriminate.
Defined.

(** ** The detector *)

Section DetectorDetails.
Context {E : Type} `{!Platform E}.

(** What [detect] records, and the shape of its calls. *)
Lemma detect_records (d : UF_SensorDetector.t) (w : World E) :
  UF_SensorDetector._detectedType (fst (snd (UF_SensorDetector.detect (d, w))))
  = fst (UF_SensorDetector.detect (d, w))
  /\ UF_SensorDetector._detectedCapacity (fst (snd (UF_SensorDetector.detect (d, w))))
     = (if bool_decide (fst (UF_SensorDetector.detect (d, w)) = UF_SENSOR_AUTO)
        then 162
        else default 0 (capacity <$> SENSOR_DB_lookup (fst (UF_SensorDetector.detect (d, w)))))
  /\ (fst (UF_SensorDetector.detect (d, w)) <> UF_SENSOR_AUTO ->
      UF_SensorDetector.getSensorName (fst (snd (UF_SensorDetector.detect (d, w))))
      = sensorTypeToString (fst (UF_SensorDetector.detect (d, w))))
  /\ exists probes,
       trace (snd (snd (UF_SensorDetector.detect (d, w))))
       = trace w ++ GetParameters :: (GetTemplateCount <$> probes)
       /\ probes `prefix_of` [1000; 300; 256; 200; 162]
       /\ probes <> []
       /\ (fst (UF_SensorDetector.detect (d, w)) = UF_SENSOR_AUTO ->
           probes = [1000; 300; 256; 200; 162]).
Proof.
  unfold UF_SensorDetector.detect, UF_SensorDetector.detectByParameters,
    UF_SensorDetector.detectByCapacity, UF_SensorDetector._testSlot.
  run_monad.
  destruct (respond (env w) GetParameters) as [param e0]. run_monad.
  assert (Hsame : forall (A : Type) (x : A), (if u32 param =? 0 then x else x) = x)
    by (intros; destruct (u32 param =? 0); reflexivity).
  rewrite !Hsame. run_monad.
  cbn [UF_SensorDetector.set_detectedType UF_SensorDetector._detectedType].
  rewrite bool_decide_eq_true_2 by reflexivity. run_monad.
  destruct (respond e0 (GetTemplateCount 1000)) as [r1 e1]. run_monad.
  destruct (u8 r1 =? FINGERPRINT_OK codes); run_monad.
  { repeat split; try discriminate.
    exists [1000]. rewrite <- app_assoc.
    repeat split; try discriminate. exists [300; 256; 200; 162]. reflexivity. }
  destruct (respond e1 (GetTemplateCount 300)) as [r2 e2]. run_monad.
  destruct (u8 r2 =? FINGERPRINT_OK codes); run_monad.
  { repeat split; try discriminate.
    exists [1000; 300]. rewrite <- !app_assoc.
    repeat split; try discriminate. exists [256; 200; 162]. reflexivity. }
  destruct (respond e2 (GetTemplateCount 256)) as [r3 e3]. run_monad.
  destruct (u8 r3 =? FINGERPRINT_OK codes); run_monad.
  { repeat split; try discriminate.
    exists [1000; 300; 256]. rewrite <- !app_assoc.
    repeat split; try discriminate. exists [200; 162]. reflexivity. }
  destruct (respond e3 (GetTemplateCount 200)) as [r4 e4]. run_monad.
  destruct (u8 r4 =? FINGERPRINT_OK codes); run_monad.
  { repeat split; try discriminate.
    exists [1000; 300; 256; 200]. rewrite <- !app_assoc.
    repeat split; try discriminate. exists [162]. reflexivity. }
  destruct (respond e4 (GetTemplateCount 162)) as [r5 e5]. run_monad.
  destruct (u8 r5 =? FINGERPRINT_OK codes); run_monad.
  { repeat split; try discriminate.
    exists [1000; 300; 256; 200; 162]. rewrite <- !app_assoc.
    repeat split; try discriminate. exists []. reflexivity. }
  repeat split; try discriminate; try contradiction.
  exists [1000; 300; 256; 200; 162]. rewrite <- !app_assoc.
  repeat split; try discriminate. exists []. reflexivity.
Qed.

(** X11: [detect] first reads the parameters and then puts the capacities
    1000, 300, 256, 200, 162 to the device in this order. It goes on after
    every answer that is not OK and stops at the first answer that is OK,
    with the type of that profile; it reports that nothing was detected only
    after all five were refused. The type it returns is the one it stores,
    the capacity it stores is that type's capacity in [SENSOR_DB] (162 when
    nothing was detected), and [getSensorName] gives the name
    [sensorTypeToString] gives for a detected type. *)
Theorem detect_agrees_with_table (d : UF_SensorDetector.t) (w : World E) :
  UF_SensorDetector._detectedType (fst (snd (UF_SensorDetector.detect (d, w))))
  = fst (UF_SensorDetector.detect (d, w))
  /\ UF_SensorDetector._detectedCapacity (fst (snd (UF_SensorDetector.detect (d, w))))
     = (if bool_decide (fst (UF_SensorDetector.detect (d, w)) = UF_SENSOR_AUTO)
        then 162
        else default 0 (capacity <$> SENSOR_DB_lookup (fst (UF_SensorDetector.detect (d, w)))))
  /\ (fst (UF_SensorDetector.detect (d, w)) <> UF_SENSOR_AUTO ->
      UF_SensorDetector.getSensorName (fst (snd (UF_SensorDetector.detect (d, w))))
      = sensorTypeToString (fst (UF_SensorDetector.detect (d, w))))
  /\ capacity <$> UF_SensorDetector.catalog_descending = [1000; 300; 256; 200; 162]
  /\ exists asked rest,
       UF_SensorDetector.catalog_descending = asked ++ rest
       /\ asked <> []
       /\ trace (snd (snd (UF_SensorDetector.detect (d, w))))
          = trace w ++ GetParameters :: (GetTemplateCount <$> (capacity <$> asked))
       /\ ((exists refused p,
              asked = refused ++ [p]
              /\ fst (UF_SensorDetector.detect (d, w)) = type p
              /\ type p <> UF_SENSOR_AUTO
              /\ Forall (fun a => u8 a <> FINGERPRINT_OK codes)
                   (answers (snd (respond (env w) GetParameters))
                      (GetTemplateCount <$> (capacity <$> refused)))
              /\ u8 (fst (respond
                            (env_after (snd (respond (env w) GetParameters))
                               (GetTemplateCount <$> (capacity <$> refused)))
                            (GetTemplateCount (capacity p))))
                 = FINGERPRINT_OK codes)
           \/ (fst (UF_SensorDetector.detect (d, w)) = UF_SENSOR_AUTO
               /\ rest = []
               /\ Forall (fun a => u8 a <> FINGERPRINT_OK codes)
                    (answers (snd (respond (env w) GetParameters))
                       (GetTemplateCount <$> (capacity <$> asked))))).
Proof.
  destruct (detect_records d w) as (Htype & Hcap & Hname & _).
  split; [exact Htype|]. split; [exact Hcap|]. split; [exact Hname|].
  split; [rewrite catalog_descending_eq; reflexivity|].
  destruct (detect_delegates d w) as [Hres Hstate]. cbn zeta in Hres, Hstate.
  rewrite Hres, Hstate, detectByCapacity_walk.
  destruct (first_addressable_spec UF_SensorDetector.catalog_descending
              (UF_SensorDetector.set_detectedType UF_SENSOR_AUTO d)
              (mkWorld (snd (respond (env w) GetParameters))
                 (trace w ++ [GetParameters])))
    as (asked & rest & Hsplit & _ & Htr & Hcases).
  cbn [env trace] in *.
  exists asked, rest. split; [exact Hsplit|].
  assert (Hin : forall p, p ∈ UF_SensorDetector.catalog_descending ->
                          type p <> UF_SENSOR_AUTO).
  { intros p Hp. rewrite catalog_descending_eq in Hp.
    apply list_elem_of_In in Hp. cbn [In] in Hp.
    repeat (destruct Hp as [<-|Hp]; [discriminate|]). destruct Hp. }
  split; [|split].
  - destruct Hcases as [(refused & p & -> & _)|(_ & -> & _)].
    + intros Hnil. apply app_eq_nil in Hnil. destruct Hnil as [_ Hnil]. discriminate.
    + rewrite app_nil_r in Hsplit. rewrite <- Hsplit, catalog_descending_eq.
      discriminate.
  - rewrite Htr, <- app_assoc. reflexivity.
  - destruct Hcases as [(refused & p & Hasked & Hp & Hall & Hlast)|Hnone].
    + left. exists refused, p. split; [exact Hasked|]. split; [exact Hp|].
      split; [|split; assumption].
      apply Hin. rewrite Hsplit, Hasked. apply elem_of_app. left.
      apply elem_of_app. right. apply list_elem_of_singleton. reflexivity.
    + right. exact Hnone.
Qed.

Lemma pow2_succ (f : nat) : 2 ^ Z.of_nat (S f) = 2 * 2 ^ Z.of_nat f.
Proof. rewrite Nat2Z.inj_succ, Z.pow_succ_r by lia. reflexivity. Qed.

Lemma findMaxCapacity_loop_spec (P : E -> Prop) (limit : Z) :
  (forall e c, P e -> P (snd (respond e c))) ->
  (forall e id, P e ->
     u8 (fst (respond e (GetTemplateCount id))) = FINGERPRINT_OK codes <-> id <= limit) ->
  forall (f : nat) (low high maxFound : Z) (d : UF_SensorDetector.t) (w : World E),
    P (env w) ->
    1 <= low -> high <= 1000 -> low <= high + 1 ->
    high - low + 1 < 2 ^ Z.of_nat f ->
    maxFound = low - 1 ->
    low - 1 <= Z.max 0 (Z.min limit 1000) <= high ->
    fst <$> UF_SensorDetector._findMaxCapacity_loop (S f) low high maxFound (d, w)
    = Some (Z.max 0 (Z.min limit 1000)).
Proof.
  intros Hstep Hprobe.
  induction f as [|f IH]; intros low high maxFound d w HP Hlow Hhigh Hord Hsize Hmax HL;
    cbn [UF_SensorDetector._findMaxCapacity_loop].
  - change (2 ^ Z.of_nat 0) with 1 in Hsize.
    destruct (Z.leb_spec low high); [lia|]. cbn. f_equal. lia.
  - rewrite pow2_succ in Hsize.
    destruct (Z.leb_spec low high) as [Hle|Hgt]; [|cbn; f_equal; lia].
    assert (Hmid : low <= (low + high) / 2 <= high
                   /\ 2 * (high - (low + high) / 2) <= high - low + 1
                   /\ 2 * ((low + high) / 2 - low) <= high - low).
    { Z.div_mod_to_equations. lia. }
    set (mid := (low + high) / 2) in *.
    assert (Hu : u16 mid = mid) by (unfold u16; apply Z.mod_small; lia).
    rewrite Hu. unfold UF_SensorDetector._testSlot. run_monad.
    pose proof (Hstep (env w) (GetTemplateCount mid) HP) as HP'.
    pose proof (Hprobe (env w) mid HP) as Hans.
    destruct (respond (env w) (GetTemplateCount mid)) as [r e']. cbn [fst snd] in *.
    destruct (Z.eqb_spec (u8 r) (FINGERPRINT_OK codes)) as [Hok|Hno].
    + apply IH; try assumption; cbn [env];
        try (unfold u16; rewrite Z.mod_small by lia); lia.
    + apply IH; try assumption; cbn [env];
        try (unfold u16; rewrite Z.mod_small by lia); lia.
Qed.

(** X12: the binary search [_findMaxCapacity], run against a device that
    accepts exactly the slot indices up to [limit], returns [limit] cut to
    the range [[0, 1000]], after at most ten probes. *)
Theorem findMaxCapacity_finds_limit
  (fuel : nat) (limit : Z) (d : UF_SensorDetector.t) (w : World E) :
  accepts_exactly_up_to limit (env w) ->
  (11 <= fuel)%nat ->
  fst <$> UF_SensorDetector._findMaxCapacity fuel (d, w)
  = Some (Z.max 0 (Z.min limit 1000)).
Proof.
  intros (P & HP & Hstep & Hprobe) Hfuel.
  destruct fuel as [|f]; [lia|].
  unfold UF_SensorDetector._findMaxCapacity.
  apply (findMaxCapacity_loop_spec P limit Hstep Hprobe); try assumption; try lia.
  assert (2 ^ Z.of_nat 10 <= 2 ^ Z.of_nat f) by (apply Z.pow_le_mono_r; lia).
  change (2 ^ Z.of_nat 10) with 1024 in *. lia.
Qed.

End DetectorDetails.

Lemma findMaxCapacity_finds_limit_witness :
  fst <$> UF_SensorDetector._findMaxCapacity 11
            (UF_SensorDetector.new, fresh_world (accepting 300))
  = Some 300.
Proof.
  exact (findMaxCapacity_finds_limit 11 300 UF_SensorDetector.new
           (fresh_world (accepting 300)) (accepting_accepts_exactly 300)
           (le_n 11)).
Defined.

(** ** Identification and verification *)

Section SearchingProperties.
Context {E : Type} `{!Platform E}.
Variable FINGERPRINT_NOTFOUND : Z.
Variable fingerFastSearch : World E -> (Z * Z * Z) * World E.
Variable fingerSearch : Z -> World E -> (Z * Z) * World E.

Lemma call_obj (c : Call) (s : State E) : fst (snd (call c s)) = fst s.
Proof. unfold call. destruct (respond (env (snd s)) c). reflexivity. Qed.

Lemma call8_obj (c : Call) (s : State E) : fst (snd (call8 c s)) = fst s.
Proof.
  unfold call8, bind, ret. pose proof (call_obj c s) as H.
  destruct (call c s) as [r s']. exact H.
Qed.

Lemma isFingerPresent_obj (s : State E) : fst (snd (isFingerPresent s)) = fst s.
Proof.
  unfold isFingerPresent. run_monad.
  destruct (_initialized (fst s)); run_monad; [|reflexivity].
  destruct (respond (env (snd s)) GetImage). reflexivity.
Qed.

Lemma identify_wait_obj (fuel : nat) (startTime timeout : Z) :
  forall s s' : State E,
    identify_wait fuel startTime timeout s = Some s' -> fst s' = fst s.
Proof.
  induction fuel as [|fuel IH]; intros s s' Hrun; cbn [identify_wait] in Hrun.
  - discriminate.
  - pose proof (call_obj Millis s) as H1.
    destruct (call Millis s) as [now s1]. cbn [fst snd] in H1.
    destruct (u32 (u32 now - startTime) <? u32 (timeout * 1000)).
    + pose proof (isFingerPresent_obj s1) as H2.
      destruct (isFingerPresent s1) as [present s2]. cbn [fst snd] in H2.
      destruct present.
      * injection Hrun as <-. congruence.
      * pose proof (call_obj (Delay 100) s2) as H3.
        destruct (call (Delay 100) s2) as [r3 s3]. cbn [fst snd] in H3.
        rewrite (IH _ _ Hrun). congruence.
    + injection Hrun as <-. exact H1.
Qed.

(** X13: [identify] and [verify] never write to the object: whatever they
    return, the cache, the count and the flags are what they were. *)
Theorem searches_leave_object_alone
  (fuel : nat) (id : Z) (confidence : option Z) (timeout : Z) (s : State E) :
  (forall r s',
      identify FINGERPRINT_NOTFOUND fingerFastSearch fuel confidence timeout s
      = Some (r, s') ->
      fst s' = fst s)
  /\ fst (snd (verify fingerSearch id confidence s)) = fst s.
Proof.
  split.
  - intros r s'. unfold identify.
    destruct (negb (_initialized (fst s))); [intros [= _ <-]; reflexivity|].
    pose proof (call_obj Millis s) as H1.
    destruct (call Millis s) as [startTime s1]. cbn [fst snd] in H1.
    destruct (identify_wait fuel (u32 startTime) timeout s1) as [s2|] eqn:Hwait;
      [|discriminate].
    pose proof (identify_wait_obj _ _ _ _ _ Hwait) as H2.
    pose proof (isFingerPresent_obj s2) as H3.
    destruct (isFingerPresent s2) as [present s3]. cbn [fst snd] in H3.
    destruct (negb present); [intros [= _ <-]; congruence|].
    pose proof (call8_obj GetImage s3) as H4.
    destruct (call8 GetImage s3) as [r4 s4]. cbn [fst snd] in H4.
    destruct (negb (r4 =? FINGERPRINT_OK codes)); [intros [= _ <-]; congruence|].
    pose proof (call8_obj (Image2Tz 1) s4) as H5.
    destruct (call8 (Image2Tz 1) s4) as [r5 s5]. cbn [fst snd] in H5.
    destruct (negb (r5 =? FINGERPRINT_OK codes)); [intros [= _ <-]; congruence|].
    destruct (fingerFastSearch (snd s5)) as [[[r6 fid] conf] w6].
    repeat case_match; intros [= _ <-]; cbn [fst]; congruence.
  - unfold verify. unfold bind at 1. unfold this at 1. cbn [fst snd].
    destruct (negb (_initialized (fst s))); [reflexivity|].
    destruct (negb (_validateID (fst s) id)); [reflexivity|].
    unfold bind at 1.
    pose proof (isFingerPresent_obj s) as H3.
    destruct (isFingerPresent s) as [present s3]. cbn [fst snd] in H3.
    destruct (negb present); [exact H3|].
    unfold bind at 1.
    pose proof (call8_obj GetImage s3) as H4.
    destruct (call8 GetImage s3) as [r4 s4]. cbn [fst snd] in H4.
    destruct (negb (r4 =? FINGERPRINT_OK codes)); [cbn; congruence|].
    unfold bind at 1.
    pose proof (call8_obj (Image2Tz 1) s4) as H5.
    destruct (call8 (Image2Tz 1) s4) as [r5 s5]. cbn [fst snd] in H5.
    destruct (negb (r5 =? FINGERPRINT_OK codes)); [cbn; congruence|].
    destruct (fingerSearch id (snd s5)) as [[r6 conf] w6].
    case_match; cbn [fst snd]; congruence.
Qed.

Lemma convert_NOFINGER :
  FINGERPRINT_NOFINGER codes <> FINGERPRINT_OK codes ->
  _convertAdafruitError codes (FINGERPRINT_NOFINGER codes) = UF_ERROR_NO_FINGER.
Proof.
  intros Hne. unfold _convertAdafruitError, convert_table. cbn [switch_on].
  destruct (Z.eqb_spec (FINGERPRINT_NOFINGER codes) (FINGERPRINT_OK codes));
    [contradiction|].
  rewrite Z.eqb_refl. reflexivity.
Qed.

(** What one presence poll and one image capture do on a sensor that keeps
    answering "no finger". *)
Lemma isFingerPresent_no_finger (P : E -> Prop) (o : UniversalFingerprint) (w : World E) :
  (forall e' c, P e' -> P (snd (respond e' c))) ->
  (forall e', P e' -> u8 (fst (respond e' GetImage)) = FINGERPRINT_NOFINGER codes) ->
  _initialized o = true -> P (env w) ->
  exists w', isFingerPresent (o, w) = (true, (o, w'))
             /\ P (env w') /\ trace w' = trace w ++ [GetImage].
Proof.
  intros Hstep Hans Hinit HP. unfold isFingerPresent. run_monad. rewrite Hinit.
  run_monad.
  pose proof (Hstep (env w) GetImage HP) as HP'. pose proof (Hans (env w) HP) as Hcode.
  destruct (respond (env w) GetImage) as [r e']. cbn [fst snd] in *.
  rewrite Hcode, Z.eqb_refl, orb_true_r.
  eexists. split; [reflexivity|]. split; [exact HP'|reflexivity].
Qed.

(** X14: on an initialised object and a sensor that answers every image
    capture with "no finger", [identify] does not wait for its timeout. It
    returns at once with minus [UF_ERROR_NO_FINGER] (-9), never with the
    timeout code, after two clock reads and two or three captures; and
    [verify] on a valid id returns [UF_ERROR_NO_FINGER] after two captures,
    the second of which is the one that reports it. *)
Theorem no_finger_is_not_waited_for
  (fuel : nat) (id : Z) (confidence : option Z) (timeout : Z)
  (o : UniversalFingerprint) (w : World E) :
  _initialized o = true ->
  always_no_finger (env w) ->
  FINGERPRINT_NOFINGER codes <> FINGERPRINT_OK codes ->
  (1 <= fuel)%nat ->
  (exists w',
      identify FINGERPRINT_NOTFOUND fingerFastSearch fuel confidence timeout (o, w)
      = Some ((-9, confidence), (o, w'))
      /\ (trace w' = trace w ++ [Millis; Millis; GetImage; GetImage; GetImage]
          \/ trace w' = trace w ++ [Millis; Millis; GetImage; GetImage]))
  /\ (_validateID o id = true ->
      exists w',
        verify fingerSearch id confidence (o, w)
        = ((UF_ERROR_NO_FINGER, confidence), (o, w'))
        /\ trace w' = trace w ++ [GetImage; GetImage]).
Proof.
  intros Hinit (P & HP & Hstep & Hans) Hne Hfuel.
  assert (Hcapture : forall w1, P (env w1) ->
            exists r e', respond (env w1) GetImage = (r, e')
                         /\ u8 r = FINGERPRINT_NOFINGER codes).
  { intros w1 HP1. pose proof (Hans (env w1) HP1) as Hc.
    destruct (respond (env w1) GetImage) as [r e']. eauto. }
  assert (Hneq : (FINGERPRINT_NOFINGER codes =? FINGERPRINT_OK codes) = false)
    by (apply Z.eqb_neq; exact Hne).
  split.
  - unfold identify. cbn [fst]. rewrite Hinit. cbn [negb].
    pose proof (Hstep (env w) Millis HP) as HP1.
    unfold call at 1. cbn [fst snd].
    destruct (respond (env w) Millis) as [t0 e1]. cbn [snd] in HP1.
    destruct fuel as [|fuel]; [lia|]. cbn [identify_wait].
    unfold call at 1. cbn [fst snd env trace].
    pose proof (Hstep e1 Millis HP1) as HP2.
    destruct (respond e1 Millis) as [t1 e2]. cbn [snd] in HP2.
    destruct (u32 (u32 t1 - u32 t0) <? u32 (timeout * 1000)).
    + destruct (isFingerPresent_no_finger P o
                  {| env := e2; trace := (trace w ++ [Millis]) ++ [Millis] |}
                  Hstep Hans Hinit HP2) as (w3 & -> & HP3 & Ht3).
      destruct (isFingerPresent_no_finger P o w3 Hstep Hans Hinit HP3)
        as (w4 & -> & HP4 & Ht4).
      cbn [negb]. unfold call8, bind, ret, call. cbn [fst snd].
      destruct (Hcapture w4 HP4) as (r & e' & -> & Hr).
      rewrite Hr, Hneq. cbn [negb]. rewrite (convert_NOFINGER Hne).
      eexists. split; [reflexivity|]. left. cbn [trace].
      rewrite Ht4, Ht3. cbn [trace]. rewrite <- !app_assoc. reflexivity.
    + destruct (isFingerPresent_no_finger P o
                  {| env := e2; trace := (trace w ++ [Millis]) ++ [Millis] |}
                  Hstep Hans Hinit HP2) as (w3 & -> & HP3 & Ht3).
      cbn [negb]. unfold call8, bind, ret, call. cbn [fst snd].
      destruct (Hcapture w3 HP3) as (r & e' & -> & Hr).
      rewrite Hr, Hneq. cbn [negb]. rewrite (convert_NOFINGER Hne).
      eexists. split; [reflexivity|]. right. cbn [trace].
      rewrite Ht3. cbn [trace]. rewrite <- !app_assoc. reflexivity.
  - intros Hvalid. unfold verify. unfold bind at 1. unfold this at 1. cbn [fst snd].
    rewrite Hinit, Hvalid. cbn [negb]. unfold bind at 1.
    destruct (isFingerPresent_no_finger P o w Hstep Hans Hinit HP)
      as (w3 & -> & HP3 & Ht3).
    cbn [negb]. unfold bind at 1. unfold call8, bind, ret, call. cbn [fst snd].
    destruct (Hcapture w3 HP3) as (r & e' & -> & Hr).
    rewrite Hr, Hneq. cbn [negb]. rewrite (convert_NOFINGER Hne).
    eexists. split; [reflexivity|]. cbn [trace]. rewrite Ht3, <- app_assoc.
    reflexivity.
Qed.

End SearchingProperties.

(** ** UF_MemoryManager *)

Module MemoryManagerFacts.
Import UF_MemoryManager.

Lemma map_slot_at_lookup (m : t) (a : list bool) (j : Z) :
  _slotMap m = Some a -> 0 <= j < Z.of_nat (length a) ->
  a !! Z.to_nat j = Some (slot_at m j).
Proof.
  intros Ha Hj. unfold slot_at. rewrite Ha.
  destruct (a !! Z.to_nat j) as [b|] eqn:Hl; [reflexivity|].
  apply lookup_ge_None in Hl. lia.
Qed.

Lemma isSlotOccupied_slot_at (m : t) (a : list bool) (id : Z) :
  _slotMap m = Some a -> 1 <= id <= _capacity m ->
  isSlotOccupied m id = slot_at m (id - 1).
Proof.
  intros Ha Hid. unfold isSlotOccupied, _validateID. rewrite Ha.
  rewrite bool_decide_eq_true_2 by (eexists; reflexivity).
  replace (1 <=? id) with true by (symmetry; apply Z.leb_le; lia).
  replace (id <=? _capacity m) with true by (symmetry; apply Z.leb_le; lia).
  reflexivity.
Qed.

(** X15: on a slot map with [_capacity] entries, [updateSlot] is
    idempotent: a second call with the same arguments changes neither an
    entry nor the count. *)
Theorem updateSlot_idempotent (id : Z) (occupied : bool) (m : t) (a : list bool) :
  _slotMap m = Some a ->
  Z.of_nat (length a) = _capacity m ->
  snd (updateSlot id occupied (snd (updateSlot id occupied m)))
  = snd (updateSlot id occupied m).
Proof.
  intros Ha Hlen.
  destruct (_validateID m id) eqn:Hvalid.
  2: { unfold updateSlot. rewrite Hvalid. cbn [negb orb snd]. rewrite Hvalid.
       reflexivity. }
  assert (Hid : 1 <= id <= _capacity m).
  { unfold _validateID in Hvalid. apply andb_true_iff in Hvalid. lia. }
  assert (Hfirst : exists c,
             snd (updateSlot id occupied m)
             = {| _finger := _finger m; _capacity := _capacity m; _enrolledCount := c;
                  _slotMap := Some (<[Z.to_nat (id - 1) := occupied]> a) |}).
  { unfold updateSlot. rewrite Hvalid, Ha.
    rewrite bool_decide_eq_true_2 by (eexists; reflexivity).
    cbn [negb orb snd]. eexists. reflexivity. }
  destruct Hfirst as [c ->].
  unfold updateSlot, _validateID, slot_at. cbn [_capacity _slotMap _enrolledCount].
  unfold _validateID in Hvalid. rewrite Hvalid.
  rewrite bool_decide_eq_true_2 by (eexists; reflexivity).
  cbn [negb orb snd fmap option_fmap option_map].
  rewrite list_lookup_insert_eq by lia. cbn [default].
  rewrite list_insert_insert_eq.
  destruct occupied; cbn [negb andb]; reflexivity.
Qed.

Lemma map_findEmptySlot_loop_spec (m : t) (n : nat) :
  forall i, 0 <= i -> i + Z.of_nat n < 2 ^ 16 ->
  (findEmptySlot_loop m n i = 0
   /\ forall j, i <= j < i + Z.of_nat n -> slot_at m j = true)
  \/ (i < findEmptySlot_loop m n i <= i + Z.of_nat n
      /\ slot_at m (findEmptySlot_loop m n i - 1) = false
      /\ forall j, i <= j < findEmptySlot_loop m n i - 1 -> slot_at m j = true).
Proof.
  induction n as [|n IH]; intros i Hi Hn; cbn [findEmptySlot_loop].
  - left. split; [reflexivity|]. intros j Hj. lia.
  - destruct (slot_at m i) eqn:Hs; cbn [negb].
    + destruct (IH (i + 1)) as [[H0 Hall]|(Hr & Hf & Hall)]; [lia|lia| |].
      * left. split; [exact H0|]. intros j Hj.
        destruct (Z.eq_dec j i) as [->|]; [exact Hs|apply Hall; lia].
      * right. split; [lia|]. split; [exact Hf|]. intros j Hj.
        destruct (Z.eq_dec j i) as [->|]; [exact Hs|apply Hall; lia].
    + right. unfold u16. rewrite Z.mod_small by lia.
      replace (i + 1 - 1) with i by lia.
      split; [lia|]. split; [exact Hs|]. intros j Hj. lia.
Qed.

Lemma defragment_loop_spec (m : t) (n : nat) :
  forall i, defragment_loop m n i = true
            <-> forall j, i <= j < i + Z.of_nat n -> isSlotOccupied m j = false.
Proof.
  induction n as [|n IH]; intros i; cbn [defragment_loop].
  - split; [intros _ j Hj; lia|reflexivity].
  - destruct (isSlotOccupied m i) eqn:Hocc.
    + split; [discriminate|]. intros Hall. rewrite Hall in Hocc by lia. discriminate.
    + rewrite IH. split; intros Hall j Hj.
      * destruct (Z.eq_dec j i) as [->|]; [exact Hocc|apply Hall; lia].
      * apply Hall. lia.
Qed.

(** X16: on a slot map with [_capacity] entries, [defragment] returns
    [true] exactly when there are no slots at all, or when the occupied
    slots are a leading block that is followed by at least one empty slot
    and nothing but empty slots. A map in which every slot is occupied is
    reported as in need of defragmentation. *)
Theorem defragment_reports (m : t) (a : list bool) :
  _slotMap m = Some a ->
  Z.of_nat (length a) = _capacity m ->
  _capacity m < 2 ^ 16 - 1 ->
  (defragment m = true
   <-> _capacity m = 0
       \/ exists e, 1 <= e <= _capacity m
                    /\ (forall j, 1 <= j < e -> isSlotOccupied m j = true)
                    /\ (forall j, e <= j <= _capacity m -> isSlotOccupied m j = false))
  /\ (1 <= _capacity m ->
      (forall j, 1 <= j <= _capacity m -> isSlotOccupied m j = true) ->
      defragment m = false).
Proof.
  intros Ha Hlen Hcap.
  assert (Hocc : forall j, 1 <= j <= _capacity m -> isSlotOccupied m j = slot_at m (j - 1)).
  { intros j Hj. apply (isSlotOccupied_slot_at m a); assumption. }
  assert (Hiff : defragment m = true
     <-> _capacity m = 0
         \/ exists e, 1 <= e <= _capacity m
                      /\ (forall j, 1 <= j < e -> isSlotOccupied m j = true)
                      /\ (forall j, e <= j <= _capacity m -> isSlotOccupied m j = false)).
  { unfold defragment, findEmptySlot. rewrite Ha.
    rewrite bool_decide_eq_true_2 by (eexists; reflexivity).
    change (1 <? 1) with false. cbn [negb orb].
    destruct (Z.gtb_spec 1 (_capacity m)) as [Hnone|Hsome].
    { replace (Z.to_nat (_capacity m - 0)) with 0%nat by lia.
      cbn [defragment_loop]. split; [intros _; left; lia|reflexivity]. }
    destruct (map_findEmptySlot_loop_spec m (Z.to_nat (_capacity m - (1 - 1))) (1 - 1))
      as [[F0 Fall]|(Fr & Ff & Fall)]; [lia|lia| |].
    - rewrite F0. change (u16 (0 + 1)) with 1. rewrite defragment_loop_spec.
      split.
      + intros Hall. exfalso. specialize (Hall 1). rewrite Hocc in Hall by lia.
        rewrite Fall in Hall by lia. discriminate Hall. lia.
      + intros [Hzero|(e & He & _ & Hempty)]; [lia|].
        exfalso. specialize (Hempty e). rewrite Hocc in Hempty by lia.
        rewrite Fall in Hempty by lia. discriminate Hempty. lia.
    - set (first := findEmptySlot_loop m (Z.to_nat (_capacity m - (1 - 1))) (1 - 1)) in *.
      assert (Hu : u16 (first + 1) = first + 1) by (unfold u16; apply Z.mod_small; lia).
      rewrite Hu, defragment_loop_spec. split.
      + intros Hall. right. exists first. split; [lia|]. split.
        * intros j Hj. rewrite Hocc by lia. apply Fall. lia.
        * intros j Hj. destruct (Z.eq_dec j first) as [->|].
          -- rewrite Hocc by lia. exact Ff.
          -- apply Hall. lia.
      + intros [Hzero|(e & He & Hfull & Hempty)]; [lia|].
        intros j Hj. apply Hempty.
        destruct (Z.le_gt_cases e first) as [Hle|Hgt]; [lia|].
        exfalso. specialize (Hfull first). rewrite Hocc in Hfull by lia.
        rewrite Ff in Hfull. discriminate Hfull. lia. }
  split; [exact Hiff|].
  intros Hpos Hfull. destruct (defragment m) eqn:Hd; [|reflexivity].
  exfalso. destruct (proj1 Hiff eq_refl) as [Hzero|(e & He & _ & Hempty)]; [lia|].
  specialize (Hempty e). rewrite Hfull in Hempty by lia. discriminate Hempty. lia.
Qed.

Lemma take_S_insert_gen {A} (l : list A) (i : nat) (v : A) :
  (i < length l)%nat -> take (S i) (<[i := v]> l) = take i l ++ [v].
Proof.
  intros Hi. rewrite (take_S_r _ i v).
  - rewrite take_insert_ge by lia. reflexivity.
  - apply list_lookup_insert_eq. exact Hi.
Qed.

(** The ids of the empty slots among [i + 1 .. i + n]. *)
Lemma findEmptySlots_loop_spec (m : t) (count : Z) (n : nat) :
  forall (i found : Z) (results : list Z),
    0 <= i -> i + Z.of_nat n < 2 ^ 16 ->
    0 <= found <= count -> count < 2 ^ 16 ->
    count <= Z.of_nat (length results) ->
    findEmptySlots_loop m n i found count results
    = (found + Z.of_nat (length (take (Z.to_nat (count - found))
                                   (List.filter (fun id => negb (slot_at m (id - 1)))
                                                (seqZ (i + 1) (Z.of_nat n))))),
       take (Z.to_nat found) results
       ++ take (Z.to_nat (count - found))
            (List.filter (fun id => negb (slot_at m (id - 1))) (seqZ (i + 1) (Z.of_nat n)))
       ++ drop (Z.to_nat found
                + length (take (Z.to_nat (count - found))
                            (List.filter (fun id => negb (slot_at m (id - 1)))
                                         (seqZ (i + 1) (Z.of_nat n)))))
            results).
Proof.
  induction n as [|n IH]; intros i found results Hi Hn Hfound Hcount Hlen;
    cbn [findEmptySlots_loop].
  - cbn [seqZ]. change (seqZ (i + 1) (Z.of_nat 0)) with (@nil Z). cbn [List.filter].
    rewrite take_nil. cbn [length app]. rewrite Nat.add_0_r, take_drop.
    f_equal. lia.
  - rewrite seqZ_cons by lia. cbn [List.filter].
    replace (Z.pred (Z.of_nat (S n))) with (Z.of_nat n) by lia.
    replace (Z.succ (i + 1)) with (i + 1 + 1) by lia.
    replace (i + 1 - 1) with i by lia.
    destruct (Z.ltb_spec found count) as [Hlt|Hge].
    + destruct (slot_at m i) eqn:Hs; cbn [negb].
      * apply IH; lia.
      * assert (Hu : u16 (found + 1) = found + 1 /\ u16 (i + 1) = i + 1).
        { unfold u16. rewrite !Z.mod_small by lia. split; reflexivity. }
        destruct Hu as [-> ->].
        rewrite IH by (rewrite ?length_insert; lia).
        replace (Z.to_nat (count - found)) with (S (Z.to_nat (count - (found + 1)))) by lia.
        cbn [take length].
        replace (Z.to_nat (found + 1)) with (S (Z.to_nat found)) by lia.
        rewrite take_S_insert_gen by lia.
        rewrite drop_insert_lt by lia.
        rewrite <- app_assoc. cbn [app length].
        f_equal; [lia|]. do 3 f_equal. f_equal. lia.
    + replace (Z.to_nat (count - found)) with 0%nat by lia.
      rewrite !take_0. cbn [length app]. rewrite Nat.add_0_r, take_drop.
      f_equal. lia.
Qed.

(** X17: [findEmptySlots(count, results, start)], on a slot map with
    [_capacity] entries and a [results] array with room for [count] ids,
    writes to the front of [results] the ids of the first [count] slots at
    or after [start] that [isSlotOccupied] reports as free, in ascending
    order, returns how many it wrote and leaves the rest of the array as it
    was. *)
Theorem findEmptySlots_lists_first_free
  (m : t) (a : list bool) (count start : Z) (results : list Z) :
  _slotMap m = Some a ->
  Z.of_nat (length a) = _capacity m ->
  _capacity m < 2 ^ 16 ->
  1 <= start < 2 ^ 16 ->
  0 <= count < 2 ^ 16 ->
  count <= Z.of_nat (length results) ->
  findEmptySlots m count (Some results) start
  = (Z.of_nat (length (take (Z.to_nat count)
                         (List.filter (fun id => negb (isSlotOccupied m id))
                                      (seqZ start (_capacity m - start + 1))))),
     Some (take (Z.to_nat count)
             (List.filter (fun id => negb (isSlotOccupied m id))
                          (seqZ start (_capacity m - start + 1)))
           ++ drop (length (take (Z.to_nat count)
                              (List.filter (fun id => negb (isSlotOccupied m id))
                                           (seqZ start (_capacity m - start + 1)))))
                results)).
Proof.
  intros Ha Hlen Hcap Hstart Hcount Hroom.
  assert (Hfilter : List.filter (fun id => negb (isSlotOccupied m id))
                                (seqZ start (_capacity m - start + 1))
                    = List.filter (fun id => negb (slot_at m (id - 1)))
                                  (seqZ start (_capacity m - start + 1))).
  { apply List.filter_ext_in. intros id Hin.
    apply list_elem_of_In, elem_of_seqZ in Hin.
    rewrite (isSlotOccupied_slot_at m a) by (try assumption; lia). reflexivity. }
  rewrite Hfilter. unfold findEmptySlots. rewrite Ha.
  rewrite bool_decide_eq_true_2 by (eexists; reflexivity). cbn [negb orb].
  destruct (Z.eqb_spec count 0) as [->|Hpos].
  { cbn [Z.to_nat]. rewrite take_0. reflexivity. }
  assert (Hu : u16 (start - 1) = start - 1) by (unfold u16; apply Z.mod_small; lia).
  rewrite Hu.
  rewrite (findEmptySlots_loop_spec m count) by lia.
  replace (start - 1 + 1) with start by lia.
  replace (count - 0) with count by lia.
  destruct (Z.le_gt_cases start (_capacity m)) as [Hin|Hout].
  - rewrite Z2Nat.id by lia.
    replace (_capacity m - (start - 1)) with (_capacity m - start + 1) by lia.
    reflexivity.
  - replace (Z.to_nat (_capacity m - (start - 1))) with 0%nat by lia.
    rewrite (seqZ_nil start (_capacity m - start + 1)) by lia.
    change (seqZ start (Z.of_nat 0)) with (@nil Z). cbn [List.filter].
    rewrite take_nil. reflexivity.
Qed.

Section ManagerScan.
Context {E : Type} `{!Platform E}.

Lemma scanAllSlots_loop_spec (n : nat) :
  forall (i : Z) (m : t) (w : World E) (a : list bool),
    _slotMap m = Some a ->
    0 <= i ->
    i + Z.of_nat n <= Z.of_nat (length a) ->
    i + Z.of_nat n < 2 ^ 16 ->
    _enrolledCount m = count_true (take (Z.to_nat i) a) ->
    exists a',
      _slotMap (fst (snd (scanAllSlots_loop n i (m, w)))) = Some a'
      /\ length a' = length a
      /\ _capacity (fst (snd (scanAllSlots_loop n i (m, w)))) = _capacity m
      /\ _enrolledCount (fst (snd (scanAllSlots_loop n i (m, w))))
         = count_true (take (Z.to_nat (i + Z.of_nat n)) a')
      /\ trace (snd (snd (scanAllSlots_loop n i (m, w))))
         = trace w ++ (GetTemplateCount <$> seqZ (i + 1) (Z.of_nat n)).
Proof.
  induction n as [|n IH]; intros i m w a Ha Hi Hlen Hfit Hcount;
    cbn [scanAllSlots_loop]; run_monad.
  - exists a. rewrite Z.add_0_r, app_nil_r. repeat split; assumption.
  - assert (Hid : u16 (i + 1) = i + 1) by (unfold u16; apply Z.mod_small; lia).
    rewrite Hid.
    destruct (respond (env w) (GetTemplateCount (i + 1))) as [r e']. run_monad.
    pose proof (count_true_bounds (take (Z.to_nat i) a)) as Hle.
    rewrite length_take in Hle.
    assert (Hstep : forall v : bool,
               _enrolledCount m + Z.b2z v
               = count_true (take (Z.to_nat (i + 1)) (<[Z.to_nat i := v]> a))).
    { intros v. replace (Z.to_nat (i + 1)) with (S (Z.to_nat i)) by lia.
      rewrite take_S_insert by lia. rewrite count_true_app, Hcount.
      rewrite count_true_cons. change (count_true []) with 0. lia. }
    rewrite seqZ_cons by lia. cbn [fmap list_fmap].
    replace (Z.pred (Z.of_nat (S n))) with (Z.of_nat n) by lia.
    replace (Z.succ (i + 1)) with (i + 1 + 1) by lia.
    replace (i + Z.of_nat (S n)) with (i + 1 + Z.of_nat n) by lia.
    destruct (u8 r =? FINGERPRINT_OK codes); run_monad.
    + match goal with
      | |- context [scanAllSlots_loop n (i + 1) (?m1, ?w1)] =>
          destruct (IH (i + 1) m1 w1 (<[Z.to_nat i := true]> a))
            as (a' & Ha' & Hl' & Hc' & Hn' & Ht')
      end.
      * cbn. rewrite Ha. reflexivity.
      * lia.
      * rewrite length_insert. lia.
      * lia.
      * cbn. unfold u16. rewrite Z.mod_small by lia. apply (Hstep true).
      * exists a'. rewrite length_insert in Hl'. cbn [trace] in Ht'.
        rewrite <- app_assoc in Ht'. repeat split; assumption.
    + match goal with
      | |- context [scanAllSlots_loop n (i + 1) (?m1, ?w1)] =>
          destruct (IH (i + 1) m1 w1 (<[Z.to_nat i := false]> a))
            as (a' & Ha' & Hl' & Hc' & Hn' & Ht')
      end.
      * cbn. rewrite Ha. reflexivity.
      * lia.
      * rewrite length_insert. lia.
      * lia.
      * cbn. rewrite <- (Hstep false). cbn. lia.
      * exists a'. rewrite length_insert in Hl'. cbn [trace] in Ht'.
        rewrite <- app_assoc in Ht'. repeat split; assumption.
Qed.

(** X18: [init] on a manager with a capacity of zero fails without a call
    and without allocating. With a positive capacity it fails without a
    call when the allocation fails, and also, with the map allocated and
    zeroed, when there is no driver; otherwise it queries the slots
    [1 .. _capacity] once each in order, returns [true], and leaves a count
    equal to the number of occupied entries. *)
Theorem init_counts_entries (allocated : option (list bool)) (m : t) (w : World E) :
  0 <= _capacity m < 2 ^ 16 ->
  (forall a, allocated = Some a -> Z.of_nat (length a) = _capacity m) ->
  if _capacity m =? 0 then init allocated (m, w) = (false, (m, w))
  else
    match allocated, _finger m with
    | None, _ => init allocated (m, w) = (false, (set_slotMap None m, w))
    | Some a, None =>
        init allocated (m, w)
        = (false,
           (set_slotMap (Some (replicate (Z.to_nat (_capacity m)) false)) m, w))
    | Some a, Some _ =>
        fst (init allocated (m, w)) = true
        /\ exists a',
             _slotMap (fst (snd (init allocated (m, w)))) = Some a'
             /\ Z.of_nat (length a') = _capacity m
             /\ _capacity (fst (snd (init allocated (m, w)))) = _capacity m
             /\ _enrolledCount (fst (snd (init allocated (m, w)))) = count_true a'
             /\ trace (snd (snd (init allocated (m, w))))
                = trace w ++ (GetTemplateCount <$> seqZ 1 (_capacity m))
    end.
Proof.
  intros Hcap Hlen. unfold init. run_monad.
  destruct (Z.eqb_spec (_capacity m) 0) as [Hz|Hnz]; [reflexivity|].
  destruct allocated as [a|]; cbn [set_slotMap _slotMap _capacity].
  2: { rewrite bool_decide_eq_false_2 by (intros [x Hx]; discriminate).
       reflexivity. }
  rewrite bool_decide_eq_true_2 by (eexists; reflexivity). run_monad.
  cbn [set_slotMap _slotMap _capacity _finger _enrolledCount fmap option_fmap option_map].
  rewrite (memset0_all a (_capacity m) (Hlen a eq_refl)).
  unfold scanAllSlots. run_monad. cbn [set_slotMap _slotMap _capacity _finger].
  rewrite bool_decide_eq_true_2 by (eexists; reflexivity).
  destruct (_finger m) as [f|] eqn:Hf.
  2: { rewrite bool_decide_eq_false_2 by (intros [x Hx]; discriminate).
       reflexivity. }
  rewrite bool_decide_eq_true_2 by (eexists; reflexivity). run_monad.
  match goal with
  | |- context [scanAllSlots_loop ?n 0 (?m1, w)] =>
      destruct (scanAllSlots_loop_spec n 0 m1 w
                  (replicate (Z.to_nat (_capacity m)) false))
        as (a' & Ha' & Hl' & Hc' & Hn' & Ht');
      [reflexivity|lia|rewrite length_replicate; lia|lia|reflexivity|];
      destruct (scanAllSlots_loop n 0 (m1, w)) as [u [m2 w2]]
  end.
  cbn [fst snd] in *. rewrite length_replicate in Hl'.
  rewrite Z2Nat.id in Hn', Ht' by lia.
  replace (Z.to_nat (0 + _capacity m)) with (length a') in Hn' by lia.
  rewrite firstn_all in Hn'.
  split; [reflexivity|]. exists a'.
  split; [exact Ha'|]. split; [lia|]. split; [exact Hc'|]. split; [exact Hn'|exact Ht'].
Qed.

End ManagerScan.

End MemoryManagerFacts.

(** ** The properties above at concrete inputs *)

Lemma reachable_after_begin_AS608 :
  reachable (fst after_begin_AS608, snd after_begin_AS608).
Proof.
  apply (reachable_op (OpBegin 0 57600)
           (UniversalFingerprint_new false UF_SENSOR_AS608, fresh_world (accepting 162)));
    [|reflexivity].
  apply reachable_new.
Defined.

Lemma reachable_after_scan_empty :
  reachable (fst after_scan_empty, snd after_scan_empty).
Proof.
  apply (reachable_op OpScanDatabase
           (snd (begin 0 57600
                   (UniversalFingerprint_new false UF_SENSOR_AS608,
                    fresh_world empty_AS608))));
    [|vm_compute; reflexivity].
  apply (reachable_op (OpBegin 0 57600)
           (UniversalFingerprint_new false UF_SENSOR_AS608, fresh_world empty_AS608));
    [|reflexivity].
  apply reachable_new.
Defined.

Lemma scanDatabase_counts_entries_witness :
  _databaseScanned
    (fst (snd (scanDatabase (fst after_begin_AS608, snd after_begin_AS608))))
  = true.
Proof.
  destruct (scanDatabase_counts_entries (fst after_begin_AS608) (snd after_begin_AS608)
              (Inv_begin 0 57600 _ _ (Inv_new false UF_SENSOR_AS608)) eq_refl)
    as (a' & _ & _ & _ & H & _).
  exact H.
Defined.

Lemma getDatabaseStats_never_overcounts_witness :
  totalSlots (snd (fst (getDatabaseStats (fst after_enroll_1, snd after_enroll_1))))
  = _capacity (fst after_enroll_1).
Proof.
  exact (proj1 (getDatabaseStats_never_overcounts
                  (fst after_enroll_1) (snd after_enroll_1) reachable_after_enroll_1)).
Defined.

Lemma enroll_success_occupies_slot_witness :
  _enrolledCount (fst after_enroll_1) = _enrolledCount (fst after_begin_AS608) + 1.
Proof.
  refine (proj2 (proj2 (enroll_success_occupies_slot 5 1 2
                          (fst after_begin_AS608) (fst after_enroll_1)
                          (snd after_begin_AS608) (snd after_enroll_1)
                          reachable_after_begin_AS608 _))).
  vm_compute. reflexivity.
Defined.

Lemma deleteTemplate_success_frees_slot_witness :
  trace (snd (snd (deleteTemplate 1 (fst after_enroll_1, snd after_enroll_1))))
  = trace (snd after_enroll_1) ++ [DeleteModel 1].
Proof.
  refine (proj2 (deleteTemplate_success_frees_slot 1
                   (fst after_enroll_1) (snd after_enroll_1)
                   reachable_after_enroll_1 _)).
  vm_compute. reflexivity.
Defined.

Lemma enroll_then_delete_restores_witness :
  fst (snd (deleteTemplate 1
              (match enroll 5 1 2 after_scan_empty with
               | Some (_, s) => fst s
               | None => fst after_scan_empty
               end, snd after_scan_empty)))
  = fst after_scan_empty.
Proof.
  refine (enroll_then_delete_restores 5 1 2 (fst after_scan_empty) _
            (snd after_scan_empty)
            (match enroll 5 1 2 after_scan_empty with
             | Some (_, s) => snd s
             | None => snd after_scan_empty
             end)
            (snd after_scan_empty)
            reachable_after_scan_empty _ _ _);
    vm_compute; reflexivity.
Defined.

Lemma clearDatabase_blocks_automatic_choice_witness :
  findLastEmptySlot (fst (snd (clearDatabase (fst after_enroll_1, snd after_enroll_1))))
  = 0.
Proof.
  refine (proj1 (proj2 (proj2 (clearDatabase_blocks_automatic_choice 5 2
                                  (fst after_enroll_1) (snd after_enroll_1) _)))).
  vm_compute. reflexivity.
Defined.

Lemma clearDatabase_deletes_every_slot_witness :
  trace (snd (snd (clearDatabase (three_slots true, fresh_world delete_fails))))
  = [DeleteModel 1; DeleteModel 2; DeleteModel 3].
Proof.
  exact (proj1 (clearDatabase_deletes_every_slot
                  (three_slots true) (fresh_world delete_fails) eq_refl)).
Defined.

Lemma detect_agrees_with_table_witness :
  UF_SensorDetector.getSensorName
    (fst (snd (UF_SensorDetector.detect
                 (UF_SensorDetector.new, fresh_world (accepting 1000)))))
  = sensorTypeToString
      (fst (UF_SensorDetector.detect
              (UF_SensorDetector.new, fresh_world (accepting 1000)))).
Proof.
  refine (proj1 (proj2 (proj2 (detect_agrees_with_table UF_SensorDetector.new
                                 (fresh_world (accepting 1000))))) _).
  vm_compute. discriminate.
Defined.

Lemma searches_leave_object_alone_witness :
  fst (snd (verify search_matches 1 None (fst after_enroll_1, snd after_enroll_1)))
  = fst after_enroll_1.
Proof.
  exact (proj2 (searches_leave_object_alone 0x09 search_finds_7 search_matches
                  5 1 None 10 (fst after_enroll_1, snd after_enroll_1))).
Defined.

Lemma no_finger_AS608_always :
  always_no_finger no_finger_AS608.
Proof.
  exists (fun m => getImageResult m = 0x02). split; [reflexivity|]. split.
  - intros e' c He'. exact He'.
  - intros e' He'. cbn. rewrite He'. reflexivity.
Defined.

Lemma no_finger_is_not_waited_for_witness :
  exists w',
    identify 0x09 search_finds_7 5 None 10
      (set_initialized true (UniversalFingerprint_new false UF_SENSOR_AS608),
       fresh_world no_finger_AS608)
    = Some ((-9, None),
            (set_initialized true (UniversalFingerprint_new false UF_SENSOR_AS608), w'))
    /\ (trace w' = trace (fresh_world no_finger_AS608)
                   ++ [Millis; Millis; GetImage; GetImage; GetImage]
        \/ trace w' = trace (fresh_world no_finger_AS608)
                      ++ [Millis; Millis; GetImage; GetImage]).
Proof.
  refine (proj1 (no_finger_is_not_waited_for 0x09 search_finds_7 search_matches
                   5 1 None 10
                   (set_initialized true (UniversalFingerprint_new false UF_SENSOR_AS608))
                   (fresh_world no_finger_AS608) eq_refl no_finger_AS608_always _ _)).
  - vm_compute. discriminate.
  - repeat constructor.
Defined.

Lemma updateSlot_keeps_count_witness :
  exists a',
    UF_MemoryManager._slotMap (snd (UF_MemoryManager.updateSlot 2 true three_slot_manager))
    = Some a'
    /\ UF_MemoryManager._enrolledCount
         (snd (UF_MemoryManager.updateSlot 2 true three_slot_manager))
       = count_true a'.
Proof.
  exact (updateSlot_keeps_count 2 true three_slot_manager [true; false; false]
           eq_refl eq_refl eq_refl eq_refl).
Defined.

Lemma updateSlot_idempotent_witness :
  snd (UF_MemoryManager.updateSlot 2 true
         (snd (UF_MemoryManager.updateSlot 2 true three_slot_manager)))
  = snd (UF_MemoryManager.updateSlot 2 true three_slot_manager).
Proof.
  exact (MemoryManagerFacts.updateSlot_idempotent 2 true three_slot_manager
           [true; false; false] eq_refl eq_refl).
Defined.

Lemma defragment_reports_witness :
  UF_MemoryManager.defragment three_slot_manager = true
  <-> UF_MemoryManager._capacity three_slot_manager = 0
      \/ exists e,
           1 <= e <= UF_MemoryManager._capacity three_slot_manager
           /\ (forall j, 1 <= j < e ->
                         UF_MemoryManager.isSlotOccupied three_slot_manager j = true)
           /\ (forall j, e <= j <= UF_MemoryManager._capacity three_slot_manager ->
                         UF_MemoryManager.isSlotOccupied three_slot_manager j = false).
Proof.
  exact (proj1 (MemoryManagerFacts.defragment_reports three_slot_manager
                  [true; false; false] eq_refl eq_refl eq_refl)).
Defined.

Lemma findEmptySlots_lists_first_free_witness :
  UF_MemoryManager.findEmptySlots three_slot_manager 5 (Some [0; 0; 0; 0; 0]) 1
  = (2, Some [2; 3; 0; 0; 0]).
Proof.
  rewrite (MemoryManagerFacts.findEmptySlots_lists_first_free three_slot_manager
             [true; false; false] 5 1 [0; 0; 0; 0; 0] eq_refl eq_refl eq_refl);
    [reflexivity| | |]; vm_compute; intuition discriminate.
Defined.

Lemma init_counts_entries_witness :
  fst (UF_MemoryManager.init (Some [true; true; false])
         (UF_MemoryManager.new (Some tt) 3, fresh_world (accepting 2)))
  = true
  /\ UF_MemoryManager.init (Some [true; true; false])
       (UF_MemoryManager.new None 3, fresh_world (accepting 2))
     = (false,
        (UF_MemoryManager.set_slotMap (Some [false; false; false])
           (UF_MemoryManager.new None 3),
         fresh_world (accepting 2))).
Proof.
  assert (Hcap : 0 <= 3 < 2 ^ 16) by (vm_compute; intuition discriminate).
  assert (Hlen : forall a, Some [true; true; false] = Some a ->
                           Z.of_nat (length a) = 3)
    by (intros a [= <-]; reflexivity).
  split.
  - exact (proj1 (MemoryManagerFacts.init_counts_entries (Some [true; true; false])
                    (UF_MemoryManager.new (Some tt) 3)
                    (fresh_world (accepting 2)) Hcap Hlen)).
  - exact (MemoryManagerFacts.init_counts_entries (Some [true; true; false])
             (UF_MemoryManager.new None 3)
             (fresh_world (accepting 2)) Hcap Hlen).
Defined.

(** ** More on scanning, enrolment and validation *)

Section Mirror.
Context {E : Type} `{!Platform E}.

Lemma scanDatabase_loop_mirror (P : E -> Prop) (f : Z -> bool) (n : nat) :
  (forall e c, P e -> P (snd (respond e c))) ->
  (forall e id, P e ->
     (u8 (fst (respond e (GetTemplateCount id))) =? FINGERPRINT_OK codes) = f id) ->
  forall (i count : Z) (o : UniversalFingerprint) (w : World E) (a : list bool),
    P (env w) ->
    _slotOccupancy o = Some a ->
    0 <= i ->
    i + Z.of_nat n <= Z.of_nat (length a) ->
    i + Z.of_nat n < 2 ^ 16 ->
    exists a',
      _slotOccupancy (fst (snd (scanDatabase_loop n i count (o, w)))) = Some a'
      /\ (forall j, i <= j < i + Z.of_nat n -> a' !! Z.to_nat j = Some (f (j + 1)))
      /\ (forall j, 0 <= j < i -> a' !! Z.to_nat j = a !! Z.to_nat j).
Proof.
  intros Hstep Hans.
  induction n as [|n IH]; intros i count o w a HP Ha Hi Hlen Hfit;
    cbn [scanDatabase_loop]; run_monad.
  - exists a. split; [exact Ha|]. split; [intros j Hj; lia|reflexivity].
  - assert (Hid : u16 (i + 1) = i + 1) by (unfold u16; apply Z.mod_small; lia).
    rewrite Hid.
    pose proof (Hstep (env w) (GetTemplateCount (i + 1)) HP) as HP'.
    pose proof (Hans (env w) (i + 1) HP) as Hcode.
    destruct (respond (env w) (GetTemplateCount (i + 1))) as [r e']. run_monad.
    cbn [fst snd] in *. rewrite Hcode.
    assert (Hnext : forall c1 v, v = f (i + 1) ->
              exists a',
                _slotOccupancy
                  (fst (snd (scanDatabase_loop n (i + 1) c1
                               (slot_set i v o,
                                {| env := e';
                                   trace := trace w ++ [GetTemplateCount (i + 1)] |}))))
                = Some a'
                /\ (forall j, i <= j < i + Z.of_nat (S n) ->
                              a' !! Z.to_nat j = Some (f (j + 1)))
                /\ (forall j, 0 <= j < i -> a' !! Z.to_nat j = a !! Z.to_nat j)).
    { intros c1 v Hv.
      destruct (IH (i + 1) c1 (slot_set i v o)
                  {| env := e'; trace := trace w ++ [GetTemplateCount (i + 1)] |}
                  (<[Z.to_nat i := v]> a))
        as (a' & Ha' & Hnew & Hold).
      - exact HP'.
      - unfold slot_set. cbn. rewrite Ha. reflexivity.
      - lia.
      - rewrite length_insert. lia.
      - lia.
      - exists a'. split; [exact Ha'|]. split.
        + intros j Hj. destruct (Z.eq_dec j i) as [->|Hne].
          * rewrite Hold by lia. rewrite list_lookup_insert_eq by lia. congruence.
          * apply Hnew. lia.
        + intros j Hj. rewrite Hold by lia.
          apply list_lookup_insert_ne. lia. }
    destruct (f (i + 1)) eqn:Hf; run_monad.
    + apply (Hnext _ true). reflexivity.
    + apply (Hnext _ false). reflexivity.
Qed.

(** X20: when the device's answer to the slot query is a fixed function of
    the slot, a scan makes the cache mirror the device: afterwards
    [isSlotOccupied(id)] is [true] exactly for the slots in
    [[1, _capacity]] whose query the device answers with OK. *)
Theorem scanDatabase_mirrors_device
  (P : E -> Prop) (f : Z -> bool) (o : UniversalFingerprint) (w : World E) :
  Inv o ->
  _initialized o = true ->
  P (env w) ->
  (forall e c, P e -> P (snd (respond e c))) ->
  (forall e id, P e ->
     (u8 (fst (respond e (GetTemplateCount id))) =? FINGERPRINT_OK codes) = f id) ->
  forall id, 1 <= id <= _capacity o ->
             isSlotOccupied (fst (snd (scanDatabase (o, w)))) id = f id.
Proof.
  intros HInv Hinit HP Hstep Hans id Hid.
  destruct (inv_array o HInv Hinit) as (a & Ha & Hlen).
  pose proof (inv_capacity o HInv) as Hcap.
  destruct (scanDatabase_loop_mirror P f (Z.to_nat (_capacity o)) Hstep Hans
              0 0 o w a HP Ha) as (a' & Ha' & Hnew & _); [lia|lia|lia|].
  pose proof (scanDatabase_loop_frame (Z.to_nat (_capacity o)) 0 0 o w) as (_ & Hcap' & _).
  unfold scanDatabase. run_monad. rewrite Hinit, Ha.
  rewrite bool_decide_eq_true_2 by (eexists; reflexivity). run_monad.
  destruct (scanDatabase_loop (Z.to_nat (_capacity o)) 0 0 (o, w)) as [count [o1 w1]].
  cbn [fst snd] in *.
  unfold isSlotOccupied, slot_at. cbn. rewrite Hcap', Ha'.
  destruct (Z.ltb_spec id 1); [lia|]. destruct (Z.gtb_spec id (_capacity o)); [lia|].
  rewrite (Hnew (id - 1)) by lia. cbn. f_equal. lia.
Qed.

(** X21: in every state the program can reach, a cache marked scanned
    belongs to an initialised object; an initialised object owns an array
    of exactly [_capacity] entries, with a capacity of at most 1000, so
    every guarded read is in bounds; the count is between zero and the
    number of occupied entries; and a cache not marked scanned has no
    occupied entry and a count of zero. *)
Theorem reachable_states_are_well_formed (o : UniversalFingerprint) (w : World E) :
  reachable (o, w) ->
  (_databaseScanned o = true -> _initialized o = true)
  /\ (_initialized o = false -> _enrolledCount o = 0)
  /\ (_initialized o = true ->
      exists a, _slotOccupancy o = Some a
                /\ Z.of_nat (length a) = _capacity o
                /\ 0 <= _enrolledCount o <= count_true a
                /\ count_true a <= _capacity o <= 1000
                /\ (_databaseScanned o = false ->
                    _enrolledCount o = 0 /\ a = replicate (length a) false)).
Proof.
  intros Hreach.
  pose proof (reachable_Counted (o, w) Hreach) as HC. cbn [fst] in HC.
  pose proof (counted_Inv o HC) as HInv.
  split; [exact (inv_scanned o HInv)|]. split; [exact (counted_fresh o HC)|].
  intros Hinit. destruct (inv_array o HInv Hinit) as (a & Ha & Hlen).
  exists a. pose proof (count_true_bounds a). pose proof (inv_capacity o HInv).
  split; [exact Ha|]. split; [exact Hlen|].
  split; [exact (counted_le o HC a Hinit Ha)|]. split; [lia|].
  exact (counted_unscanned o HC a Hinit Ha).
Qed.

(** X22: [enroll] never reports a timeout, although it waits with one:
    whatever it returns is one of the four local rejections or a translated
    driver code. When it returns [UF_OK], the calls it made are the first
    capture and conversion, the pause, clock reads and captures while
    waiting, the second conversion, the model creation and, last and only
    once, the store command for the slot it then marks. *)
Theorem enroll_outcomes_and_commands
  (fuel : nat) (id numScans : Z) (o o' : UniversalFingerprint) (w w' : World E)
  (r : UF_ErrorCode) :
  enroll fuel id numScans (o, w) = Some (r, (o', w')) ->
  r ∈ [UF_ERROR_NO_SENSOR; UF_ERROR_SLOT_FULL; UF_ERROR_INVALID_ID;
       UF_ERROR_DUPLICATE_ID] ++ convert_outcomes
  /\ r <> UF_ERROR_TIMEOUT
  /\ (r = UF_OK ->
      exists l,
        trace w'
        = trace w ++ [GetImage; Image2Tz 1; Delay 2000; Millis] ++ l
          ++ [Image2Tz 2; CreateModel;
              StoreModel (if id =? 0 then findEmptySlot o 1 else id)]
        /\ Forall (fun c => c = Millis \/ c = GetImage) l).
Proof.
  intros Hrun.
  assert (Hat : forall slot,
             enroll_at fuel slot (o, w) = Some (r, (o', w')) ->
             r ∈ [UF_ERROR_NO_SENSOR; UF_ERROR_SLOT_FULL; UF_ERROR_INVALID_ID;
                  UF_ERROR_DUPLICATE_ID] ++ convert_outcomes
             /\ (r = UF_OK ->
                 exists l,
                   trace w'
                   = trace w ++ [GetImage; Image2Tz 1; Delay 2000; Millis] ++ l
                     ++ [Image2Tz 2; CreateModel; StoreModel slot]
                   /\ Forall (fun c => c = Millis \/ c = GetImage) l)).
  { intros slot. unfold enroll_at. cbn [fst].
    destruct (negb (_validateID o slot)).
    { intros [= <- _ _]. split; [|discriminate]. apply list_elem_of_In. cbn. tauto. }
    destruct (_databaseScanned o && slot_at o (slot - 1)).
    { intros [= <- _ _]. split; [|discriminate]. apply list_elem_of_In. cbn. tauto. }
    destruct (_enrollInternal fuel slot (o, w)) as [[r1 [o1 w1]]|] eqn:Hint;
      [|discriminate].
    destruct (enrollInternal_outcome _ _ _ _ _ Hint) as [Hin Hok].
    intros Hsome.
    assert (r = r1 /\ w' = w1) as [-> ->].
    { destruct (bool_decide (r1 = UF_OK)); unfold update in Hsome;
        cbn [fst snd] in Hsome; injection Hsome as <- _ <-; split; reflexivity. }
    split.
    - apply elem_of_app. right. exact Hin.
    - intros Hr. destruct (Hok Hr) as (l & [_ Ht] & Hall). exists l.
      split; [exact Ht|exact Hall]. }
  assert (Hmain : r ∈ [UF_ERROR_NO_SENSOR; UF_ERROR_SLOT_FULL; UF_ERROR_INVALID_ID;
                       UF_ERROR_DUPLICATE_ID] ++ convert_outcomes
                  /\ (r = UF_OK ->
                      exists l,
                        trace w'
                        = trace w ++ [GetImage; Image2Tz 1; Delay 2000; Millis] ++ l
                          ++ [Image2Tz 2; CreateModel;
                              StoreModel (if id =? 0 then findEmptySlot o 1 else id)]
                        /\ Forall (fun c => c = Millis \/ c = GetImage) l)).
  { unfold enroll in Hrun. cbn [fst] in Hrun.
    destruct (negb (_initialized o)).
    { injection Hrun as <- _ _. split; [|discriminate]. apply list_elem_of_In. cbn. tauto. }
    destruct (id =? 0).
    - destruct (findEmptySlot o 1 =? 0).
      { injection Hrun as <- _ _. split; [|discriminate].
        apply list_elem_of_In. cbn. tauto. }
      apply Hat. exact Hrun.
    - apply Hat. exact Hrun. }
  destruct Hmain as [Hin Hok]. split; [exact Hin|]. split; [|exact Hok].
  intros ->. apply list_elem_of_In in Hin. cbn in Hin.
  repeat (destruct Hin as [Hin|Hin]; [discriminate Hin|]). exact Hin.
Qed.

(** X23: a slot id outside [[1, _capacity]] is rejected on the spot by
    [deleteTemplate] and, unless it is the automatic id 0, by [enroll]: the
    outcome is [UF_ERROR_INVALID_ID], no call is made and the object is
    unchanged. *)
Theorem invalid_id_rejected_locally
  (fuel : nat) (id numScans : Z) (o : UniversalFingerprint) (w : World E) :
  _initialized o = true ->
  id < 1 \/ id > _capacity o ->
  deleteTemplate id (o, w) = (UF_ERROR_INVALID_ID, (o, w))
  /\ (id <> 0 ->
      enroll fuel id numScans (o, w) = Some (UF_ERROR_INVALID_ID, (o, w))).
Proof.
  intros Hinit Hid.
  assert (Hvalid : _validateID o id = false).
  { unfold _validateID. destruct (Z.leb_spec 1 id); destruct (Z.leb_spec id (_capacity o));
      cbn; try reflexivity; lia. }
  split.
  - unfold deleteTemplate. run_monad. rewrite Hinit, Hvalid. reflexivity.
  - intros Hnz. unfold enroll. cbn [fst]. rewrite Hinit. cbn [negb].
    destruct (Z.eqb_spec id 0); [contradiction|].
    unfold enroll_at. cbn [fst]. rewrite Hvalid. reflexivity.
Qed.

End Mirror.

(** X24: [UF_MemoryManager::findEmptySlot], which has no scanned flag,
    returns the smallest slot id at or after [start] whose entry is
    [false], and 0 when [start] is outside [[1, _capacity]] or every entry
    from [start] on is [true]. *)
Theorem manager_findEmptySlot_smallest
  (m : UF_MemoryManager.t) (a : list bool) (start : Z) :
  UF_MemoryManager._slotMap m = Some a ->
  Z.of_nat (length a) = UF_MemoryManager._capacity m ->
  UF_MemoryManager._capacity m < 2 ^ 16 ->
  (1 <= start <= UF_MemoryManager.findEmptySlot m start
   /\ UF_MemoryManager.findEmptySlot m start <= UF_MemoryManager._capacity m
   /\ UF_MemoryManager.isSlotOccupied m (UF_MemoryManager.findEmptySlot m start) = false
   /\ forall j, start <= j < UF_MemoryManager.findEmptySlot m start ->
                UF_MemoryManager.isSlotOccupied m j = true)
  \/ (UF_MemoryManager.findEmptySlot m start = 0
      /\ (start < 1 \/ start > UF_MemoryManager._capacity m
          \/ forall j, start <= j <= UF_MemoryManager._capacity m ->
                       UF_MemoryManager.isSlotOccupied m j = true)).
Proof.
  intros Ha Hlen Hcap. unfold UF_MemoryManager.findEmptySlot. rewrite Ha.
  rewrite bool_decide_eq_true_2 by (eexists; reflexivity). cbn [negb orb].
  destruct (Z.ltb_spec start 1) as [Hk1|Hk1]; cbn [orb].
  { right. split; [reflexivity|]. left. exact Hk1. }
  destruct (Z.gtb_spec start (UF_MemoryManager._capacity m)) as [Hk2|Hk2].
  { right. split; [reflexivity|]. right. left. lia. }
  assert (Hocc : forall j, 1 <= j <= UF_MemoryManager._capacity m ->
                           UF_MemoryManager.isSlotOccupied m j
                           = UF_MemoryManager.slot_at m (j - 1)).
  { intros j Hj. apply (MemoryManagerFacts.isSlotOccupied_slot_at m a); assumption. }
  destruct (MemoryManagerFacts.map_findEmptySlot_loop_spec m
              (Z.to_nat (UF_MemoryManager._capacity m - (start - 1))) (start - 1))
    as [[H0 Hall]|(Hr & Hf & Hall)]; [lia|lia| |].
  - right. split; [exact H0|]. right. right. intros j Hj.
    rewrite Hocc by lia. apply Hall. lia.
  - left. split; [lia|]. split; [lia|]. split.
    + rewrite Hocc by lia. exact Hf.
    + intros j Hj. rewrite Hocc by lia. apply Hall. lia.
Qed.

(** ** The same at concrete inputs *)

Lemma scanDatabase_mirrors_device_witness :
  isSlotOccupied
    (fst (snd (scanDatabase (three_slots false, fresh_world (accepting 2))))) 2
  = true.
Proof.
  refine (scanDatabase_mirrors_device
            (fun e => e = accepting 2) (fun id => id <=? 2)
            (three_slots false) (fresh_world (accepting 2))
            (Inv_three_slots false) eq_refl eq_refl _ _ 2 _).
  - intros e c ->. reflexivity.
  - intros e id ->.
    unfold respond, MockSensor_platform, MockSensor_respond, accepting.
    cbn [fst slotLimit]. destruct (id <=? 2); vm_compute; reflexivity.
  - vm_compute. split; discriminate.
Defined.

Lemma reachable_states_are_well_formed_witness :
  exists a, _slotOccupancy (fst after_enroll_1) = Some a
            /\ Z.of_nat (length a) = _capacity (fst after_enroll_1)
            /\ 0 <= _enrolledCount (fst after_enroll_1) <= count_true a
            /\ count_true a <= _capacity (fst after_enroll_1) <= 1000
            /\ (_databaseScanned (fst after_enroll_1) = false ->
                _enrolledCount (fst after_enroll_1) = 0
                /\ a = replicate (length a) false).
Proof.
  exact (proj2 (proj2 (reachable_states_are_well_formed
                         (fst after_enroll_1) (snd after_enroll_1)
                         reachable_after_enroll_1)) eq_refl).
Defined.

Lemma enroll_outcomes_and_commands_witness :
  UF_OK <> UF_ERROR_TIMEOUT
  /\ exists l,
       trace (snd after_enroll_1)
       = trace (snd after_begin_AS608)
         ++ [GetImage; Image2Tz 1; Delay 2000; Millis] ++ l
         ++ [Image2Tz 2; CreateModel; StoreModel 1]
       /\ Forall (fun c => c = Millis \/ c = GetImage) l.
Proof.
  assert (Hrun : enroll 5 1 2 (fst after_begin_AS608, snd after_begin_AS608)
                 = Some (UF_OK, (fst after_enroll_1, snd after_enroll_1)))
    by (vm_compute; reflexivity).
  destruct (enroll_outcomes_and_commands 5 1 2
              (fst after_begin_AS608) (fst after_enroll_1)
              (snd after_begin_AS608) (snd after_enroll_1) UF_OK Hrun)
    as (_ & Hne & Hok).
  split; [exact Hne|exact (Hok eq_refl)].
Defined.

Lemma invalid_id_rejected_locally_witness :
  deleteTemplate 4 (three_slots true, fresh_world (accepting 3))
  = (UF_ERROR_INVALID_ID, (three_slots true, fresh_world (accepting 3)))
  /\ enroll 5 4 2 (three_slots true, fresh_world (accepting 3))
     = Some (UF_ERROR_INVALID_ID, (three_slots true, fresh_world (accepting 3))).
Proof.
  assert (Hid : 4 < 1 \/ 4 > _capacity (three_slots true))
    by (right; vm_compute; reflexivity).
  destruct (invalid_id_rejected_locally 5 4 2 (three_slots true)
              (fresh_world (accepting 3)) eq_refl Hid) as [Hdel Henr].
  split; [exact Hdel|]. apply Henr. discriminate.
Defined.

Lemma manager_findEmptySlot_smallest_witness :
  (1 <= 1 <= UF_MemoryManager.findEmptySlot three_slot_manager 1
   /\ UF_MemoryManager.findEmptySlot three_slot_manager 1
      <= UF_MemoryManager._capacity three_slot_manager
   /\ UF_MemoryManager.isSlotOccupied three_slot_manager
        (UF_MemoryManager.findEmptySlot three_slot_manager 1) = false
   /\ forall j, 1 <= j < UF_MemoryManager.findEmptySlot three_slot_manager 1 ->
                UF_MemoryManager.isSlotOccupied three_slot_manager j = true)
  \/ (UF_MemoryManager.findEmptySlot three_slot_manager 1 = 0
      /\ (1 < 1 \/ 1 > UF_MemoryManager._capacity three_slot_manager
          \/ forall j, 1 <= j <= UF_MemoryManager._capacity three_slot_manager ->
                       UF_MemoryManager.isSlotOccupied three_slot_manager j = true)).
Proof.
  exact (manager_findEmptySlot_smallest three_slot_manager [true; false; false] 1
           eq_refl eq_refl eq_refl).
Defined.
